(** * Trtle: the pixel-processing unit (src/ppu.c)

    A shallow embedding of the graphics controller of the Trtle Game Boy
    emulator: register bank, tile cache, timing state machine, line
    renderer and export routines, followed by the properties of the
    controller that the specification states.

    Machine integers are [Z] with the wrap-around written out; the C arrays
    are lists addressed through [rd] and [wr]. *)

From Stdlib Require Import ZArith List Lia Bool.
From stdpp Require Import base numbers list.

Local Open Scope Z_scope.

(** ** Machine integers and arrays *)

Definition u8 (z : Z) : Z := z mod 256.
Definition u16 (z : Z) : Z := z mod 65536.

(** [size_t] on the LP64 targets the emulator is built for. *)
Definition size_t (z : Z) : Z := z mod 2 ^ 64.

(** C truth value of an integer expression. *)
Definition c_true (z : Z) : bool := negb (z =? 0).

(** [a[i]] as an rvalue.  An index outside the array is undefined behaviour
    in C; the embedding reads 0 there. *)
Definition rd (a : list Z) (i : Z) : Z :=
  if i <? 0 then 0 else default 0 (a !! Z.to_nat i).

(** [a[i] = v].  An index outside the array is undefined behaviour in C; the
    embedding leaves the array as it is. *)
Definition wr (a : list Z) (i v : Z) : list Z :=
  if i <? 0 then a else <[Z.to_nat i := v]> a.

(** ** Control flow: [for] loops that may [return] from the function *)

Inductive flow (St Res : Type) : Type :=
| Next (s : St)
| Return (s : St) (r : Res).
Arguments Next {St Res} s.
Arguments Return {St Res} s r.

Definition flow_state {St Res : Type} (f : flow St Res) : St :=
  match f with Next s => s | Return s _ => s end.

(** [for (i = lo; n iterations; i++) body], leaving at the first [Return]. *)
Fixpoint for_up {St Res : Type} (n : nat) (i : Z) (body : Z -> St -> flow St Res)
  (s : St) : flow St Res :=
  match n with
  | O => Next s
  | S n' =>
      match body i s with
      | Next s' => for_up n' (i + 1) body s'
      | Return s' r => Return s' r
      end
  end.

(** ** Constants of ppu.c and gameboy.h *)

Definition LCDC_LCD_ENABLE_BIT : Z := 0x80.
Definition LCDC_WINDOW_MAP_BIT : Z := 0x40.
Definition LCDC_WINDOW_ENABLE_BIT : Z := 0x20.
Definition LCDC_BG_WINDOW_MODE_BIT : Z := 0x10.
Definition LCDC_BG_MAP_BIT : Z := 0x08.
Definition LCDC_SPRITE_SIZE_BIT : Z := 0x04.
Definition LCDC_SPRITE_ENABLE_BIT : Z := 0x02.
Definition LCDC_BG_ENABLE_BIT : Z := 0x01.

Definition STAT_UNUSED_BIT : Z := 0x80.
Definition STAT_WRITE_BITS : Z := 0x7C.
Definition STAT_LY_LYC_COMPARSION_ENABLE : Z := 0x40.
Definition STAT_OAM_SEARCH_CHECK_ENABLE : Z := 0x20.
Definition STAT_VBLANK_CHECK_ENABLE : Z := 0x10.
Definition STAT_HBLANK_CHECK_ENABLE : Z := 0x08.
Definition STAT_LY_LYC_COMPARISON_SIGNAL : Z := 0x04.
Definition STAT_MODE_BITS : Z := 0x03.

Definition SPRITE_TO_BG_PRIORITY_BIT : Z := 0x80.
Definition SPRITE_FLIP_Y_BIT : Z := 0x40.
Definition SPRITE_FLIP_X_BIT : Z := 0x20.

Definition PPU_HBLANK_LENGTH : Z := 50.
Definition PPU_VBLANK_LENGTH : Z := 114.
Definition PPU_OAM_SEARCH_LENGTH : Z := 21.
Definition PPU_DATA_TRANSFER_LENGTH : Z := 43.

Definition PPU_BYTES_PER_TILE : Z := 16.
Definition PPU_BYTES_PER_ROW : Z := 2.
Definition PPU_TS_WIDTH_IN_TILES : Z := 16.
Definition PPU_BG_TILE_COUNT : Z := 1024.
Definition PPU_BG_WIDTH_IN_TILES : Z := 32.
Definition PPU_BACKGROUND1_START : Z := 0x1800.
Definition PPU_BACKGROUND2_START : Z := 0x1C00.
Definition PPU_LCD_COLOR_CODE : Z := 4.

Definition GAMEBOY_DISPLAY_WIDTH : Z := 160.
Definition GAMEBOY_DISPLAY_HEIGHT : Z := 144.

Definition scx_cycle_offsets : list Z := [0; 1; 1; 1; 1; 2; 2; 2].

(** ** Declarations of ppu.h and interrupt_controller.h

    Neither header is among the sources.  The geometry macros are fixed by
    the specification; the numeric codes of the four modes, the two
    interrupt bits and the width of the dot counter are not, and stay
    parameters of the development. *)

(** Modelled from the spec: the macro PPU_PIXELS_PER_TILE_ROW of ppu.h; a
    tile is an 8x8 grid of color indices. *)
Definition PPU_PIXELS_PER_TILE_ROW : Z := 8.

(** Modelled from the spec: the macro PPU_ROWS_PER_TILE of ppu.h; a tile is
    an 8x8 grid of color indices. *)
Definition PPU_ROWS_PER_TILE : Z := 8.

(** Modelled from the spec: the macros PPU_DISPLAY_WIDTH and
    PPU_DISPLAY_HEIGHT of ppu.h; the display export is 160x144 shades. *)
Definition PPU_DISPLAY_WIDTH : Z := 160.
Definition PPU_DISPLAY_HEIGHT : Z := 144.

(** Modelled from the spec: the macros PPU_BG_WIDTH_IN_PIXELS and
    PPU_BG_HEIGHT_IN_PIXELS of ppu.h; the background layer is 256x256. *)
Definition PPU_BG_WIDTH_IN_PIXELS : Z := 256.
Definition PPU_BG_HEIGHT_IN_PIXELS : Z := 256.

(** Modelled from the spec: the macros PPU_TS_TILE_COUNT,
    PPU_TS_WIDTH_IN_PIXELS and PPU_TS_HEIGHT_IN_PIXELS of ppu.h; the tile
    set is 384 tiles laid out as a grid PPU_TS_WIDTH_IN_TILES tiles wide. *)
Definition PPU_TS_TILE_COUNT : Z := 384.
Definition PPU_TS_WIDTH_IN_PIXELS : Z := PPU_TS_WIDTH_IN_TILES * PPU_PIXELS_PER_TILE_ROW.
Definition PPU_TS_HEIGHT_IN_PIXELS : Z :=
  PPU_TS_TILE_COUNT / PPU_TS_WIDTH_IN_TILES * PPU_ROWS_PER_TILE.

(** The enumerators and widths the two headers declare and the
    specification leaves open. *)
Class Header : Type := {
  GRAPHICS_MODE_HBLANK : Z;
  GRAPHICS_MODE_VBLANK : Z;
  GRAPHICS_MODE_OAM_SEARCH : Z;
  GRAPHICS_MODE_DATA_TRANSFER : Z;
  VBLANK_INTERRUPT_BIT : Z;
  LCD_STAT_INTERRUPT_BIT : Z;
  COUNT_BITS : Z
}.

(** The four modes are the four values of the two mode bits of the status
    register (the labels of the [switch] of [ppu_cycle]). *)
Record HeaderOk (H : Header) : Prop := {
  hblank_range : 0 <= GRAPHICS_MODE_HBLANK <= 3;
  vblank_range : 0 <= GRAPHICS_MODE_VBLANK <= 3;
  oam_search_range : 0 <= GRAPHICS_MODE_OAM_SEARCH <= 3;
  data_transfer_range : 0 <= GRAPHICS_MODE_DATA_TRANSFER <= 3;
  hblank_vblank : GRAPHICS_MODE_HBLANK <> GRAPHICS_MODE_VBLANK;
  hblank_oam_search : GRAPHICS_MODE_HBLANK <> GRAPHICS_MODE_OAM_SEARCH;
  hblank_data_transfer : GRAPHICS_MODE_HBLANK <> GRAPHICS_MODE_DATA_TRANSFER;
  vblank_oam_search : GRAPHICS_MODE_VBLANK <> GRAPHICS_MODE_OAM_SEARCH;
  vblank_data_transfer : GRAPHICS_MODE_VBLANK <> GRAPHICS_MODE_DATA_TRANSFER;
  oam_search_data_transfer : GRAPHICS_MODE_OAM_SEARCH <> GRAPHICS_MODE_DATA_TRANSFER
}.

(** The values the handheld's hardware registers use: mode codes 0 to 3 in
    the status register, interrupt bits 0 and 1 of the flags register, and a
    [size_t] dot counter. *)
Definition dmg : Header := {|
  GRAPHICS_MODE_HBLANK := 0;
  GRAPHICS_MODE_VBLANK := 1;
  GRAPHICS_MODE_OAM_SEARCH := 2;
  GRAPHICS_MODE_DATA_TRANSFER := 3;
  VBLANK_INTERRUPT_BIT := 0x01;
  LCD_STAT_INTERRUPT_BIT := 0x02;
  COUNT_BITS := 64
|}.

(** ** Controller state *)

(** Modelled from the spec: struct PPU of ppu.h, with the fields ppu.c
    accesses.  The registers and the window-line counter are bytes;
    [tile_buffer] is the array [tile][row][pixel] in row-major order. *)
Record PPU : Type := mkPPU {
  lcdc : Z;
  stat : Z;
  scy : Z;
  scx : Z;
  ly : Z;
  lyc : Z;
  bgp : Z;
  obp0 : Z;
  obp1 : Z;
  wy : Z;
  wx : Z;
  window_internal_line : Z;
  count : Z;
  vram : list Z;
  oam : list Z;
  tile_buffer : list Z;
  display_buffer : list Z
}.

(** The part of struct GameBoy the controller touches: its own state and the
    flags register of the interrupt controller. *)
Record GameBoy : Type := mkGameBoy {
  ppu : PPU;
  flags : Z
}.

Definition set_lcdc (v : Z) (p : PPU) : PPU :=
  mkPPU v (stat p) (scy p) (scx p) (ly p) (lyc p) (bgp p) (obp0 p) (obp1 p) (wy p) (wx p)
    (window_internal_line p) (count p) (vram p) (oam p) (tile_buffer p) (display_buffer p).
Definition set_stat (v : Z) (p : PPU) : PPU :=
  mkPPU (lcdc p) v (scy p) (scx p) (ly p) (lyc p) (bgp p) (obp0 p) (obp1 p) (wy p) (wx p)
    (window_internal_line p) (count p) (vram p) (oam p) (tile_buffer p) (display_buffer p).
Definition set_ly (v : Z) (p : PPU) : PPU :=
  mkPPU (lcdc p) (stat p) (scy p) (scx p) v (lyc p) (bgp p) (obp0 p) (obp1 p) (wy p) (wx p)
    (window_internal_line p) (count p) (vram p) (oam p) (tile_buffer p) (display_buffer p).
Definition set_window_internal_line (v : Z) (p : PPU) : PPU :=
  mkPPU (lcdc p) (stat p) (scy p) (scx p) (ly p) (lyc p) (bgp p) (obp0 p) (obp1 p) (wy p) (wx p)
    v (count p) (vram p) (oam p) (tile_buffer p) (display_buffer p).
Definition set_count (v : Z) (p : PPU) : PPU :=
  mkPPU (lcdc p) (stat p) (scy p) (scx p) (ly p) (lyc p) (bgp p) (obp0 p) (obp1 p) (wy p) (wx p)
    (window_internal_line p) v (vram p) (oam p) (tile_buffer p) (display_buffer p).
Definition set_vram (v : list Z) (p : PPU) : PPU :=
  mkPPU (lcdc p) (stat p) (scy p) (scx p) (ly p) (lyc p) (bgp p) (obp0 p) (obp1 p) (wy p) (wx p)
    (window_internal_line p) (count p) v (oam p) (tile_buffer p) (display_buffer p).
Definition set_oam (v : list Z) (p : PPU) : PPU :=
  mkPPU (lcdc p) (stat p) (scy p) (scx p) (ly p) (lyc p) (bgp p) (obp0 p) (obp1 p) (wy p) (wx p)
    (window_internal_line p) (count p) (vram p) v (tile_buffer p) (display_buffer p).
Definition set_tile_buffer (v : list Z) (p : PPU) : PPU :=
  mkPPU (lcdc p) (stat p) (scy p) (scx p) (ly p) (lyc p) (bgp p) (obp0 p) (obp1 p) (wy p) (wx p)
    (window_internal_line p) (count p) (vram p) (oam p) v (display_buffer p).
Definition set_display_buffer (v : list Z) (p : PPU) : PPU :=
  mkPPU (lcdc p) (stat p) (scy p) (scx p) (ly p) (lyc p) (bgp p) (obp0 p) (obp1 p) (wy p) (wx p)
    (window_internal_line p) (count p) (vram p) (oam p) (tile_buffer p) v.

(** [gb->ppu-> ... ] updated in place. *)
Definition on_ppu (f : PPU -> PPU) (gb : GameBoy) : GameBoy :=
  mkGameBoy (f (ppu gb)) (flags gb).

(** [gb->interrupt_controller->flags |= bit]. *)
Definition raise_flag (bit : Z) (gb : GameBoy) : GameBoy :=
  mkGameBoy (ppu gb) (Z.lor (flags gb) bit).

(** ** Initialisation *)

Definition ppu_initialize (p : PPU) (skip_bootrom : bool) : PPU :=
  mkPPU 0x91 0x00 0x00 0x00 0x00 0x00 0xFC 0xFF 0xFF 0x00 0x00
    0 80 (vram p) (oam p) (tile_buffer p) (display_buffer p).

(** ** Line renderer *)

(** [tile_buffer[tile][row][pixel]]. *)
Definition tile_at (tb : list Z) (tile row pixel : Z) : Z :=
  rd tb ((tile * PPU_ROWS_PER_TILE + row) * PPU_PIXELS_PER_TILE_ROW + pixel).

(** The three statements that map a color index through a palette byte:
    [offset = color * 2; bits = 0b11 << offset; color = (palette & bits) >> offset]. *)
Definition palette_lookup (palette color : Z) : Z :=
  let offset := u8 (color * 2) in
  let bits := u8 (Z.shiftl 0x03 offset) in
  u8 (Z.shiftr (Z.land palette bits) offset).

(** [tile_id = (lcdc & LCDC_BG_WINDOW_MODE_BIT) ? tile_id : tile_id + 256 * (tile_id < 128)]. *)
Definition translate_tile_id (lcdc_value tile_id : Z) : Z :=
  if c_true (Z.land lcdc_value LCDC_BG_WINDOW_MODE_BIT) then tile_id
  else u16 (tile_id + 256 * (if tile_id <? 128 then 1 else 0)).

Definition draw_background (p : PPU) (db : list Z) : list Z :=
  let background_row := u8 (scy p + ly p) in
  fold_left (fun db i =>
    let background_column := u8 (scx p + i) in
    let map_offset :=
      if c_true (Z.land (lcdc p) LCDC_BG_MAP_BIT)
      then PPU_BACKGROUND2_START else PPU_BACKGROUND1_START in
    let tile_id :=
      rd (vram p) (map_offset + background_column / 8
                   + background_row / 8 * PPU_BG_WIDTH_IN_TILES) in
    let tile_id := translate_tile_id (lcdc p) tile_id in
    let color := tile_at (tile_buffer p) tile_id (background_row mod 8) (background_column mod 8) in
    let color := palette_lookup (bgp p) color in
    wr db (i + ly p * GAMEBOY_DISPLAY_WIDTH) color)
    (seqZ 0 GAMEBOY_DISPLAY_WIDTH) db.

Definition window_visible (p : PPU) : bool :=
  c_true (Z.land (lcdc p) LCDC_WINDOW_ENABLE_BIT) && (wy p <=? ly p) && (wx p - 7 <=? 0xA6).

Definition draw_window (p : PPU) (db : list Z) : list Z :=
  let wx := u8 (wx p - 7) in
  let map_offset :=
    if c_true (Z.land (lcdc p) LCDC_WINDOW_MAP_BIT)
    then PPU_BACKGROUND2_START else PPU_BACKGROUND1_START in
  fold_left (fun db i =>
    let window_column := u8 (scx p + i) in
    let window_column := if window_column >=? wx then u8 (i - wx) else window_column in
    let tile_id :=
      rd (vram p) (map_offset + window_column / 8
                   + window_internal_line p / 8 * PPU_BG_WIDTH_IN_TILES) in
    let tile_id := translate_tile_id (lcdc p) tile_id in
    let color :=
      tile_at (tile_buffer p) tile_id (window_internal_line p mod 8) (window_column mod 8) in
    let color := palette_lookup (bgp p) color in
    wr db (i + ly p * GAMEBOY_DISPLAY_WIDTH) color)
    (seqZ wx (GAMEBOY_DISPLAY_WIDTH - wx)) db.

(** The local array [sprites[10][4]]: one row of four bytes (Y, X, tile,
    attributes) per selected sprite; its length is [sprite_count]. *)
Definition sprite_row (sprites : list (list Z)) (k : Z) : list Z :=
  if k <? 0 then [] else default [] (sprites !! Z.to_nat k).

(** The scan of the 40 entries of object memory, left at the tenth hit. *)
Definition select_sprites (p : PPU) (sprite_size : Z) : list (list Z) :=
  flow_state (for_up 40 0 (fun i sprites =>
    let sprite_y := rd (oam p) (i * 4) - 16 in
    if (sprite_y <=? ly p) && (ly p - sprite_y <? sprite_size) then
      let sprites := sprites ++ [map (fun k => rd (oam p) (i * 4 + k)) (seqZ 0 4)] in
      if Z.of_nat (length sprites) =? 10 then Return sprites tt else Next sprites
    else Next sprites) []).

(** The inner loop of the sort: the first index in [i, sprite_count) whose X
    byte is smallest. *)
Definition find_min_x (sprites : list (list Z)) (i sprite_count : Z) : Z :=
  fold_left (fun sprite_min_x k =>
    if rd (sprite_row sprites k) 1 <? rd (sprite_row sprites sprite_min_x) 1
    then k else sprite_min_x)
    (seqZ (i + 1) (sprite_count - (i + 1))) i.

(** The four-byte exchange of rows [i] and [j]. *)
Definition swap_rows (sprites : list (list Z)) (i j : Z) : list (list Z) :=
  let row_i := sprite_row sprites i in
  let row_j := sprite_row sprites j in
  <[Z.to_nat j := row_i]> (<[Z.to_nat i := row_j]> sprites).

Definition sort_sprites (sprites : list (list Z)) : list (list Z) :=
  let sprite_count := Z.of_nat (length sprites) in
  if sprite_count >? 1 then
    fold_left (fun sprites i =>
      let sprite_min_x := find_min_x sprites i sprite_count in
      if negb (sprite_min_x =? i) then swap_rows sprites i sprite_min_x else sprites)
      (seqZ 0 (sprite_count - 1)) sprites
  else sprites.

(** The body of the painting loop for one row of [sprites].  The column
    [sprite_x + tile_column] is a [size_t] sum: a sprite hanging over the left
    edge wraps to a huge column and is skipped by the upper bound, the test
    against 0 never fires. *)
Definition paint_sprite (p : PPU) (sprite_size : Z) (sprite : list Z) (db : list Z) : list Z :=
  let sprite_y := rd sprite 0 - 16 in
  let sprite_x := rd sprite 1 - 8 in
  let sprite_t := rd sprite 2 in
  let sprite_a := rd sprite 3 in
  let flip_x := c_true (Z.shiftr (Z.land sprite_a SPRITE_FLIP_X_BIT) 5) in
  let priority := c_true (Z.shiftr (Z.land sprite_a SPRITE_TO_BG_PRIORITY_BIT) 7) in
  let tile_id := if sprite_size =? 16 then Z.land sprite_t 0xFE else sprite_t in
  let tile_row :=
    if c_true (Z.land sprite_a SPRITE_FLIP_Y_BIT)
    then u8 (sprite_size - 1 - (ly p - sprite_y))
    else u8 (ly p - sprite_y) in
  let tile_id := if tile_row >=? 8 then u16 (tile_id + 1) else tile_id in
  let tile_row := if tile_row >=? 8 then u8 (tile_row - 8) else tile_row in
  fold_left (fun db tile_column =>
    let x := size_t (sprite_x + tile_column) in
    if (x <? 0) || (x >? GAMEBOY_DISPLAY_WIDTH - 1) then db
    else
      let color :=
        tile_at (tile_buffer p) tile_id (Z.land tile_row 0x7)
          (if flip_x then 7 - tile_column else tile_column) in
      if negb (color =? 0)
         && (negb priority
             || (priority && (rd db (x + ly p * GAMEBOY_DISPLAY_WIDTH) =? 0)))
      then
        let palette := if c_true (Z.land (Z.shiftr sprite_a 4) 1) then obp1 p else obp0 p in
        wr db (x + ly p * GAMEBOY_DISPLAY_WIDTH) (palette_lookup palette color)
      else db)
    (seqZ 0 8) db.

(** The painting loop, from row [sprite_count - 1] down to row 0. *)
Definition paint_sprites (p : PPU) (sprite_size : Z) (sprites : list (list Z)) (db : list Z)
  : list Z :=
  fold_left (fun db sprite_index => paint_sprite p sprite_size (sprite_row sprites sprite_index) db)
    (reverse (seqZ 0 (Z.of_nat (length sprites)))) db.

Definition draw_sprites (p : PPU) (db : list Z) : list Z :=
  let sprite_size := if c_true (Z.land (lcdc p) LCDC_SPRITE_SIZE_BIT) then 16 else 8 in
  paint_sprites p sprite_size (sort_sprites (select_sprites p sprite_size)) db.

(** The renderer writes the display buffer and the window-line counter and
    nothing else; the three passes are threaded through the buffer. *)
Definition ppu_draw_line (gb : GameBoy) : GameBoy :=
  let p := ppu gb in
  let db := display_buffer p in
  let db := if c_true (Z.land (lcdc p) LCDC_BG_ENABLE_BIT) then draw_background p db else db in
  let db := if window_visible p then draw_window p db else db in
  let line := if window_visible p then u8 (window_internal_line p + 1)
              else window_internal_line p in
  let db := if c_true (Z.land (lcdc p) LCDC_SPRITE_ENABLE_BIT) then draw_sprites p db else db in
  on_ppu (fun p => set_window_internal_line line (set_display_buffer db p)) gb.

(** ** Timing state machine *)

Section Controller.
Context {H : Header}.

(** A value stored into the dot counter. *)
Definition wrap_count (z : Z) : Z := z mod 2 ^ COUNT_BITS.

Definition ppu_hblank_enter (gb : GameBoy) : GameBoy :=
  let gb := on_ppu (fun p => set_stat (u8 (Z.land (stat p) (Z.lnot STAT_MODE_BITS))) p) gb in
  let gb := on_ppu (fun p => set_stat (u8 (Z.lor (stat p) GRAPHICS_MODE_HBLANK)) p) gb in
  on_ppu (fun p => set_count
    (wrap_count (count p + (PPU_HBLANK_LENGTH - rd scx_cycle_offsets (scx p mod 0x08)))) p) gb.

Definition ppu_vblank_enter (gb : GameBoy) : GameBoy :=
  let gb := on_ppu (fun p => set_stat (u8 (Z.land (stat p) (Z.lnot STAT_MODE_BITS))) p) gb in
  let gb := on_ppu (fun p => set_stat (u8 (Z.lor (stat p) GRAPHICS_MODE_VBLANK)) p) gb in
  let gb := on_ppu (fun p => set_count (wrap_count (count p + PPU_VBLANK_LENGTH)) p) gb in
  let gb := on_ppu (set_window_internal_line 0) gb in
  let gb := raise_flag VBLANK_INTERRUPT_BIT gb in
  if c_true (Z.land (stat (ppu gb)) STAT_VBLANK_CHECK_ENABLE)
     || c_true (Z.land (stat (ppu gb)) STAT_OAM_SEARCH_CHECK_ENABLE)
  then raise_flag LCD_STAT_INTERRUPT_BIT gb
  else gb.

Definition ppu_oam_search_enter (gb : GameBoy) : GameBoy :=
  let gb := on_ppu (fun p => set_stat (u8 (Z.land (stat p) (Z.lnot STAT_MODE_BITS))) p) gb in
  let gb := on_ppu (fun p => set_stat (u8 (Z.lor (stat p) GRAPHICS_MODE_OAM_SEARCH)) p) gb in
  let gb := on_ppu (fun p => set_count (wrap_count (count p + PPU_OAM_SEARCH_LENGTH)) p) gb in
  if c_true (Z.land (stat (ppu gb)) STAT_OAM_SEARCH_CHECK_ENABLE)
  then raise_flag LCD_STAT_INTERRUPT_BIT gb
  else gb.

Definition ppu_data_transfer_enter (gb : GameBoy) : GameBoy :=
  let gb := on_ppu (fun p => set_stat (u8 (Z.land (stat p) (Z.lnot STAT_MODE_BITS))) p) gb in
  let gb := on_ppu (fun p => set_stat (u8 (Z.lor (stat p) GRAPHICS_MODE_DATA_TRANSFER)) p) gb in
  on_ppu (fun p => set_count
    (wrap_count (count p + (PPU_DATA_TRANSFER_LENGTH + rd scx_cycle_offsets (scx p mod 0x08)))) p) gb.

Definition ppu_compare_ly_lyc (gb : GameBoy) : GameBoy :=
  if negb (ly (ppu gb) =? lyc (ppu gb)) then
    on_ppu (fun p => set_stat
      (u8 (Z.land (stat p) (Z.lnot STAT_LY_LYC_COMPARISON_SIGNAL))) p) gb
  else
    let gb := on_ppu (fun p => set_stat
      (u8 (Z.lor (stat p) STAT_LY_LYC_COMPARISON_SIGNAL)) p) gb in
    if c_true (Z.land (stat (ppu gb)) STAT_LY_LYC_COMPARSION_ENABLE)
    then raise_flag LCD_STAT_INTERRUPT_BIT gb
    else gb.

(** The per-dot advance. *)
Definition ppu_cycle (gb : GameBoy) : GameBoy :=
  if negb (c_true (Z.land (lcdc (ppu gb)) LCDC_LCD_ENABLE_BIT)) then gb
  else
    let gb := on_ppu (fun p => set_count (wrap_count (count p - 1)) p) gb in
    let gb :=
      if (count (ppu gb) =? 1)
         && (Z.land (stat (ppu gb)) STAT_MODE_BITS =? GRAPHICS_MODE_DATA_TRANSFER)
      then
        if c_true (Z.land (stat (ppu gb)) STAT_HBLANK_CHECK_ENABLE)
        then raise_flag LCD_STAT_INTERRUPT_BIT gb
        else gb
      else gb in
    if negb (count (ppu gb) =? 0) then gb
    else
      let mode := Z.land (stat (ppu gb)) STAT_MODE_BITS in
      if mode =? GRAPHICS_MODE_HBLANK then
        let gb := on_ppu (fun p => set_ly (u8 (ly p + 1)) p) gb in
        let gb := if ly (ppu gb) <? 144 then ppu_oam_search_enter gb else ppu_vblank_enter gb in
        ppu_compare_ly_lyc gb
      else if mode =? GRAPHICS_MODE_VBLANK then
        let gb := on_ppu (fun p => set_ly (u8 (ly p + 1)) p) gb in
        let gb :=
          if ly (ppu gb) >? 153
          then ppu_oam_search_enter (on_ppu (set_ly 0) gb)
          else on_ppu (fun p => set_count (wrap_count (count p + PPU_VBLANK_LENGTH)) p) gb in
        ppu_compare_ly_lyc gb
      else if mode =? GRAPHICS_MODE_OAM_SEARCH then ppu_data_transfer_enter gb
      else if mode =? GRAPHICS_MODE_DATA_TRANSFER then ppu_hblank_enter (ppu_draw_line gb)
      else gb.

(** ** Register and memory access from the bus *)

Definition ppu_read_lcdc (gb : GameBoy) : Z := lcdc (ppu gb).

Definition ppu_write_lcdc (gb : GameBoy) (value : Z) : GameBoy :=
  let gb :=
    if negb (c_true (Z.land value LCDC_LCD_ENABLE_BIT)) then
      let gb := on_ppu (set_ly 0) gb in
      let gb := on_ppu (set_count 115) gb in
      on_ppu (fun p => set_stat (u8 (Z.land (stat p) 0xFC)) p) gb
    else gb in
  on_ppu (set_lcdc value) gb.

Definition ppu_read_stat (gb : GameBoy) : Z := u8 (Z.lor (stat (ppu gb)) STAT_UNUSED_BIT).

Definition ppu_write_stat (gb : GameBoy) (value : Z) : GameBoy :=
  let gb := on_ppu (fun p => set_stat (u8 (Z.land (stat p) (Z.lnot STAT_WRITE_BITS))) p) gb in
  on_ppu (fun p => set_stat (u8 (Z.lor (stat p) (Z.land value STAT_WRITE_BITS))) p) gb.

Definition ppu_read_oam (gb : GameBoy) (address : Z) : Z := rd (oam (ppu gb)) address.

Definition ppu_write_oam (gb : GameBoy) (address value : Z) : GameBoy :=
  if Z.land (stat (ppu gb)) STAT_MODE_BITS =? GRAPHICS_MODE_DATA_TRANSFER then gb
  else if Z.land (stat (ppu gb)) STAT_MODE_BITS =? GRAPHICS_MODE_OAM_SEARCH then gb
  else on_ppu (fun p => set_oam (wr (oam p) address value) p) gb.

Definition ppu_get_mode (gb : GameBoy) : Z := Z.land (stat (ppu gb)) STAT_MODE_BITS.

End Controller.

Definition ppu_read_vram (gb : GameBoy) (address : Z) : Z := rd (vram (ppu gb)) address.

(** The color index of one pixel of a tile row, from its two bit planes. *)
Definition color_code (byte1 byte2 pixel : Z) : Z :=
  let mask := u8 (Z.shiftl 1 (7 - pixel)) in
  let bit1 := u8 (Z.land byte1 mask) in
  let bit2 := u8 (Z.land byte2 mask) in
  if c_true bit1 then (if c_true bit2 then 3 else 1)
  else (if c_true bit2 then 2 else 0).

Definition ppu_write_vram (gb : GameBoy) (address value : Z) : GameBoy :=
  let gb := on_ppu (fun p => set_vram (wr (vram p) address value) p) gb in
  if address <? 0x1800 then
    let byte1 := rd (vram (ppu gb)) (Z.land address 0xFFFE) in
    let byte2 := rd (vram (ppu gb)) (Z.land address 0xFFFE + 1) in
    let tile := address / PPU_BYTES_PER_TILE in
    let row := (address mod PPU_BYTES_PER_TILE) / PPU_BYTES_PER_ROW in
    on_ppu (fun p => set_tile_buffer
      (fold_left (fun tb pixel =>
         wr tb ((tile * PPU_ROWS_PER_TILE + row) * PPU_PIXELS_PER_TILE_ROW + pixel)
            (color_code byte1 byte2 pixel))
         (seqZ 0 PPU_PIXELS_PER_TILE_ROW) (tile_buffer p)) p) gb
  else gb.

(** ** Export routines *)

Definition get_pixel_color (color_code : Z) : Z :=
  if color_code =? 0 then 0xF5F5F5F5
  else if color_code =? 1 then 0xAAAAAAAA
  else if color_code =? 2 then 0x55555555
  else if color_code =? 3 then 0x01010101
  else if color_code =? 4 then 0x00000000
  else 0x00FF00FF.

(** The destination buffer [data] of an export routine is the log of the
    stores [data[index] = value] the routine performs, the latest first. *)
Definition stores : Type := list (Z * Z).

(** What an export routine leaves behind: the stores into [data], in the
    order they were made, and the value returned. *)
Definition exported {Res : Type} (f : flow stores Res) (full : Res) : stores * Res :=
  match f with
  | Next data => (reverse data, full)
  | Return data r => (reverse data, r)
  end.

Definition ppu_get_background_data (gb : GameBoy) (length : Z) : stores * Z :=
  exported
    (for_up (Z.to_nat PPU_BG_TILE_COUNT) 0 (fun tile data =>
      for_up (Z.to_nat PPU_ROWS_PER_TILE) 0 (fun row data =>
        let y := tile / PPU_BG_WIDTH_IN_TILES * PPU_PIXELS_PER_TILE_ROW + row in
        for_up (Z.to_nat PPU_PIXELS_PER_TILE_ROW) 0 (fun pixel data =>
          let x := (tile mod PPU_BG_WIDTH_IN_TILES) * PPU_PIXELS_PER_TILE_ROW + pixel in
          let tile_id := rd (vram (ppu gb)) (PPU_BACKGROUND1_START + tile) in
          let tile_id := translate_tile_id (lcdc (ppu gb)) tile_id in
          let data :=
            (x + y * PPU_BG_WIDTH_IN_PIXELS, tile_at (tile_buffer (ppu gb)) tile_id row pixel)
            :: data in
          if x + y * PPU_BG_WIDTH_IN_PIXELS =? length then Return data length else Next data)
          data) data) [])
    (PPU_BG_WIDTH_IN_PIXELS * PPU_BG_HEIGHT_IN_PIXELS).

Definition ppu_get_display_data (gb : GameBoy) (length : Z) : stores * Z :=
  exported
    (for_up (Z.to_nat (PPU_DISPLAY_WIDTH * PPU_DISPLAY_HEIGHT)) 0 (fun x data =>
      let data :=
        if c_true (Z.land (lcdc (ppu gb)) LCDC_LCD_ENABLE_BIT)
        then (x, get_pixel_color (rd (display_buffer (ppu gb)) x)) :: data
        else (x, get_pixel_color PPU_LCD_COLOR_CODE) :: data in
      if x =? length then Return data length else Next data) [])
    (PPU_DISPLAY_WIDTH * PPU_DISPLAY_HEIGHT).

Definition ppu_get_tileset_data (gb : GameBoy) (length : Z) : stores * Z :=
  exported
    (for_up (Z.to_nat PPU_TS_TILE_COUNT) 0 (fun tile data =>
      for_up (Z.to_nat PPU_ROWS_PER_TILE) 0 (fun row data =>
        let y := tile / PPU_TS_WIDTH_IN_TILES * PPU_PIXELS_PER_TILE_ROW + row in
        for_up (Z.to_nat PPU_PIXELS_PER_TILE_ROW) 0 (fun pixel data =>
          let x := (tile mod PPU_TS_WIDTH_IN_TILES) * PPU_PIXELS_PER_TILE_ROW + pixel in
          let data :=
            (x + y * PPU_TS_WIDTH_IN_PIXELS, tile_at (tile_buffer (ppu gb)) tile row pixel)
            :: data in
          if x + y * PPU_TS_WIDTH_IN_PIXELS =? length then Return data length else Next data)
          data) data) [])
    (PPU_TS_WIDTH_IN_PIXELS * PPU_TS_HEIGHT_IN_PIXELS).

(** The eight cached color indices of one tile row, leftmost pixel first. *)
Definition tile_row_colors (tb : list Z) (tile row : Z) : list Z :=
  map (tile_at tb tile row) (seqZ 0 PPU_PIXELS_PER_TILE_ROW).

(** The element the display export stores for pixel [x]. *)
Definition display_shade (gb : GameBoy) (x : Z) : Z :=
  if c_true (Z.land (lcdc (ppu gb)) LCDC_LCD_ENABLE_BIT)
  then get_pixel_color (rd (display_buffer (ppu gb)) x)
  else get_pixel_color PPU_LCD_COLOR_CODE.

(** ** Concrete controller states *)

(** A controller with every register and every byte of memory zero:
    8 KiB of video memory, 40 four-byte objects, 384 tiles, 160x144 pixels. *)
Definition zero_ppu : PPU :=
  mkPPU 0 0 0 0 0 0 0 0 0 0 0 0 0
    (replicate 0x2000 0) (replicate 0xA0 0)
    (replicate (384 * 8 * 8) 0) (replicate (160 * 144) 0).

(** The controller as [ppu_initialize] leaves it. *)
Definition power_on : GameBoy := mkGameBoy (ppu_initialize zero_ppu false) 0.

(** The registers of [zero_ppu] set to the given control, status, scanline,
    compare and counter values, with no interrupt pending. *)
Definition with_registers (lcdc_value stat_value ly_value lyc_value count_value : Z)
  : GameBoy :=
  mkGameBoy
    (mkPPU lcdc_value stat_value 0 0 ly_value lyc_value 0 0 0 0 0 0 count_value
       (vram zero_ppu) (oam zero_ppu) (tile_buffer zero_ppu) (display_buffer zero_ppu))
    0.

(** LCD on, DATA_TRANSFER (mode code 3 of [dmg]) with the hblank interrupt
    enabled, two dots before the end of the mode. *)
Definition two_dots_before_hblank : GameBoy := with_registers 0x91 0x0B 0 0 2.

(** LCD on, HBLANK (mode code 0 of [dmg]) on line 143, on its last dot; the
    compare register holds 144 and only the coincidence interrupt is enabled. *)
Definition vblank_boundary : GameBoy := with_registers 0x80 0x40 143 144 1.

(** Three 8x8 sprites that cover line 0: objects 0 and 1 both at X byte 20
    (columns 12 to 19), object 2 at X byte 10 (columns 2 to 9).  Their tiles
    1, 2 and 3 have a first row of color index 1, 2 and 3.  Sprites are
    enabled, background and window are not, and both object palettes map
    every color index to itself. *)
Definition tied_sprites : GameBoy :=
  let gb :=
    mkGameBoy
      (mkPPU 0x82 0x03 0 0 0 0 0xE4 0xE4 0xE4 0 0 0 1
         (vram zero_ppu)
         ([16; 20; 1; 0;  16; 20; 2; 0;  16; 10; 3; 0] ++ replicate 148 0)
         (tile_buffer zero_ppu) (display_buffer zero_ppu))
      0 in
  let gb := ppu_write_vram gb (16 * 1) 0xFF in
  let gb := ppu_write_vram gb (16 * 2 + 1) 0xFF in
  let gb := ppu_write_vram gb (16 * 3) 0xFF in
  ppu_write_vram gb (16 * 3 + 1) 0xFF.

(** The power-on state after the bus has written 0xFF to the first byte of
    video memory: the first row of tile 0 is eight times color index 1, and
    every entry of the background map names tile 0. *)
Definition one_tile_row : GameBoy := ppu_write_vram power_on 0 0xFF.

(** LCD on, on line 10, in each of the four modes of [dmg]. *)
Definition in_hblank : GameBoy := with_registers 0x91 0x00 10 0 5.
Definition in_vblank : GameBoy := with_registers 0x91 0x01 10 0 5.
Definition in_oam_search : GameBoy := with_registers 0x91 0x02 10 0 5.
Definition in_data_transfer : GameBoy := with_registers 0x91 0x03 10 0 5.

(** ** Notions used in the statements about the controller *)

(** [n] consecutive calls of the per-dot advance. *)
Definition cycles {H : Header} (n : nat) (gb : GameBoy) : GameBoy :=
  Nat.iter n ppu_cycle gb.

(** The registers the timing of the state machine depends on: control
    register, scroll X, the mode bits, the scanline and the dot counter. *)
Definition timing (gb : GameBoy) : Z * Z * Z * Z * Z :=
  (lcdc (ppu gb), scx (ppu gb), Z.land (stat (ppu gb)) STAT_MODE_BITS,
   ly (ppu gb), count (ppu gb)).

(** Every cell of a buffer holds a 2-bit value. *)
Definition two_bit (buffer : list Z) : Prop :=
  Forall (fun v => 0 <= v <= 3) buffer.

(** The tile cache agrees with the tile data of video memory: the eight cells
    of row [k mod 8] of tile [k / 8] are decoded from bytes [2 k] and
    [2 k + 1]. *)
Definition cache_consistent (p : PPU) : Prop :=
  forall k pixel : Z, 0 <= k < 0xC00 -> 0 <= pixel < 8 ->
    rd (tile_buffer p) (k * 8 + pixel)
    = color_code (rd (vram p) (2 * k)) (rd (vram p) (2 * k + 1)) pixel.

(** Entry [i] of object memory, and whether it covers the current scanline
    for sprites [sprite_size] lines tall. *)
Definition oam_entry (p : PPU) (i : Z) : list Z :=
  map (fun k => rd (oam p) (i * 4 + k)) (seqZ 0 4).

Definition covers_line (p : PPU) (sprite_size : Z) (entry : list Z) : bool :=
  (rd entry 0 - 16 <=? ly p) && (ly p - (rd entry 0 - 16) <? sprite_size).

(** The flags register [after] is [before] with the vblank bit, the
    LCD-status bit, both or neither ORed in. *)
Definition raises {H : Header} (before after : Z) : Prop :=
  exists vblank lcd_stat : bool,
    after = Z.lor (Z.lor before (if vblank then VBLANK_INTERRUPT_BIT else 0))
                  (if lcd_stat then LCD_STAT_INTERRUPT_BIT else 0).

(** The coincidence flag of the status register reads [ly == lyc]. *)
Definition coincidence_ok (gb : GameBoy) : Prop :=
  Z.land (stat (ppu gb)) STAT_LY_LYC_COMPARISON_SIGNAL
  = if ly (ppu gb) =? lyc (ppu gb) then STAT_LY_LYC_COMPARISON_SIGNAL else 0.

(** LCD on with scroll X at 5, at the start of line 0: OAM_SEARCH (mode code
    2 of [dmg]) with its 21 dots ahead. *)
Definition line_start : GameBoy :=
  mkGameBoy
    (mkPPU 0x91 0x02 0 5 0 0 0xFC 0xFF 0xFF 0 0 0 21
       (vram zero_ppu) (oam zero_ppu) (tile_buffer zero_ppu) (display_buffer zero_ppu))
    0.

(** [after] is [before] with some cells between [lo] and [hi] overwritten:
    the length and the cells outside the range are kept, and so is the
    property of holding 2-bit values only. *)
Definition row_update (lo hi : Z) (before after : list Z) : Prop :=
  length after = length before /\
  (forall j : Z, ~ lo <= j < hi -> rd after j = rd before j) /\
  (two_bit before -> two_bit after).

(** ** Sequences of calls *)

(** One call of a state-changing function of ppu.c, as the driver and the
    bus make them. *)
Inductive operation : Type :=
| Dot
| WriteLcdc (value : Z)
| WriteStat (value : Z)
| WriteOam (address value : Z)
| WriteVram (address value : Z).

Definition perform {H : Header} (op : operation) (gb : GameBoy) : GameBoy :=
  match op with
  | Dot => ppu_cycle gb
  | WriteLcdc value => ppu_write_lcdc gb value
  | WriteStat value => ppu_write_stat gb value
  | WriteOam address value => ppu_write_oam gb address value
  | WriteVram address value => ppu_write_vram gb address value
  end.

(** A sequence of calls, the first of the list first. *)
Definition run {H : Header} (ops : list operation) (gb : GameBoy) : GameBoy :=
  fold_left (fun gb op => perform op gb) ops gb.

(** The addresses the bus decoding delivers: inside the 160 bytes of object
    memory and the 8 KiB of video memory. *)
Definition in_range (op : operation) : Prop :=
  match op with
  | WriteOam address _ => 0 <= address < 0xA0
  | WriteVram address _ => 0 <= address < 0x2000
  | _ => True
  end.

(** The memories have their sizes, the tile cache is the decoding of the
    tile data, and cache and display buffer hold 2-bit values. *)
Definition well_formed (p : PPU) : Prop :=
  Z.of_nat (length (vram p)) = 0x2000 /\
  Z.of_nat (length (oam p)) = 0xA0 /\
  Z.of_nat (length (tile_buffer p)) = 384 * 8 * 8 /\
  Z.of_nat (length (display_buffer p)) = 160 * 144 /\
  cache_consistent p /\
  two_bit (tile_buffer p) /\
  two_bit (display_buffer p).

(** ** Notions used in the statements about the exports *)

(** The tile-set and background views are walked tile by tile, row by row,
    pixel by pixel.  [view_index w q] is the element of [data] written at step
    [q] of the walk over a view [w] tiles wide: [x + y * width] for tile
    [q / 64], row [q / 8 mod 8] and pixel [q mod 8]. *)
Definition view_index (width_in_tiles q : Z) : Z :=
  let tile := q / 64 in
  let row := q / 8 mod 8 in
  let pixel := q mod 8 in
  let y := tile / width_in_tiles * PPU_PIXELS_PER_TILE_ROW + row in
  let x := (tile mod width_in_tiles) * PPU_PIXELS_PER_TILE_ROW + pixel in
  x + y * (width_in_tiles * PPU_PIXELS_PER_TILE_ROW).

(** The step of the walk that writes element [index]. *)
Definition view_step (width_in_tiles index : Z) : Z :=
  let y := index / (width_in_tiles * 8) in
  let x := index mod (width_in_tiles * 8) in
  ((y / 8 * width_in_tiles + x / 8) * 8 + y mod 8) * 8 + x mod 8.

(** The steps an export makes when asked for [length] elements of a view of
    [full] elements: up to the step that writes element [length], all of them
    when there is no such element. *)
Definition steps_made (width_in_tiles full length : Z) : Z :=
  if length <? full then view_step width_in_tiles length + 1 else full.

(** The color index the background export stores at step [q]. *)
Definition background_color (gb : GameBoy) (q : Z) : Z :=
  tile_at (tile_buffer (ppu gb))
    (translate_tile_id (lcdc (ppu gb)) (rd (vram (ppu gb)) (PPU_BACKGROUND1_START + q / 64)))
    (q / 8 mod 8) (q mod 8).

(** * Properties *)

(** ** Bytes, bit by bit *)

Lemma testbit_u8 (z n : Z) : 0 <= n -> Z.testbit (u8 z) n = (n <? 8) && Z.testbit z n.
Proof.
  intros Hn. unfold u8. change 256 with (2 ^ 8).
  destruct (Z.ltb_spec n 8).
  - now rewrite Z.mod_pow2_bits_low by lia.
  - now rewrite Z.mod_pow2_bits_high by lia.
Qed.

Lemma testbit_byte_high (k n : Z) : 0 <= k < 256 -> 8 <= n -> Z.testbit k n = false.
Proof.
  intros Hk Hn. rewrite <- (Z.mod_small k (2 ^ 8)) by (change (2 ^ 8) with 256; lia).
  apply Z.mod_pow2_bits_high. lia.
Qed.

Ltac split_bit n :=
  let Hc := fresh "Hc" in
  assert (n = 0 \/ n = 1 \/ n = 2 \/ n = 3 \/ n = 4 \/ n = 5 \/ n = 6 \/ n = 7 \/ 8 <= n)
    as Hc by lia;
  repeat (destruct Hc as [-> | Hc]).

(** Equations between bytes built with [u8], [Z.land] and [Z.lor] from
    variables and byte constants: compare the eight low bits one by one, and
    see that no higher bit is set. *)
Ltac byte_bits :=
  let n := fresh "n" in
  let Hn := fresh "Hn" in
  apply Z.bits_inj'; intros n Hn;
  repeat first [ rewrite Z.land_spec | rewrite Z.lor_spec | rewrite testbit_u8 by lia ];
  split_bit n;
  [ repeat match goal with
           | |- context [Z.testbit ?s ?i] => is_var s; destruct (Z.testbit s i)
           end; vm_compute; reflexivity ..
  | rewrite ?(proj2 (Z.ltb_ge _ 8)) by lia;
    repeat match goal with
           | |- context [Z.testbit ?k ?i] => rewrite (testbit_byte_high k i) by lia
           end;
    rewrite ?andb_false_r, ?andb_false_l; try reflexivity ].

Ltac mode_cases m :=
  let Hc := fresh "Hc" in
  assert (m = 0 \/ m = 1 \/ m = 2 \/ m = 3) as Hc by lia;
  destruct Hc as [-> | [-> | [-> | ->]]].

(** The two statements that open every mode entry,
    [stat &= ~STAT_MODE_BITS; stat |= mode], leave [mode] in the mode bits. *)
Lemma mode_bits_after_enter (s m : Z) :
  0 <= m <= 3 ->
  Z.land (u8 (Z.lor (u8 (Z.land s (Z.lnot STAT_MODE_BITS))) m)) STAT_MODE_BITS = m.
Proof. intros Hm. mode_cases m; unfold STAT_MODE_BITS; byte_bits. Qed.

(** ... and leave the interrupt-enable bits and the coincidence flag alone. *)
Lemma other_bits_after_enter (s m k : Z) :
  0 <= m <= 3 ->
  In k [STAT_LY_LYC_COMPARISON_SIGNAL; STAT_HBLANK_CHECK_ENABLE; STAT_VBLANK_CHECK_ENABLE;
        STAT_OAM_SEARCH_CHECK_ENABLE; STAT_LY_LYC_COMPARSION_ENABLE] ->
  Z.land (u8 (Z.lor (u8 (Z.land s (Z.lnot STAT_MODE_BITS))) m)) k = Z.land s k.
Proof.
  intros Hm Hk.
  unfold STAT_LY_LYC_COMPARISON_SIGNAL, STAT_HBLANK_CHECK_ENABLE, STAT_VBLANK_CHECK_ENABLE,
    STAT_OAM_SEARCH_CHECK_ENABLE, STAT_LY_LYC_COMPARSION_ENABLE in Hk.
  simpl in Hk.
  mode_cases m; unfold STAT_MODE_BITS; intuition subst; byte_bits.
Qed.

Lemma lor_land_same (f b : Z) : Z.land (Z.lor f b) b = b.
Proof.
  apply Z.bits_inj'. intros n _. rewrite Z.land_spec, Z.lor_spec.
  destruct (Z.testbit f n), (Z.testbit b n); reflexivity.
Qed.

(** ** Arrays *)

Lemma length_wr (a : list Z) (i v : Z) : length (wr a i v) = length a.
Proof. unfold wr. destruct (i <? 0); [reflexivity | apply length_insert]. Qed.

Lemma rd_wr_eq (a : list Z) (i v : Z) :
  0 <= i < Z.of_nat (length a) -> rd (wr a i v) i = v.
Proof.
  intros Hi. unfold rd, wr.
  destruct (Z.ltb_spec i 0); [lia |].
  rewrite list_lookup_insert_eq by lia. reflexivity.
Qed.

Lemma rd_wr_ne (a : list Z) (i j v : Z) : i <> j -> rd (wr a i v) j = rd a j.
Proof.
  intros Hij. unfold rd, wr.
  destruct (Z.ltb_spec j 0); [reflexivity |].
  destruct (Z.ltb_spec i 0); [reflexivity |].
  rewrite list_lookup_insert_ne by lia. reflexivity.
Qed.

(** ** Register bank *)

(** C3.  Writing the control register with the LCD-enable bit cleared, from
    whatever state: the scanline index becomes 0, the dot counter 115, the two
    mode bits of the status register are cleared and its six other bits are
    kept; the written value is stored. *)
Theorem C3_lcd_disable_resets (gb : GameBoy) (value : Z) :
  Z.land value LCDC_LCD_ENABLE_BIT = 0 ->
  ly (ppu (ppu_write_lcdc gb value)) = 0 /\
  count (ppu (ppu_write_lcdc gb value)) = 115 /\
  Z.land (stat (ppu (ppu_write_lcdc gb value))) STAT_MODE_BITS = 0 /\
  Z.land (stat (ppu (ppu_write_lcdc gb value))) 0xFC = Z.land (stat (ppu gb)) 0xFC /\
  ppu_read_lcdc (ppu_write_lcdc gb value) = value.
Proof.
  intros Hoff. unfold ppu_write_lcdc, ppu_read_lcdc, c_true. rewrite Hoff. simpl.
  repeat split; unfold STAT_MODE_BITS; generalize (stat (ppu gb)); intros s; byte_bits.
Qed.

(** C3 at work: the LCD switched off in DATA_TRANSFER on line 10. *)
Lemma C3_lcd_disable_resets_witness :
  ly (ppu (ppu_write_lcdc in_data_transfer 0x11)) = 0 /\
  count (ppu (ppu_write_lcdc in_data_transfer 0x11)) = 115 /\
  Z.land (stat (ppu (ppu_write_lcdc in_data_transfer 0x11))) STAT_MODE_BITS = 0 /\
  Z.land (stat (ppu (ppu_write_lcdc in_data_transfer 0x11))) 0xFC
  = Z.land (stat (ppu in_data_transfer)) 0xFC /\
  ppu_read_lcdc (ppu_write_lcdc in_data_transfer 0x11) = 0x11.
Proof.
  refine (C3_lcd_disable_resets in_data_transfer 0x11 _).
  reflexivity.
Defined.

(** What a bus write to the status register does to each group of bits:
    bits 2 to 6 take the written value, bits 0, 1 and 7 are kept. *)
Lemma ppu_write_stat_bits (gb : GameBoy) (value : Z) :
  Z.land (stat (ppu (ppu_write_stat gb value))) STAT_WRITE_BITS = Z.land value STAT_WRITE_BITS /\
  Z.land (stat (ppu (ppu_write_stat gb value))) 0x83 = Z.land (stat (ppu gb)) 0x83.
Proof.
  unfold ppu_write_stat, STAT_WRITE_BITS. simpl.
  generalize (stat (ppu gb)); intros s.
  split; byte_bits.
Qed.

(** C6.  The mask of writable status bits covers the coincidence flag: a bus
    write of 0x04 to a status register that reads 0 sets the flag, and in
    general the flag takes the written bit. *)
Theorem C6_write_stat_overwrites_coincidence_flag :
  Z.land STAT_WRITE_BITS STAT_LY_LYC_COMPARISON_SIGNAL = STAT_LY_LYC_COMPARISON_SIGNAL /\
  stat (ppu (mkGameBoy zero_ppu 0)) = 0x00 /\
  stat (ppu (ppu_write_stat (mkGameBoy zero_ppu 0) 0x04)) = 0x04 /\
  (forall (gb : GameBoy) (value : Z),
      Z.land (stat (ppu (ppu_write_stat gb value))) STAT_LY_LYC_COMPARISON_SIGNAL
      = Z.land value STAT_LY_LYC_COMPARISON_SIGNAL).
Proof.
  repeat split; try reflexivity.
  intros gb value. unfold ppu_write_stat, STAT_WRITE_BITS, STAT_LY_LYC_COMPARISON_SIGNAL. simpl.
  generalize (stat (ppu gb)); intros s. byte_bits.
Qed.

(** ** Initialisation *)

(** C8, as stated, fails: the dot counter after initialisation is not the
    21-dot length of OAM_SEARCH. *)
Lemma C8_counter_is_not_oam_search_length :
  ~ (lcdc (ppu_initialize zero_ppu false) = 0x91 /\
     stat (ppu_initialize zero_ppu false) = 0 /\
     count (ppu_initialize zero_ppu false) = PPU_OAM_SEARCH_LENGTH).
Proof. intros (_ & _ & Hc). discriminate Hc. Qed.

(** C8, amended.  After initialisation the control register is 0x91, the
    status register is 0 (so are its mode bits) and the dot counter is 80,
    whatever the controller held before and whether or not the boot ROM is
    skipped. *)
Theorem C8_power_on_registers (p : PPU) (skip_bootrom : bool) :
  lcdc (ppu_initialize p skip_bootrom) = 0x91 /\
  stat (ppu_initialize p skip_bootrom) = 0 /\
  Z.land (stat (ppu_initialize p skip_bootrom)) STAT_MODE_BITS = 0 /\
  count (ppu_initialize p skip_bootrom) = 80 /\
  count (ppu_initialize p skip_bootrom) <> PPU_OAM_SEARCH_LENGTH.
Proof. repeat split. discriminate. Qed.

(** ** Timing state machine *)

Lemma dmg_ok : HeaderOk dmg.
Proof. split; simpl; lia. Qed.

Lemma c_true_iff (z : Z) : c_true z = true <-> z <> 0.
Proof. unfold c_true. destruct (Z.eqb_spec z 0); simpl; split; congruence. Qed.

Lemma c_true_false_iff (z : Z) : c_true z = false <-> z = 0.
Proof. unfold c_true. destruct (Z.eqb_spec z 0); simpl; split; congruence. Qed.

Lemma lor_if_raise (f b : Z) (c1 c2 : bool) :
  Z.lor (Z.lor f (if c1 then b else 0)) (if c2 then b else 0)
  = Z.lor f (if c1 || c2 then b else 0).
Proof.
  destruct c1, c2; simpl; rewrite ?Z.lor_0_r; try reflexivity.
  now rewrite <- Z.lor_assoc, Z.lor_diag.
Qed.

(** The renderer does not touch the registers the state machine reads. *)
Lemma ppu_draw_line_stat (gb : GameBoy) : stat (ppu (ppu_draw_line gb)) = stat (ppu gb).
Proof. reflexivity. Qed.

Lemma ppu_draw_line_flags (gb : GameBoy) : flags (ppu_draw_line gb) = flags gb.
Proof. reflexivity. Qed.

Lemma ppu_hblank_enter_mode {H : Header} (gb : GameBoy) :
  0 <= GRAPHICS_MODE_HBLANK <= 3 ->
  ppu_get_mode (ppu_hblank_enter gb) = GRAPHICS_MODE_HBLANK.
Proof. intros Hm. unfold ppu_get_mode, ppu_hblank_enter. simpl. now apply mode_bits_after_enter. Qed.

(** The coincidence check: the flag follows [ly == lyc], the mode bits and
    the enable bits are kept, and the LCD-status interrupt is raised when the
    lines coincide and the coincidence interrupt is enabled. *)
Lemma ppu_compare_ly_lyc_flags {H : Header} (gb : GameBoy) :
  flags (ppu_compare_ly_lyc gb)
  = Z.lor (flags gb)
      (if (ly (ppu gb) =? lyc (ppu gb))
          && c_true (Z.land (stat (ppu gb)) STAT_LY_LYC_COMPARSION_ENABLE)
       then LCD_STAT_INTERRUPT_BIT else 0).
Proof.
  unfold ppu_compare_ly_lyc.
  destruct (ly (ppu gb) =? lyc (ppu gb)); simpl.
  - replace (Z.land (u8 (Z.lor (stat (ppu gb)) STAT_LY_LYC_COMPARISON_SIGNAL))
               STAT_LY_LYC_COMPARSION_ENABLE)
      with (Z.land (stat (ppu gb)) STAT_LY_LYC_COMPARSION_ENABLE).
    + destruct (c_true _); simpl; [reflexivity | now rewrite Z.lor_0_r].
    + unfold STAT_LY_LYC_COMPARISON_SIGNAL, STAT_LY_LYC_COMPARSION_ENABLE.
      generalize (stat (ppu gb)); intros s. symmetry. byte_bits.
  - now rewrite Z.lor_0_r.
Qed.

Lemma ppu_compare_ly_lyc_mode {H : Header} (gb : GameBoy) :
  ppu_get_mode (ppu_compare_ly_lyc gb) = ppu_get_mode gb.
Proof.
  unfold ppu_get_mode, ppu_compare_ly_lyc, STAT_MODE_BITS,
    STAT_LY_LYC_COMPARISON_SIGNAL.
  destruct (ly (ppu gb) =? lyc (ppu gb)); simpl.
  - destruct (c_true _); simpl; generalize (stat (ppu gb)); intros s; byte_bits.
  - generalize (stat (ppu gb)); intros s; byte_bits.
Qed.

Lemma ppu_compare_ly_lyc_lines {H : Header} (gb : GameBoy) :
  ly (ppu (ppu_compare_ly_lyc gb)) = ly (ppu gb) /\
  window_internal_line (ppu (ppu_compare_ly_lyc gb)) = window_internal_line (ppu gb).
Proof.
  unfold ppu_compare_ly_lyc.
  destruct (ly (ppu gb) =? lyc (ppu gb)); simpl; [destruct (c_true _) |]; split; reflexivity.
Qed.

(** Entering VBLANK: the mode bits, the window-line counter and the two
    interrupt sources. *)
Lemma ppu_vblank_enter_spec {H : Header} (gb : GameBoy) :
  0 <= GRAPHICS_MODE_VBLANK <= 3 ->
  ppu_get_mode (ppu_vblank_enter gb) = GRAPHICS_MODE_VBLANK /\
  window_internal_line (ppu (ppu_vblank_enter gb)) = 0 /\
  flags (ppu_vblank_enter gb)
  = Z.lor (Z.lor (flags gb) VBLANK_INTERRUPT_BIT)
      (if c_true (Z.land (stat (ppu gb)) STAT_VBLANK_CHECK_ENABLE)
          || c_true (Z.land (stat (ppu gb)) STAT_OAM_SEARCH_CHECK_ENABLE)
       then LCD_STAT_INTERRUPT_BIT else 0) /\
  ly (ppu (ppu_vblank_enter gb)) = ly (ppu gb) /\
  lyc (ppu (ppu_vblank_enter gb)) = lyc (ppu gb) /\
  Z.land (stat (ppu (ppu_vblank_enter gb))) STAT_LY_LYC_COMPARSION_ENABLE
  = Z.land (stat (ppu gb)) STAT_LY_LYC_COMPARSION_ENABLE.
Proof.
  intros Hm. unfold ppu_get_mode, ppu_vblank_enter. simpl.
  rewrite !(other_bits_after_enter (stat (ppu gb))) by (simpl; auto 6).
  destruct (c_true (Z.land (stat (ppu gb)) STAT_VBLANK_CHECK_ENABLE)
            || c_true (Z.land (stat (ppu gb)) STAT_OAM_SEARCH_CHECK_ENABLE)); simpl;
    rewrite ?Z.lor_0_r, mode_bits_after_enter, other_bits_after_enter by (simpl; auto 6);
    repeat split; reflexivity.
Qed.

(** Entering OAM_SEARCH: the mode bits and the LCD-status interrupt. *)
Lemma ppu_oam_search_enter_spec {H : Header} (gb : GameBoy) :
  0 <= GRAPHICS_MODE_OAM_SEARCH <= 3 ->
  ppu_get_mode (ppu_oam_search_enter gb) = GRAPHICS_MODE_OAM_SEARCH /\
  flags (ppu_oam_search_enter gb)
  = Z.lor (flags gb)
      (if c_true (Z.land (stat (ppu gb)) STAT_OAM_SEARCH_CHECK_ENABLE)
       then LCD_STAT_INTERRUPT_BIT else 0) /\
  ly (ppu (ppu_oam_search_enter gb)) = ly (ppu gb) /\
  lyc (ppu (ppu_oam_search_enter gb)) = lyc (ppu gb) /\
  Z.land (stat (ppu (ppu_oam_search_enter gb))) STAT_LY_LYC_COMPARSION_ENABLE
  = Z.land (stat (ppu gb)) STAT_LY_LYC_COMPARSION_ENABLE.
Proof.
  intros Hm. unfold ppu_get_mode, ppu_oam_search_enter. simpl.
  rewrite !(other_bits_after_enter (stat (ppu gb))) by (simpl; auto 6).
  destruct (c_true (Z.land (stat (ppu gb)) STAT_OAM_SEARCH_CHECK_ENABLE)); simpl;
    rewrite ?Z.lor_0_r, mode_bits_after_enter, other_bits_after_enter by (simpl; auto 6);
    repeat split; reflexivity.
Qed.

(** The per-dot advance on a dot that does not end the mode, when the early
    horizontal-blank interrupt is due. *)
Lemma ppu_cycle_early_hblank {H : Header} (gb : GameBoy) :
  Z.land (lcdc (ppu gb)) LCDC_LCD_ENABLE_BIT <> 0 ->
  ppu_get_mode gb = GRAPHICS_MODE_DATA_TRANSFER ->
  Z.land (stat (ppu gb)) STAT_HBLANK_CHECK_ENABLE <> 0 ->
  wrap_count (count (ppu gb) - 1) = 1 ->
  ppu_cycle gb = mkGameBoy (set_count 1 (ppu gb)) (Z.lor (flags gb) LCD_STAT_INTERRUPT_BIT).
Proof.
  intros Hon Hmode Hen Hcount. unfold ppu_get_mode in Hmode.
  apply c_true_iff in Hon, Hen.
  unfold ppu_cycle. rewrite Hon. simpl.
  rewrite Hcount, Hmode, !Z.eqb_refl, Hen. simpl.
  unfold raise_flag, on_ppu. simpl. rewrite Hcount. reflexivity.
Qed.

(** C1.  With the LCD enabled, in DATA_TRANSFER and with the
    hblank-interrupt-enable bit set, the call that brings the dot counter to 1
    raises the LCD-status interrupt bit and leaves the mode bits at
    DATA_TRANSFER; the call after it enters HBLANK. *)
Theorem C1_hblank_interrupt_one_dot_early {H : Header} (gb : GameBoy) :
  HeaderOk H ->
  Z.land (lcdc (ppu gb)) LCDC_LCD_ENABLE_BIT <> 0 ->
  ppu_get_mode gb = GRAPHICS_MODE_DATA_TRANSFER ->
  Z.land (stat (ppu gb)) STAT_HBLANK_CHECK_ENABLE <> 0 ->
  wrap_count (count (ppu gb) - 1) = 1 ->
  flags (ppu_cycle gb) = Z.lor (flags gb) LCD_STAT_INTERRUPT_BIT /\
  Z.land (flags (ppu_cycle gb)) LCD_STAT_INTERRUPT_BIT = LCD_STAT_INTERRUPT_BIT /\
  count (ppu (ppu_cycle gb)) = 1 /\
  ppu_get_mode (ppu_cycle gb) = GRAPHICS_MODE_DATA_TRANSFER /\
  ppu_get_mode (ppu_cycle (ppu_cycle gb)) = GRAPHICS_MODE_HBLANK.
Proof.
  intros Hok Hon Hmode Hen Hcount.
  rewrite (ppu_cycle_early_hblank gb Hon Hmode Hen Hcount).
  repeat split; try assumption.
  - apply lor_land_same.
  - destruct Hok as [Hh Hv Ho Hd Hhv Hho Hhd Hvo Hvd Hod].
    unfold ppu_get_mode in Hmode. apply c_true_iff in Hon.
    unfold ppu_cycle. simpl. rewrite Hon. simpl.
    rewrite Hmode.
    rewrite (proj2 (Z.eqb_neq _ _)) by congruence.
    rewrite (proj2 (Z.eqb_neq _ _)) by congruence.
    rewrite (proj2 (Z.eqb_neq _ _)) by congruence.
    rewrite Z.eqb_refl.
    now apply ppu_hblank_enter_mode.
Qed.

(** C1 at work, with the mode codes and interrupt bits of [dmg]: two dots
    before the end of DATA_TRANSFER. *)
Lemma C1_hblank_interrupt_one_dot_early_witness :
  flags (@ppu_cycle dmg two_dots_before_hblank) = 0x02 /\
  Z.land (flags (@ppu_cycle dmg two_dots_before_hblank)) (@LCD_STAT_INTERRUPT_BIT dmg)
  = @LCD_STAT_INTERRUPT_BIT dmg /\
  count (ppu (@ppu_cycle dmg two_dots_before_hblank)) = 1 /\
  ppu_get_mode (@ppu_cycle dmg two_dots_before_hblank) = @GRAPHICS_MODE_DATA_TRANSFER dmg /\
  ppu_get_mode (@ppu_cycle dmg (@ppu_cycle dmg two_dots_before_hblank))
  = @GRAPHICS_MODE_HBLANK dmg.
Proof.
  refine (@C1_hblank_interrupt_one_dot_early dmg two_dots_before_hblank dmg_ok _ _ _ _).
  - vm_compute. discriminate.
  - reflexivity.
  - vm_compute. discriminate.
  - reflexivity.
Defined.

(** The per-dot advance on the dot that ends a mode: the counter reaches 0,
    no early interrupt is due, and the [switch] on the mode bits runs. *)
Lemma ppu_cycle_boundary {H : Header} (gb : GameBoy) :
  Z.land (lcdc (ppu gb)) LCDC_LCD_ENABLE_BIT <> 0 ->
  wrap_count (count (ppu gb) - 1) = 0 ->
  ppu_cycle gb =
  let gb := on_ppu (set_count 0) gb in
  let mode := Z.land (stat (ppu gb)) STAT_MODE_BITS in
  if mode =? GRAPHICS_MODE_HBLANK then
    let gb := on_ppu (fun p => set_ly (u8 (ly p + 1)) p) gb in
    let gb := if ly (ppu gb) <? 144 then ppu_oam_search_enter gb else ppu_vblank_enter gb in
    ppu_compare_ly_lyc gb
  else if mode =? GRAPHICS_MODE_VBLANK then
    let gb := on_ppu (fun p => set_ly (u8 (ly p + 1)) p) gb in
    let gb :=
      if ly (ppu gb) >? 153
      then ppu_oam_search_enter (on_ppu (set_ly 0) gb)
      else on_ppu (fun p => set_count (wrap_count (count p + PPU_VBLANK_LENGTH)) p) gb in
    ppu_compare_ly_lyc gb
  else if mode =? GRAPHICS_MODE_OAM_SEARCH then ppu_data_transfer_enter gb
  else if mode =? GRAPHICS_MODE_DATA_TRANSFER then ppu_hblank_enter (ppu_draw_line gb)
  else gb.
Proof.
  intros Hon Hcount. apply c_true_iff in Hon.
  unfold ppu_cycle. rewrite Hon.
  change (negb true) with false. cbv iota.
  replace (on_ppu (fun p => set_count (wrap_count (count p - 1)) p) gb)
    with (on_ppu (set_count 0) gb)
    by (unfold on_ppu; now rewrite Hcount).
  reflexivity.
Qed.

(** The three mode boundaries that raise interrupts. *)
Lemma ppu_cycle_enters_vblank {H : Header} (gb : GameBoy) :
  HeaderOk H ->
  Z.land (lcdc (ppu gb)) LCDC_LCD_ENABLE_BIT <> 0 ->
  wrap_count (count (ppu gb) - 1) = 0 ->
  ppu_get_mode gb = GRAPHICS_MODE_HBLANK ->
  144 <= u8 (ly (ppu gb) + 1) ->
  ppu_get_mode (ppu_cycle gb) = GRAPHICS_MODE_VBLANK /\
  window_internal_line (ppu (ppu_cycle gb)) = 0 /\
  flags (ppu_cycle gb)
  = Z.lor (Z.lor (flags gb) VBLANK_INTERRUPT_BIT)
      (if c_true (Z.land (stat (ppu gb)) STAT_VBLANK_CHECK_ENABLE)
          || c_true (Z.land (stat (ppu gb)) STAT_OAM_SEARCH_CHECK_ENABLE)
          || (u8 (ly (ppu gb) + 1) =? lyc (ppu gb))
             && c_true (Z.land (stat (ppu gb)) STAT_LY_LYC_COMPARSION_ENABLE)
       then LCD_STAT_INTERRUPT_BIT else 0).
Proof.
  intros Hok Hon Hcount Hmode Hline.
  destruct Hok as [Hh Hv Ho Hd Hhv Hho Hhd Hvo Hvd Hod].
  rewrite (ppu_cycle_boundary gb Hon Hcount).
  unfold ppu_get_mode in Hmode.
  cbv zeta. cbn [stat ppu on_ppu set_count set_ly ly].
  rewrite Hmode, Z.eqb_refl, (proj2 (Z.ltb_ge _ 144)) by lia.
  set (gb1 := on_ppu (fun p => set_ly (u8 (ly p + 1)) p) (on_ppu (set_count 0) gb)).
  destruct (ppu_vblank_enter_spec gb1 Hv) as (Hm & Hw & Hf & Hly & Hlyc & Hen).
  destruct (ppu_compare_ly_lyc_lines (ppu_vblank_enter gb1)) as (_ & Hw').
  pose proof (ppu_compare_ly_lyc_mode (ppu_vblank_enter gb1)) as Hm'.
  pose proof (ppu_compare_ly_lyc_flags (ppu_vblank_enter gb1)) as Hf'.
  rewrite Hf, Hly, Hlyc, Hen, lor_if_raise in Hf'.
  split; [exact (eq_trans Hm' Hm) |]. split; [exact (eq_trans Hw' Hw) |]. exact Hf'.
Qed.

Lemma ppu_cycle_hblank_to_oam_search {H : Header} (gb : GameBoy) :
  HeaderOk H ->
  Z.land (lcdc (ppu gb)) LCDC_LCD_ENABLE_BIT <> 0 ->
  wrap_count (count (ppu gb) - 1) = 0 ->
  ppu_get_mode gb = GRAPHICS_MODE_HBLANK ->
  u8 (ly (ppu gb) + 1) < 144 ->
  ppu_get_mode (ppu_cycle gb) = GRAPHICS_MODE_OAM_SEARCH /\
  flags (ppu_cycle gb)
  = Z.lor (flags gb)
      (if c_true (Z.land (stat (ppu gb)) STAT_OAM_SEARCH_CHECK_ENABLE)
          || (u8 (ly (ppu gb) + 1) =? lyc (ppu gb))
             && c_true (Z.land (stat (ppu gb)) STAT_LY_LYC_COMPARSION_ENABLE)
       then LCD_STAT_INTERRUPT_BIT else 0).
Proof.
  intros Hok Hon Hcount Hmode Hline.
  destruct Hok as [Hh Hv Ho Hd Hhv Hho Hhd Hvo Hvd Hod].
  rewrite (ppu_cycle_boundary gb Hon Hcount).
  unfold ppu_get_mode in Hmode.
  cbv zeta. cbn [stat ppu on_ppu set_count set_ly ly].
  rewrite Hmode, Z.eqb_refl, (proj2 (Z.ltb_lt _ 144)) by lia.
  set (gb1 := on_ppu (fun p => set_ly (u8 (ly p + 1)) p) (on_ppu (set_count 0) gb)).
  destruct (ppu_oam_search_enter_spec gb1 Ho) as (Hm & Hf & Hly & Hlyc & Hen).
  pose proof (ppu_compare_ly_lyc_mode (ppu_oam_search_enter gb1)) as Hm'.
  pose proof (ppu_compare_ly_lyc_flags (ppu_oam_search_enter gb1)) as Hf'.
  rewrite Hf, Hly, Hlyc, Hen, lor_if_raise in Hf'.
  split; [exact (eq_trans Hm' Hm) |]. exact Hf'.
Qed.

Lemma ppu_cycle_vblank_to_oam_search {H : Header} (gb : GameBoy) :
  HeaderOk H ->
  Z.land (lcdc (ppu gb)) LCDC_LCD_ENABLE_BIT <> 0 ->
  wrap_count (count (ppu gb) - 1) = 0 ->
  ppu_get_mode gb = GRAPHICS_MODE_VBLANK ->
  153 < u8 (ly (ppu gb) + 1) ->
  ppu_get_mode (ppu_cycle gb) = GRAPHICS_MODE_OAM_SEARCH /\
  ly (ppu (ppu_cycle gb)) = 0 /\
  flags (ppu_cycle gb)
  = Z.lor (flags gb)
      (if c_true (Z.land (stat (ppu gb)) STAT_OAM_SEARCH_CHECK_ENABLE)
          || (0 =? lyc (ppu gb))
             && c_true (Z.land (stat (ppu gb)) STAT_LY_LYC_COMPARSION_ENABLE)
       then LCD_STAT_INTERRUPT_BIT else 0).
Proof.
  intros Hok Hon Hcount Hmode Hline.
  destruct Hok as [Hh Hv Ho Hd Hhv Hho Hhd Hvo Hvd Hod].
  rewrite (ppu_cycle_boundary gb Hon Hcount).
  unfold ppu_get_mode in Hmode.
  cbv zeta. cbn [stat ppu on_ppu set_count set_ly ly].
  rewrite Hmode, (proj2 (Z.eqb_neq _ _)), Z.eqb_refl, (proj2 (Z.gtb_gt _ 153))
    by (lia || congruence).
  set (gb1 := on_ppu (set_ly 0)
                (on_ppu (fun p => set_ly (u8 (ly p + 1)) p) (on_ppu (set_count 0) gb))).
  destruct (ppu_oam_search_enter_spec gb1 Ho) as (Hm & Hf & Hly & Hlyc & Hen).
  pose proof (ppu_compare_ly_lyc_mode (ppu_oam_search_enter gb1)) as Hm'.
  pose proof (ppu_compare_ly_lyc_flags (ppu_oam_search_enter gb1)) as Hf'.
  destruct (ppu_compare_ly_lyc_lines (ppu_oam_search_enter gb1)) as (Hly' & _).
  rewrite Hf, Hly, Hlyc, Hen, lor_if_raise in Hf'.
  split; [exact (eq_trans Hm' Hm) |]. split; [exact (eq_trans Hly' Hly) |]. exact Hf'.
Qed.

(** C2, as stated, fails.  LCD on, HBLANK, line 143 about to become 144, the
    compare register at 144 with only the coincidence interrupt enabled: the
    dot enters VBLANK with neither the vblank-enable nor the
    OAM-search-enable bit set, and the LCD-status interrupt bit, clear
    before, is set after. *)
Lemma C2_coincidence_also_raises_lcd_stat :
  ppu_get_mode vblank_boundary = @GRAPHICS_MODE_HBLANK dmg /\
  ppu_get_mode (@ppu_cycle dmg vblank_boundary) = @GRAPHICS_MODE_VBLANK dmg /\
  ~ (Z.land (flags (@ppu_cycle dmg vblank_boundary)) (@LCD_STAT_INTERRUPT_BIT dmg)
     = @LCD_STAT_INTERRUPT_BIT dmg
     <-> Z.land (stat (ppu vblank_boundary)) STAT_VBLANK_CHECK_ENABLE <> 0
         \/ Z.land (stat (ppu vblank_boundary)) STAT_OAM_SEARCH_CHECK_ENABLE <> 0).
Proof.
  split; [reflexivity |]. split; [reflexivity |].
  intros [Hraised _].
  destruct (Hraised eq_refl) as [Hen | Hen]; apply Hen; reflexivity.
Qed.

(** C2, amended.  On the dot that ends HBLANK with the incremented scanline at
    144 or beyond, the controller enters VBLANK: the vblank interrupt bit is
    raised, the window-line counter is 0, and the LCD-status interrupt bit is
    ORed into the flags exactly when the vblank-enable bit or the
    OAM-search-enable bit is set, or the new scanline equals the compare
    register with the coincidence-enable bit set.  On the dots that enter
    OAM_SEARCH (from HBLANK below line 144, from VBLANK past line 153) it is
    ORed in exactly when the OAM-search-enable bit is set, or the new scanline
    equals the compare register with the coincidence-enable bit set. *)
Theorem C2_mode_entry_interrupts {H : Header} (gb : GameBoy) :
  HeaderOk H ->
  Z.land (lcdc (ppu gb)) LCDC_LCD_ENABLE_BIT <> 0 ->
  wrap_count (count (ppu gb) - 1) = 0 ->
  (ppu_get_mode gb = GRAPHICS_MODE_HBLANK -> 144 <= u8 (ly (ppu gb) + 1) ->
   ppu_get_mode (ppu_cycle gb) = GRAPHICS_MODE_VBLANK /\
   window_internal_line (ppu (ppu_cycle gb)) = 0 /\
   Z.land (flags (ppu_cycle gb)) VBLANK_INTERRUPT_BIT = VBLANK_INTERRUPT_BIT /\
   flags (ppu_cycle gb)
   = Z.lor (Z.lor (flags gb) VBLANK_INTERRUPT_BIT)
       (if c_true (Z.land (stat (ppu gb)) STAT_VBLANK_CHECK_ENABLE)
           || c_true (Z.land (stat (ppu gb)) STAT_OAM_SEARCH_CHECK_ENABLE)
           || (u8 (ly (ppu gb) + 1) =? lyc (ppu gb))
              && c_true (Z.land (stat (ppu gb)) STAT_LY_LYC_COMPARSION_ENABLE)
        then LCD_STAT_INTERRUPT_BIT else 0)) /\
  (ppu_get_mode gb = GRAPHICS_MODE_HBLANK -> u8 (ly (ppu gb) + 1) < 144 ->
   ppu_get_mode (ppu_cycle gb) = GRAPHICS_MODE_OAM_SEARCH /\
   flags (ppu_cycle gb)
   = Z.lor (flags gb)
       (if c_true (Z.land (stat (ppu gb)) STAT_OAM_SEARCH_CHECK_ENABLE)
           || (u8 (ly (ppu gb) + 1) =? lyc (ppu gb))
              && c_true (Z.land (stat (ppu gb)) STAT_LY_LYC_COMPARSION_ENABLE)
        then LCD_STAT_INTERRUPT_BIT else 0)) /\
  (ppu_get_mode gb = GRAPHICS_MODE_VBLANK -> 153 < u8 (ly (ppu gb) + 1) ->
   ppu_get_mode (ppu_cycle gb) = GRAPHICS_MODE_OAM_SEARCH /\
   ly (ppu (ppu_cycle gb)) = 0 /\
   flags (ppu_cycle gb)
   = Z.lor (flags gb)
       (if c_true (Z.land (stat (ppu gb)) STAT_OAM_SEARCH_CHECK_ENABLE)
           || (0 =? lyc (ppu gb))
              && c_true (Z.land (stat (ppu gb)) STAT_LY_LYC_COMPARSION_ENABLE)
        then LCD_STAT_INTERRUPT_BIT else 0)).
Proof.
  intros Hok Hon Hcount.
  split; [| split]; intros Hmode Hline.
  - destruct (ppu_cycle_enters_vblank gb Hok Hon Hcount Hmode Hline) as (Hm & Hw & Hf).
    repeat split; try assumption.
    rewrite Hf, (Z.lor_comm (flags gb)), <- Z.lor_assoc, Z.lor_comm. apply lor_land_same.
  - exact (ppu_cycle_hblank_to_oam_search gb Hok Hon Hcount Hmode Hline).
  - exact (ppu_cycle_vblank_to_oam_search gb Hok Hon Hcount Hmode Hline).
Qed.

(** C2 at work on the last dot of line 143: VBLANK is entered and both
    interrupt bits are raised, the LCD-status one by the coincidence. *)
Lemma C2_mode_entry_interrupts_witness :
  ppu_get_mode (@ppu_cycle dmg vblank_boundary) = @GRAPHICS_MODE_VBLANK dmg /\
  window_internal_line (ppu (@ppu_cycle dmg vblank_boundary)) = 0 /\
  Z.land (flags (@ppu_cycle dmg vblank_boundary)) (@VBLANK_INTERRUPT_BIT dmg)
  = @VBLANK_INTERRUPT_BIT dmg /\
  flags (@ppu_cycle dmg vblank_boundary) = 0x03.
Proof.
  refine (proj1 (@C2_mode_entry_interrupts dmg vblank_boundary dmg_ok _ _) _ _).
  - vm_compute. discriminate.
  - reflexivity.
  - reflexivity.
  - vm_compute. discriminate.
Defined.

(** ** Object memory *)

(** C7.  An object-memory write in OAM_SEARCH or DATA_TRANSFER returns the
    machine as it was; in HBLANK or VBLANK it stores the value at the address
    and changes nothing else, so that a read of an address inside object
    memory gives the value back; a read is the stored byte in every mode. *)
Theorem C7_oam_write_gating {H : Header} (gb : GameBoy) (address value : Z) :
  HeaderOk H ->
  (ppu_get_mode gb = GRAPHICS_MODE_OAM_SEARCH \/ ppu_get_mode gb = GRAPHICS_MODE_DATA_TRANSFER ->
   ppu_write_oam gb address value = gb) /\
  (ppu_get_mode gb = GRAPHICS_MODE_HBLANK \/ ppu_get_mode gb = GRAPHICS_MODE_VBLANK ->
   ppu_write_oam gb address value
   = mkGameBoy (set_oam (wr (oam (ppu gb)) address value) (ppu gb)) (flags gb) /\
   (0 <= address < Z.of_nat (length (oam (ppu gb))) ->
    ppu_read_oam (ppu_write_oam gb address value) address = value)) /\
  ppu_read_oam gb address = rd (oam (ppu gb)) address.
Proof.
  intros Hok. destruct Hok as [Hh Hv Ho Hd Hhv Hho Hhd Hvo Hvd Hod].
  unfold ppu_get_mode, ppu_write_oam.
  split; [| split].
  - intros [Hmode | Hmode]; rewrite Hmode.
    + rewrite (proj2 (Z.eqb_neq _ _)) by congruence. now rewrite Z.eqb_refl.
    + now rewrite Z.eqb_refl.
  - intros Hmode.
    assert (ppu_write_oam gb address value
            = mkGameBoy (set_oam (wr (oam (ppu gb)) address value) (ppu gb)) (flags gb)) as Hw.
    { unfold ppu_write_oam.
      destruct Hmode as [Hmode | Hmode]; rewrite Hmode;
        rewrite !(proj2 (Z.eqb_neq _ _)) by congruence; reflexivity. }
    unfold ppu_write_oam in Hw. rewrite Hw. split; [reflexivity |].
    intros Hrange. unfold ppu_read_oam. simpl. now apply rd_wr_eq.
  - reflexivity.
Qed.

(** C7 at work: the same write in each of the four modes of [dmg]. *)
Lemma C7_oam_write_gating_witness :
  @ppu_write_oam dmg in_oam_search 4 0x55 = in_oam_search /\
  @ppu_write_oam dmg in_data_transfer 4 0x55 = in_data_transfer /\
  ppu_read_oam (@ppu_write_oam dmg in_hblank 4 0x55) 4 = 0x55 /\
  ppu_read_oam (@ppu_write_oam dmg in_vblank 4 0x55) 4 = 0x55.
Proof.
  split; [| split; [| split]].
  - refine (proj1 (@C7_oam_write_gating dmg in_oam_search 4 0x55 dmg_ok) _).
    left. reflexivity.
  - refine (proj1 (@C7_oam_write_gating dmg in_data_transfer 4 0x55 dmg_ok) _).
    right. reflexivity.
  - refine (proj2 (proj1 (proj2 (@C7_oam_write_gating dmg in_hblank 4 0x55 dmg_ok)) _) _).
    + left. reflexivity.
    + split; [vm_compute; discriminate | reflexivity].
  - refine (proj2 (proj1 (proj2 (@C7_oam_write_gating dmg in_vblank 4 0x55 dmg_ok)) _) _).
    + right. reflexivity.
    + split; [vm_compute; discriminate | reflexivity].
Defined.

(** ** Tile cache *)

Lemma land_pow2 (b k : Z) :
  0 <= k -> Z.land b (2 ^ k) = if Z.testbit b k then 2 ^ k else 0.
Proof.
  intros Hk. apply Z.bits_inj'. intros n Hn.
  rewrite Z.land_spec, Z.pow2_bits_eqb by assumption.
  destruct (Z.eqb_spec k n) as [-> | Hne].
  - destruct (Z.testbit b n); simpl; [now rewrite Z.pow2_bits_eqb, Z.eqb_refl by assumption |].
    now rewrite Z.bits_0.
  - rewrite andb_false_r.
    destruct (Z.testbit b k); [| now rewrite Z.bits_0].
    rewrite Z.pow2_bits_eqb by assumption. symmetry. now apply Z.eqb_neq.
Qed.

(** The mask test of [ppu_write_vram] reads bit [7 - pixel] of the byte. *)
Lemma mask_test (b pixel : Z) :
  0 <= pixel < 8 ->
  c_true (u8 (Z.land b (u8 (Z.shiftl 1 (7 - pixel))))) = Z.testbit b (7 - pixel).
Proof.
  intros Hp.
  assert (u8 (Z.shiftl 1 (7 - pixel)) = 2 ^ (7 - pixel)) as ->.
  { assert (pixel = 0 \/ pixel = 1 \/ pixel = 2 \/ pixel = 3 \/ pixel = 4 \/ pixel = 5
            \/ pixel = 6 \/ pixel = 7) as Hc by lia.
    repeat (destruct Hc as [-> | Hc]); try subst pixel; reflexivity. }
  rewrite land_pow2 by lia.
  destruct (Z.testbit b (7 - pixel)); [| reflexivity].
  assert (pixel = 0 \/ pixel = 1 \/ pixel = 2 \/ pixel = 3 \/ pixel = 4 \/ pixel = 5
          \/ pixel = 6 \/ pixel = 7) as Hc by lia.
  repeat (destruct Hc as [-> | Hc]); try subst pixel; reflexivity.
Qed.

(** The color index is the low-plane bit plus twice the high-plane bit. *)
Lemma color_code_bits (byte1 byte2 pixel : Z) :
  0 <= pixel < 8 ->
  color_code byte1 byte2 pixel
  = Z.b2z (Z.testbit byte1 (7 - pixel)) * 1 + Z.b2z (Z.testbit byte2 (7 - pixel)) * 2.
Proof.
  intros Hp. unfold color_code. cbv zeta.
  rewrite !mask_test by assumption.
  destruct (Z.testbit byte1 (7 - pixel)), (Z.testbit byte2 (7 - pixel)); reflexivity.
Qed.

Lemma land_FFFE (a : Z) : 0 <= a < 0x10000 -> Z.land a 0xFFFE = 2 * (a / 2).
Proof.
  intros Ha. apply Z.bits_inj'. intros n Hn.
  rewrite Z.land_spec.
  change 0xFFFE with (Z.shiftl (Z.ones 15) 1).
  rewrite Z.shiftl_spec by assumption.
  destruct (Z.eq_dec n 0) as [-> | Hn0].
  - rewrite (Z.testbit_neg_r (Z.ones 15)) by lia.
    rewrite andb_false_r. symmetry. apply Z.testbit_even_0.
  - replace n with (Z.succ (n - 1)) at 1 3 by lia.
    rewrite Z.testbit_even_succ by lia.
    rewrite Z.div2_bits by lia.
    rewrite Z.testbit_ones by lia.
    destruct (Z.ltb_spec (n - 1) 15).
    + rewrite (proj2 (Z.leb_le 0 (n - 1))) by lia. now rewrite andb_true_r.
    + rewrite andb_false_r, andb_false_r. symmetry.
      rewrite <- (Z.mod_small a (2 ^ 16)) by (change (2 ^ 16) with 0x10000; lia).
      apply Z.mod_pow2_bits_high. lia.
Qed.

Lemma seqZ_row : seqZ 0 PPU_PIXELS_PER_TILE_ROW = [0; 1; 2; 3; 4; 5; 6; 7].
Proof. reflexivity. Qed.

(** The pixel loop of [ppu_write_vram] leaves [f pixel] in each of the eight
    cells it walks over. *)
Lemma row_written (tb : list Z) (base : Z) (f : Z -> Z) (pixel : Z) :
  0 <= base -> base + 8 <= Z.of_nat (length tb) -> 0 <= pixel < 8 ->
  rd (fold_left (fun tb pixel => wr tb (base + pixel) (f pixel))
        (seqZ 0 PPU_PIXELS_PER_TILE_ROW) tb) (base + pixel)
  = f pixel.
Proof.
  intros Hb Hlen Hp. rewrite seqZ_row. cbn [fold_left].
  assert (pixel = 0 \/ pixel = 1 \/ pixel = 2 \/ pixel = 3 \/ pixel = 4 \/ pixel = 5
          \/ pixel = 6 \/ pixel = 7) as Hc by lia.
  repeat (destruct Hc as [-> | Hc]); try subst pixel;
    repeat (rewrite rd_wr_ne by lia);
    rewrite rd_wr_eq by (rewrite ?length_wr; lia); reflexivity.
Qed.

(** A write below the tile-data boundary recomputes the row of the tile cache
    that the address belongs to from the byte pair around the address. *)
Lemma ppu_write_vram_row (gb : GameBoy) (address value pixel : Z) :
  0 <= address < 0x1800 ->
  Z.of_nat (length (tile_buffer (ppu gb))) = 384 * 8 * 8 ->
  0 <= pixel < 8 ->
  tile_at (tile_buffer (ppu (ppu_write_vram gb address value)))
    (address / PPU_BYTES_PER_TILE) (address mod PPU_BYTES_PER_TILE / PPU_BYTES_PER_ROW) pixel
  = color_code
      (rd (wr (vram (ppu gb)) address value) (Z.land address 0xFFFE))
      (rd (wr (vram (ppu gb)) address value) (Z.land address 0xFFFE + 1))
      pixel.
Proof.
  intros Ha Hlen Hp. unfold ppu_write_vram, tile_at.
  rewrite (proj2 (Z.ltb_lt address 0x1800)) by lia.
  cbn [ppu on_ppu tile_buffer set_tile_buffer set_vram vram].
  unfold PPU_BYTES_PER_TILE, PPU_BYTES_PER_ROW, PPU_ROWS_PER_TILE.
  change (PPU_PIXELS_PER_TILE_ROW) with 8 at 1 3.
  apply (row_written (tile_buffer (ppu gb)) ((address / 16 * 8 + address mod 16 / 2) * 8)
           (color_code (rd (wr (vram (ppu gb)) address value) (Z.land address 0xFFFE))
              (rd (wr (vram (ppu gb)) address value) (Z.land address 0xFFFE + 1)))
           pixel); [| | assumption].
  - assert (0 <= address / 16) by (apply Z.div_pos; lia).
    assert (0 <= address mod 16 / 2) by (apply Z.div_pos; [apply Z.mod_pos_bound |]; lia).
    lia.
  - assert (address / 16 <= 383) by (apply Z.lt_succ_r, Z.div_lt_upper_bound; lia).
    assert (address mod 16 / 2 <= 7).
    { apply Z.lt_succ_r, Z.div_lt_upper_bound; [lia |].
      pose proof (Z.mod_pos_bound address 16). lia. }
    lia.
Qed.

Lemma ppu_write_vram_vram (gb : GameBoy) (address value : Z) :
  vram (ppu (ppu_write_vram gb address value)) = wr (vram (ppu gb)) address value.
Proof. unfold ppu_write_vram. destruct (address <? 0x1800); reflexivity. Qed.

Lemma ppu_write_vram_length (gb : GameBoy) (address value : Z) :
  length (tile_buffer (ppu (ppu_write_vram gb address value)))
  = length (tile_buffer (ppu gb)).
Proof.
  unfold ppu_write_vram. destruct (address <? 0x1800); [| reflexivity].
  cbn [ppu on_ppu tile_buffer set_tile_buffer set_vram vram].
  rewrite seqZ_row. cbn [fold_left]. now rewrite !length_wr.
Qed.

(** Two writes that fill the byte pair of the first row of a tile. *)
Lemma first_row_written (gb : GameBoy) (tile byte1 byte2 : Z) :
  0 <= tile < 384 ->
  Z.of_nat (length (vram (ppu gb))) = 0x2000 ->
  Z.of_nat (length (tile_buffer (ppu gb))) = 384 * 8 * 8 ->
  tile_row_colors
    (tile_buffer (ppu (ppu_write_vram (ppu_write_vram gb (16 * tile) byte1)
                         (16 * tile + 1) byte2)))
    tile 0
  = map (color_code byte1 byte2) [0; 1; 2; 3; 4; 5; 6; 7].
Proof.
  intros Ht Hv Htb. unfold tile_row_colors. rewrite seqZ_row.
  apply map_ext_in. intros pixel Hin.
  assert (0 <= pixel < 8) as Hp by (simpl in Hin; lia).
  set (gb1 := ppu_write_vram gb (16 * tile) byte1).
  assert (tile = (16 * tile + 1) / PPU_BYTES_PER_TILE) as Htile.
  { unfold PPU_BYTES_PER_TILE. apply (Z.div_unique _ 16 tile 1); lia. }
  assert (0 = (16 * tile + 1) mod PPU_BYTES_PER_TILE / PPU_BYTES_PER_ROW) as Hrow.
  { unfold PPU_BYTES_PER_TILE, PPU_BYTES_PER_ROW.
    rewrite <- (Z.mod_unique (16 * tile + 1) 16 tile 1) by lia. reflexivity. }
  assert (Z.of_nat (length (tile_buffer (ppu gb1))) = 384 * 8 * 8) as Htb1
    by (unfold gb1; rewrite ppu_write_vram_length; assumption).
  pose proof (ppu_write_vram_row gb1 (16 * tile + 1) byte2 pixel ltac:(lia) Htb1 Hp) as Hcell.
  rewrite <- Htile, <- Hrow in Hcell. rewrite Hcell.
  unfold gb1. rewrite ppu_write_vram_vram.
  rewrite land_FFFE by lia.
  replace (2 * ((16 * tile + 1) / 2)) with (16 * tile)
    by (rewrite <- (Z.div_unique (16 * tile + 1) 2 (8 * tile) 1) by lia; lia).
  rewrite rd_wr_ne by lia.
  rewrite !rd_wr_eq by (rewrite ?length_wr; lia).
  reflexivity.
Qed.

(** C5.  A video-memory write below the tile-data boundary stores the byte
    and recomputes the eight cache entries of the row it belongs to: entry
    [pixel] is bit [7 - pixel] of the even byte of the pair plus twice bit
    [7 - pixel] of the odd byte.  Writing 0xFF,0x00 into the first row of a
    tile gives eight 1s, 0x00,0xFF eight 2s and 0xFF,0xFF eight 3s. *)
Theorem C5_tile_row_recomputed (gb : GameBoy) (address value : Z) :
  0 <= address < 0x1800 ->
  Z.of_nat (length (vram (ppu gb))) = 0x2000 ->
  Z.of_nat (length (tile_buffer (ppu gb))) = 384 * 8 * 8 ->
  ppu_read_vram (ppu_write_vram gb address value) address = value /\
  (forall pixel : Z, 0 <= pixel < 8 ->
     tile_at (tile_buffer (ppu (ppu_write_vram gb address value)))
       (address / 16) (address mod 16 / 2) pixel
     = Z.b2z (Z.testbit
                (ppu_read_vram (ppu_write_vram gb address value) (2 * (address / 2)))
                (7 - pixel)) * 1
       + Z.b2z (Z.testbit
                  (ppu_read_vram (ppu_write_vram gb address value) (2 * (address / 2) + 1))
                  (7 - pixel)) * 2) /\
  (forall tile : Z, 0 <= tile < 384 ->
     tile_row_colors
       (tile_buffer (ppu (ppu_write_vram (ppu_write_vram gb (16 * tile) 0xFF)
                            (16 * tile + 1) 0x00))) tile 0
     = [1; 1; 1; 1; 1; 1; 1; 1] /\
     tile_row_colors
       (tile_buffer (ppu (ppu_write_vram (ppu_write_vram gb (16 * tile) 0x00)
                            (16 * tile + 1) 0xFF))) tile 0
     = [2; 2; 2; 2; 2; 2; 2; 2] /\
     tile_row_colors
       (tile_buffer (ppu (ppu_write_vram (ppu_write_vram gb (16 * tile) 0xFF)
                            (16 * tile + 1) 0xFF))) tile 0
     = [3; 3; 3; 3; 3; 3; 3; 3]).
Proof.
  intros Ha Hv Htb. split; [| split].
  - unfold ppu_read_vram. rewrite ppu_write_vram_vram. apply rd_wr_eq. lia.
  - intros pixel Hp. unfold ppu_read_vram. rewrite ppu_write_vram_vram.
    rewrite <- land_FFFE by lia.
    rewrite <- color_code_bits by assumption.
    now apply ppu_write_vram_row.
  - intros tile Ht.
    rewrite !first_row_written by assumption.
    split; [| split]; reflexivity.
Qed.

(** C5 at work on the power-on state: a write to the odd byte of row 1 of
    tile 18, and the pair 0xFF,0x00 written to the first row of tile 5. *)
Lemma C5_tile_row_recomputed_witness :
  ppu_read_vram (ppu_write_vram power_on 0x0123 0xA5) 0x0123 = 0xA5 /\
  tile_row_colors (tile_buffer (ppu (ppu_write_vram power_on 0x0123 0xA5))) 18 1
  = [2; 0; 2; 0; 0; 2; 0; 2] /\
  tile_row_colors
    (tile_buffer (ppu (ppu_write_vram (ppu_write_vram power_on (16 * 5) 0xFF)
                         (16 * 5 + 1) 0x00))) 5 0
  = [1; 1; 1; 1; 1; 1; 1; 1].
Proof.
  destruct (C5_tile_row_recomputed power_on 0x0123 0xA5) as (Hstored & Hrow & Hpairs).
  - lia.
  - vm_compute. reflexivity.
  - vm_compute. reflexivity.
  - split; [exact Hstored |]. split; [vm_compute; reflexivity |].
    exact (proj1 (Hpairs 5 ltac:(lia))).
Defined.

(** ** Line renderer: sprite priority *)

(** C4.  The sort exchanges rows, so equal X bytes do not keep their
    object-memory order: with objects 0 and 1 at the same X and object 2 to
    their left, the scan selects them in memory order, the sort leaves
    object 1 before object 0, and the pixels the two share end up with the
    color of object 1, also when the line is drawn by the per-dot advance
    at the end of DATA_TRANSFER. *)
Theorem C4_sprite_sort_is_not_stable :
  select_sprites (ppu tied_sprites) 8
  = [[16; 20; 1; 0]; [16; 20; 2; 0]; [16; 10; 3; 0]] /\
  sort_sprites (select_sprites (ppu tied_sprites) 8)
  = [[16; 10; 3; 0]; [16; 20; 2; 0]; [16; 20; 1; 0]] /\
  tile_row_colors (tile_buffer (ppu tied_sprites)) 1 0 = [1; 1; 1; 1; 1; 1; 1; 1] /\
  tile_row_colors (tile_buffer (ppu tied_sprites)) 2 0 = [2; 2; 2; 2; 2; 2; 2; 2] /\
  map (rd (display_buffer (ppu (ppu_draw_line tied_sprites)))) (seqZ 12 8)
  = [2; 2; 2; 2; 2; 2; 2; 2] /\
  map (rd (display_buffer (ppu (@ppu_cycle dmg tied_sprites)))) (seqZ 0 24)
  = [0; 0; 3; 3; 3; 3; 3; 3; 3; 3; 0; 0; 2; 2; 2; 2; 2; 2; 2; 2; 0; 0; 0; 0].
Proof. vm_compute. repeat split. Qed.

(** ** Export routines *)

Lemma get_pixel_color_values (c : Z) :
  In (get_pixel_color c)
    [0xF5F5F5F5; 0xAAAAAAAA; 0x55555555; 0x01010101; 0x00000000; 0x00FF00FF].
Proof.
  unfold get_pixel_color.
  repeat match goal with |- context [if ?b then _ else _] => destruct b end;
    simpl; auto 10.
Qed.

(** The loop of the display export from pixel [i] on: it leaves through the
    [return] when [length] is one of the [n] indices still to come, right
    after storing that pixel. *)
Lemma display_loop (gb : GameBoy) (length : Z) (n : nat) (i : Z) (data : stores) :
  for_up n i (fun x data =>
      let data :=
        if c_true (Z.land (lcdc (ppu gb)) LCDC_LCD_ENABLE_BIT)
        then (x, get_pixel_color (rd (display_buffer (ppu gb)) x)) :: data
        else (x, get_pixel_color PPU_LCD_COLOR_CODE) :: data in
      if x =? length then Return data length else Next data) data
  = if (i <=? length) && (length <? i + Z.of_nat n)
    then Return
           (reverse (map (fun x => (x, display_shade gb x)) (seqZ i (length - i + 1))) ++ data)
           length
    else Next (reverse (map (fun x => (x, display_shade gb x)) (seqZ i (Z.of_nat n))) ++ data).
Proof.
  revert i data. induction n as [| n IH]; intros i data.
  - replace ((i <=? length) && (length <? i + Z.of_nat 0)) with false
      by (symmetry; apply andb_false_iff; rewrite Z.leb_gt, Z.ltb_ge; lia).
    reflexivity.
  - cbn [for_up]. cbv zeta.
    replace (if c_true (Z.land (lcdc (ppu gb)) LCDC_LCD_ENABLE_BIT)
             then (i, get_pixel_color (rd (display_buffer (ppu gb)) i)) :: data
             else (i, get_pixel_color PPU_LCD_COLOR_CODE) :: data)
      with ((i, display_shade gb i) :: data)
      by (unfold display_shade; destruct (c_true _); reflexivity).
    destruct (Z.eqb_spec i length) as [-> | Hne].
    + rewrite Z.leb_refl, (proj2 (Z.ltb_lt _ _)) by lia.
      replace (length - length + 1) with 1 by lia. reflexivity.
    + rewrite IH.
      replace ((i + 1 <=? length) && (length <? i + 1 + Z.of_nat n))
        with ((i <=? length) && (length <? i + Z.of_nat (S n)))
        by (destruct (Z.leb_spec i length), (Z.leb_spec (i + 1) length),
              (Z.ltb_spec length (i + Z.of_nat (S n))),
              (Z.ltb_spec length (i + 1 + Z.of_nat n)); simpl; lia || reflexivity).
      destruct ((i <=? length) && (length <? i + Z.of_nat (S n))) eqn:Hc.
      * apply andb_prop in Hc. destruct Hc as [Hc1 Hc2]. apply Z.leb_le in Hc1.
        rewrite (seqZ_cons i) by lia. cbn [map]. rewrite reverse_cons, <- app_assoc.
        replace (Z.pred (length - i + 1)) with (length - (i + 1) + 1) by lia.
        reflexivity.
      * rewrite (seqZ_cons i) by lia. cbn [map]. rewrite reverse_cons, <- app_assoc.
        replace (Z.pred (Z.of_nat (S n))) with (Z.of_nat n) by lia.
        reflexivity.
Qed.

(** The display export stores the shades of pixels 0 to [length], or of all
    the 160x144 pixels when [length] is not among them, and returns [length]
    capped at the full size. *)
Lemma ppu_get_display_data_spec (gb : GameBoy) (length : Z) :
  0 <= length ->
  ppu_get_display_data gb length
  = (map (fun x => (x, display_shade gb x))
       (seqZ 0 (Z.min (length + 1) (PPU_DISPLAY_WIDTH * PPU_DISPLAY_HEIGHT))),
     Z.min length (PPU_DISPLAY_WIDTH * PPU_DISPLAY_HEIGHT)).
Proof.
  intros Hlen. unfold ppu_get_display_data. rewrite display_loop.
  assert (PPU_DISPLAY_WIDTH * PPU_DISPLAY_HEIGHT = 23040) as HN by reflexivity.
  rewrite Z2Nat.id by lia.
  rewrite (proj2 (Z.leb_le 0 length)) by assumption. rewrite Z.add_0_l, andb_true_l.
  destruct (Z.ltb_spec length (PPU_DISPLAY_WIDTH * PPU_DISPLAY_HEIGHT)); unfold exported;
    rewrite app_nil_r, reverse_involutive.
  - rewrite Z.min_l, Z.min_l, Z.sub_0_r by lia. reflexivity.
  - rewrite Z.min_r, Z.min_r by lia. reflexivity.
Qed.

(** C9.  The background-map and tile-set exports store the cached color
    index itself: with the first row of tile 0 at color index 1, the first
    eight stores of either routine carry the value 1, which the shade lookup
    never produces.  The display export does store shades, and the blank
    shade for every pixel when the LCD is off. *)
Theorem C9_map_and_tileset_exports_store_raw_indices :
  (forall c : Z, get_pixel_color c <> 1) /\
  tile_row_colors (tile_buffer (ppu one_tile_row)) 0 0 = [1; 1; 1; 1; 1; 1; 1; 1] /\
  ppu_get_tileset_data one_tile_row 7
  = ([(0, 1); (1, 1); (2, 1); (3, 1); (4, 1); (5, 1); (6, 1); (7, 1)], 7) /\
  ppu_get_background_data one_tile_row 7
  = ([(0, 1); (1, 1); (2, 1); (3, 1); (4, 1); (5, 1); (6, 1); (7, 1)], 7) /\
  (forall (gb : GameBoy) (length : Z), 0 <= length ->
     Forall (fun store => exists c : Z, snd store = get_pixel_color c)
       (fst (ppu_get_display_data gb length))) /\
  (forall (gb : GameBoy) (length : Z), 0 <= length ->
     Z.land (lcdc (ppu gb)) LCDC_LCD_ENABLE_BIT = 0 ->
     fst (ppu_get_display_data gb length)
     = map (fun x => (x, get_pixel_color PPU_LCD_COLOR_CODE))
         (seqZ 0 (Z.min (length + 1) (PPU_DISPLAY_WIDTH * PPU_DISPLAY_HEIGHT)))).
Proof.
  split; [| split; [| split; [| split; [| split]]]].
  - intros c Hc. pose proof (get_pixel_color_values c) as Hin. rewrite Hc in Hin.
    simpl in Hin. intuition discriminate.
  - vm_compute. reflexivity.
  - vm_compute. reflexivity.
  - vm_compute. reflexivity.
  - intros gb length Hlen. rewrite ppu_get_display_data_spec by assumption.
    cbn [fst]. apply Forall_forall. intros store Hin.
    apply list_elem_of_In, in_map_iff in Hin. destruct Hin as (x & <- & _).
    cbn [snd]. unfold display_shade. destruct (c_true _); eauto.
  - intros gb length Hlen Hoff. rewrite ppu_get_display_data_spec by assumption.
    cbn [fst]. unfold display_shade. apply c_true_false_iff in Hoff. now rewrite Hoff.
Qed.

(** C10.  The count is compared after the store, and against the index just
    stored.  Asked for [length] elements, fewer than the 160x144 of the full
    view, the display export stores [length + 1] and returns [length]; asked
    for 0 it stores element 0 and returns 0.  Asked for 8 elements, the
    tile-set and background-map exports store 65, the eight rows of the first
    tile and one more, up to index 903 and 1799, and return 8. *)
Theorem C10_exports_store_past_the_count :
  (forall (gb : GameBoy) (length : Z),
     0 <= length < PPU_DISPLAY_WIDTH * PPU_DISPLAY_HEIGHT ->
     Z.of_nat (List.length (fst (ppu_get_display_data gb length))) = length + 1 /\
     snd (ppu_get_display_data gb length) = length) /\
  (forall (gb : GameBoy) (length : Z),
     PPU_DISPLAY_WIDTH * PPU_DISPLAY_HEIGHT <= length ->
     Z.of_nat (List.length (fst (ppu_get_display_data gb length)))
     = PPU_DISPLAY_WIDTH * PPU_DISPLAY_HEIGHT /\
     snd (ppu_get_display_data gb length) = PPU_DISPLAY_WIDTH * PPU_DISPLAY_HEIGHT) /\
  ppu_get_display_data power_on 0 = ([(0, 0xF5F5F5F5)], 0) /\
  Z.of_nat (List.length (fst (ppu_get_tileset_data power_on 8))) = 65 /\
  snd (ppu_get_tileset_data power_on 8) = 8 /\
  In (903, 0) (fst (ppu_get_tileset_data power_on 8)) /\
  Z.of_nat (List.length (fst (ppu_get_background_data power_on 8))) = 65 /\
  snd (ppu_get_background_data power_on 8) = 8 /\
  In (1799, 0) (fst (ppu_get_background_data power_on 8)).
Proof.
  assert (forall (l : list (Z * Z)) (x : Z * Z),
             existsb (fun y => (fst y =? fst x) && (snd y =? snd x)) l = true -> In x l)
    as Hin.
  { intros l x Hex. apply existsb_exists in Hex. destruct Hex as (y & Hy & Heq).
    apply andb_prop in Heq. destruct Heq as (H1 & H2).
    apply Z.eqb_eq in H1, H2. destruct x, y. simpl in *. now subst. }
  assert (PPU_DISPLAY_WIDTH * PPU_DISPLAY_HEIGHT = 23040) as HN by reflexivity.
  split; [| split].
  - intros gb length Hlen. rewrite ppu_get_display_data_spec by lia.
    cbn [fst snd]. rewrite length_map, length_seqZ. lia.
  - intros gb length Hlen. rewrite ppu_get_display_data_spec by lia.
    cbn [fst snd]. rewrite length_map, length_seqZ. lia.
  - repeat split; try (vm_compute; reflexivity); apply Hin; vm_compute; reflexivity.
Qed.

(** * Further properties of the controller *)

(** ** Status and control registers on the bus *)

(** X1.  A read of the status register is a byte with the unused top bit
    set and the seven stored low bits unchanged; the interrupt-enable bits a
    bus write stored read back, and the write leaves the mode alone. *)
Theorem stat_read_back (gb : GameBoy) (value : Z) :
  0 <= ppu_read_stat gb < 256 /\
  Z.land (ppu_read_stat gb) STAT_UNUSED_BIT = STAT_UNUSED_BIT /\
  Z.land (ppu_read_stat gb) 0x7F = Z.land (stat (ppu gb)) 0x7F /\
  Z.land (ppu_read_stat (ppu_write_stat gb value)) 0x78 = Z.land value 0x78 /\
  ppu_get_mode (ppu_write_stat gb value) = ppu_get_mode gb.
Proof.
  unfold ppu_read_stat, ppu_write_stat, ppu_get_mode, STAT_UNUSED_BIT, STAT_WRITE_BITS,
    STAT_MODE_BITS.
  cbn [ppu on_ppu stat set_stat].
  generalize (stat (ppu gb)); intros s.
  split; [apply Z.mod_pos_bound; lia |].
  repeat split; byte_bits.
Qed.

(** X2.  A second bus write to the status register overrides the first:
    nothing of the first value is left in the machine. *)
Theorem stat_write_overrides (gb : GameBoy) (first second : Z) :
  ppu_write_stat (ppu_write_stat gb first) second = ppu_write_stat gb second.
Proof.
  unfold ppu_write_stat, on_ppu, set_stat, STAT_WRITE_BITS. cbn.
  f_equal. f_equal.
  generalize (stat (ppu gb)); intros s. byte_bits.
Qed.

Lemma cycles_succ {H : Header} (n : nat) (gb : GameBoy) :
  cycles (S n) gb = ppu_cycle (cycles n gb).
Proof. reflexivity. Qed.

Lemma cycles_add {H : Header} (n m : nat) (gb : GameBoy) :
  cycles (n + m) gb = cycles m (cycles n gb).
Proof.
  unfold cycles. rewrite Nat.add_comm. apply Nat.iter_add.
Qed.

(** X3.  Once the LCD is switched off by a write to the control register,
    the per-dot advance does nothing, however often it is called: scanline 0,
    counter 115 and mode bits 0 stay until the control register is written
    again. *)
Theorem lcd_off_freezes_controller {H : Header} (gb : GameBoy) (value : Z) (n : nat) :
  Z.land value LCDC_LCD_ENABLE_BIT = 0 ->
  cycles n (ppu_write_lcdc gb value) = ppu_write_lcdc gb value.
Proof.
  intros Hoff.
  induction n as [| n IH]; [reflexivity |].
  rewrite cycles_succ, IH.
  unfold ppu_cycle.
  replace (lcdc (ppu (ppu_write_lcdc gb value))) with value
    by (unfold ppu_write_lcdc; destruct (negb _); reflexivity).
  unfold c_true. rewrite Hoff. reflexivity.
Qed.

(** X3 at work: a thousand dots after the LCD was switched off in
    DATA_TRANSFER. *)
Lemma lcd_off_freezes_controller_witness :
  @cycles dmg 1000 (ppu_write_lcdc in_data_transfer 0x11) = ppu_write_lcdc in_data_transfer 0x11.
Proof.
  refine (@lcd_off_freezes_controller dmg in_data_transfer 0x11 1000 _).
  reflexivity.
Defined.

(** ** Timing of the state machine *)

Lemma set_count_twice (a b : Z) (p : PPU) : set_count a (set_count b p) = set_count a p.
Proof. reflexivity. Qed.

Lemma set_count_same (p : PPU) : set_count (count p) p = p.
Proof. destruct p; reflexivity. Qed.

(** A counter of at least seven bits holds every mode length. *)
Lemma wrap_count_small {H : Header} (z : Z) :
  7 <= COUNT_BITS -> 0 <= z < 128 -> wrap_count z = z.
Proof.
  intros Hbits Hz. unfold wrap_count. apply Z.mod_small.
  pose proof (Z.pow_le_mono_r 2 7 COUNT_BITS ltac:(lia) Hbits) as Hpow.
  change (2 ^ 7) with 128 in Hpow. lia.
Qed.

Lemma scx_cycle_offset_range (x : Z) : 0 <= rd scx_cycle_offsets (x mod 0x08) <= 2.
Proof.
  pose proof (Z.mod_pos_bound x 8 ltac:(lia)) as Hm.
  assert (x mod 8 = 0 \/ x mod 8 = 1 \/ x mod 8 = 2 \/ x mod 8 = 3 \/ x mod 8 = 4
          \/ x mod 8 = 5 \/ x mod 8 = 6 \/ x mod 8 = 7) as Hc by lia.
  repeat (destruct Hc as [-> | Hc]); try rewrite Hc; vm_compute; split; discriminate.
Qed.

(** A dot that does not end the mode only counts down. *)
Lemma ppu_cycle_within {H : Header} (gb : GameBoy) :
  7 <= COUNT_BITS ->
  Z.land (lcdc (ppu gb)) LCDC_LCD_ENABLE_BIT <> 0 ->
  2 <= count (ppu gb) <= 128 ->
  ppu (ppu_cycle gb) = set_count (count (ppu gb) - 1) (ppu gb).
Proof.
  intros Hbits Hon Hc. apply c_true_iff in Hon.
  unfold ppu_cycle. rewrite Hon. clear Hon. cbn [negb]. cbv zeta.
  set (gb1 := on_ppu (fun p => set_count (wrap_count (count p - 1)) p) gb).
  assert (ppu gb1 = set_count (count (ppu gb) - 1) (ppu gb)) as Hp1.
  { unfold gb1, on_ppu. cbn [ppu]. now rewrite wrap_count_small by lia. }
  match goal with
  | |- context [if negb (count (ppu ?g) =? 0) then _ else _] => set (gb2 := g)
  end.
  assert (ppu gb2 = ppu gb1) as Hp2.
  { unfold gb2.
    destruct (_ && _);
      [destruct (c_true (Z.land (stat (ppu gb1)) STAT_HBLANK_CHECK_ENABLE)) |];
      reflexivity. }
  rewrite Hp2, Hp1. cbn [count set_count].
  rewrite (proj2 (Z.eqb_neq (count (ppu gb) - 1) 0)) by lia. cbn [negb].
  now rewrite Hp2, Hp1.
Qed.

Lemma cycles_within {H : Header} (k : nat) (gb : GameBoy) :
  7 <= COUNT_BITS ->
  Z.land (lcdc (ppu gb)) LCDC_LCD_ENABLE_BIT <> 0 ->
  Z.of_nat k < count (ppu gb) <= 128 ->
  ppu (cycles k gb) = set_count (count (ppu gb) - Z.of_nat k) (ppu gb).
Proof.
  intros Hbits Hon. induction k as [| k IH]; intros Hc.
  - cbn [cycles Nat.iter Z.of_nat]. rewrite Z.sub_0_r. symmetry. apply set_count_same.
  - rewrite cycles_succ.
    specialize (IH ltac:(lia)).
    rewrite ppu_cycle_within; rewrite ?IH; try assumption.
    + rewrite set_count_twice. cbn [count set_count]. f_equal. lia.
    + cbn [count set_count]. lia.
Qed.

Lemma timing_compare {H : Header} (gb : GameBoy) :
  timing (ppu_compare_ly_lyc gb) = timing gb.
Proof.
  pose proof (ppu_compare_ly_lyc_mode gb) as Hm. unfold ppu_get_mode in Hm.
  unfold timing. rewrite Hm.
  unfold ppu_compare_ly_lyc.
  destruct (negb (ly (ppu gb) =? lyc (ppu gb))); [reflexivity |].
  cbv zeta. destruct (c_true _); reflexivity.
Qed.

Lemma timing_draw_line (gb : GameBoy) : timing (ppu_draw_line gb) = timing gb.
Proof. reflexivity. Qed.

Lemma timing_oam_search_enter {H : Header} (gb : GameBoy) :
  0 <= GRAPHICS_MODE_OAM_SEARCH <= 3 ->
  timing (ppu_oam_search_enter gb)
  = (lcdc (ppu gb), scx (ppu gb), GRAPHICS_MODE_OAM_SEARCH, ly (ppu gb),
     wrap_count (count (ppu gb) + PPU_OAM_SEARCH_LENGTH)).
Proof.
  intros Hm. unfold timing, ppu_oam_search_enter. cbv zeta.
  destruct (c_true _); cbn [ppu on_ppu raise_flag lcdc scx stat ly count set_stat set_count];
    now rewrite mode_bits_after_enter.
Qed.

Lemma timing_vblank_enter {H : Header} (gb : GameBoy) :
  0 <= GRAPHICS_MODE_VBLANK <= 3 ->
  timing (ppu_vblank_enter gb)
  = (lcdc (ppu gb), scx (ppu gb), GRAPHICS_MODE_VBLANK, ly (ppu gb),
     wrap_count (count (ppu gb) + PPU_VBLANK_LENGTH)).
Proof.
  intros Hm. unfold timing, ppu_vblank_enter. cbv zeta.
  destruct (_ || _);
    cbn [ppu on_ppu raise_flag lcdc scx stat ly count set_stat set_count
         set_window_internal_line];
    now rewrite mode_bits_after_enter.
Qed.

Lemma timing_data_transfer_enter {H : Header} (gb : GameBoy) :
  0 <= GRAPHICS_MODE_DATA_TRANSFER <= 3 ->
  timing (ppu_data_transfer_enter gb)
  = (lcdc (ppu gb), scx (ppu gb), GRAPHICS_MODE_DATA_TRANSFER, ly (ppu gb),
     wrap_count (count (ppu gb)
                 + (PPU_DATA_TRANSFER_LENGTH + rd scx_cycle_offsets (scx (ppu gb) mod 0x08)))).
Proof.
  intros Hm. unfold timing, ppu_data_transfer_enter. cbv zeta.
  cbn [ppu on_ppu lcdc scx stat ly count set_stat set_count].
  now rewrite mode_bits_after_enter.
Qed.

Lemma timing_hblank_enter {H : Header} (gb : GameBoy) :
  0 <= GRAPHICS_MODE_HBLANK <= 3 ->
  timing (ppu_hblank_enter gb)
  = (lcdc (ppu gb), scx (ppu gb), GRAPHICS_MODE_HBLANK, ly (ppu gb),
     wrap_count (count (ppu gb)
                 + (PPU_HBLANK_LENGTH - rd scx_cycle_offsets (scx (ppu gb) mod 0x08)))).
Proof.
  intros Hm. unfold timing, ppu_hblank_enter. cbv zeta.
  cbn [ppu on_ppu lcdc scx stat ly count set_stat set_count].
  now rewrite mode_bits_after_enter.
Qed.

(** What the timing registers are after the dot that ends a mode, mode by
    mode. *)
Lemma dot_ends_mode {H : Header} (gb : GameBoy) (l x m y : Z) :
  HeaderOk H -> 7 <= COUNT_BITS ->
  Z.land l LCDC_LCD_ENABLE_BIT <> 0 ->
  0 <= y < 255 ->
  timing gb = (l, x, m, y, 1) ->
  (m = GRAPHICS_MODE_OAM_SEARCH ->
   timing (ppu_cycle gb)
   = (l, x, GRAPHICS_MODE_DATA_TRANSFER, y,
      PPU_DATA_TRANSFER_LENGTH + rd scx_cycle_offsets (x mod 0x08))) /\
  (m = GRAPHICS_MODE_DATA_TRANSFER ->
   timing (ppu_cycle gb)
   = (l, x, GRAPHICS_MODE_HBLANK, y,
      PPU_HBLANK_LENGTH - rd scx_cycle_offsets (x mod 0x08))) /\
  (m = GRAPHICS_MODE_HBLANK -> y + 1 < 144 ->
   timing (ppu_cycle gb) = (l, x, GRAPHICS_MODE_OAM_SEARCH, y + 1, PPU_OAM_SEARCH_LENGTH)) /\
  (m = GRAPHICS_MODE_HBLANK -> 144 <= y + 1 ->
   timing (ppu_cycle gb) = (l, x, GRAPHICS_MODE_VBLANK, y + 1, PPU_VBLANK_LENGTH)) /\
  (m = GRAPHICS_MODE_VBLANK -> y + 1 <= 153 ->
   timing (ppu_cycle gb) = (l, x, GRAPHICS_MODE_VBLANK, y + 1, PPU_VBLANK_LENGTH)) /\
  (m = GRAPHICS_MODE_VBLANK -> 153 < y + 1 ->
   timing (ppu_cycle gb) = (l, x, GRAPHICS_MODE_OAM_SEARCH, 0, PPU_OAM_SEARCH_LENGTH)).
Proof.
  intros Hok Hbits Hon Hy Ht.
  destruct Hok as [Hh Hv Ho Hd Hhv Hho Hhd Hvo Hvd Hod].
  unfold timing in Ht. injection Ht as Hl Hx Hm Hly Hc.
  assert (Z.land (lcdc (ppu gb)) LCDC_LCD_ENABLE_BIT <> 0) as Hon' by now rewrite Hl.
  assert (wrap_count (count (ppu gb) - 1) = 0) as Hc' by now rewrite Hc.
  rewrite (ppu_cycle_boundary gb Hon' Hc'). cbv zeta.
  cbn [stat ppu on_ppu set_count set_ly ly]. rewrite Hm.
  pose proof (scx_cycle_offset_range x) as Hoff.
  assert (u8 (y + 1) = y + 1) as Hu8 by (apply Z.mod_small; lia).
  repeat split; intros ->.
  - rewrite !(proj2 (Z.eqb_neq _ _)) by congruence. rewrite Z.eqb_refl.
    rewrite timing_data_transfer_enter by assumption.
    cbn [ppu on_ppu lcdc scx ly count set_count].
    rewrite Hl, Hx, Hly, wrap_count_small; [reflexivity | assumption |].
    unfold PPU_DATA_TRANSFER_LENGTH. lia.
  - rewrite !(proj2 (Z.eqb_neq _ _)) by congruence. rewrite Z.eqb_refl.
    rewrite timing_hblank_enter by assumption.
    change (lcdc (ppu (ppu_draw_line (on_ppu (set_count 0) gb)))) with (lcdc (ppu gb)).
    change (scx (ppu (ppu_draw_line (on_ppu (set_count 0) gb)))) with (scx (ppu gb)).
    change (ly (ppu (ppu_draw_line (on_ppu (set_count 0) gb)))) with (ly (ppu gb)).
    change (count (ppu (ppu_draw_line (on_ppu (set_count 0) gb)))) with 0.
    rewrite Hl, Hx, Hly, wrap_count_small; [reflexivity | assumption |].
    unfold PPU_HBLANK_LENGTH. lia.
  - intros Hline. rewrite Z.eqb_refl, Hly, Hu8, (proj2 (Z.ltb_lt _ 144)) by lia.
    rewrite timing_compare, timing_oam_search_enter by assumption.
    cbn [ppu on_ppu lcdc scx ly count set_count set_ly].
    rewrite Hl, Hx, Hly, Hu8, wrap_count_small; [reflexivity | assumption |].
    unfold PPU_OAM_SEARCH_LENGTH. lia.
  - intros Hline. rewrite Z.eqb_refl, Hly, Hu8, (proj2 (Z.ltb_ge _ 144)) by lia.
    rewrite timing_compare, timing_vblank_enter by assumption.
    cbn [ppu on_ppu lcdc scx ly count set_count set_ly].
    rewrite Hl, Hx, Hly, Hu8, wrap_count_small; [reflexivity | assumption |].
    unfold PPU_VBLANK_LENGTH. lia.
  - intros Hline. rewrite (proj2 (Z.eqb_neq _ _)) by congruence.
    rewrite Z.eqb_refl, Hly, Hu8.
    replace (y + 1 >? 153) with false by (symmetry; rewrite Z.gtb_ltb; apply Z.ltb_ge; lia).
    rewrite timing_compare. unfold timing.
    cbn [ppu on_ppu lcdc scx ly stat count set_count set_ly].
    rewrite Hl, Hx, Hly, Hu8, Hm, wrap_count_small; [reflexivity | assumption |].
    unfold PPU_VBLANK_LENGTH. lia.
  - intros Hline. rewrite (proj2 (Z.eqb_neq _ _)) by congruence.
    rewrite Z.eqb_refl, Hly, Hu8, (proj2 (Z.gtb_gt _ 153)) by lia.
    rewrite timing_compare, timing_oam_search_enter by assumption.
    cbn [ppu on_ppu lcdc scx ly count set_count set_ly].
    rewrite Hl, Hx, wrap_count_small; [reflexivity | assumption |].
    unfold PPU_OAM_SEARCH_LENGTH. lia.
Qed.

(** A mode that has [c] dots left keeps its timing registers, but for the
    counter, for [c - 1] dots. *)
Lemma run_to_last_dot {H : Header} (gb : GameBoy) (l x m y c : Z) :
  7 <= COUNT_BITS ->
  Z.land l LCDC_LCD_ENABLE_BIT <> 0 ->
  1 <= c <= 128 ->
  timing gb = (l, x, m, y, c) ->
  timing (cycles (Z.to_nat (c - 1)) gb) = (l, x, m, y, 1).
Proof.
  intros Hbits Hon Hc Ht. unfold timing in Ht. injection Ht as Hl Hx Hm Hly Hcount.
  unfold timing. rewrite cycles_within; [| assumption | now rewrite Hl | lia].
  cbn [lcdc scx stat ly count set_count].
  rewrite Hl, Hx, Hm, Hly, Hcount. repeat f_equal. lia.
Qed.

(** A mode with [c] dots left ends on its [c]-th dot: the state before that
    dot has the same timing registers with the counter at 1. *)
Lemma last_dot_of_mode {H : Header} (gb : GameBoy) (l x m y c : Z) :
  7 <= COUNT_BITS ->
  Z.land l LCDC_LCD_ENABLE_BIT <> 0 ->
  1 <= c <= 128 ->
  timing gb = (l, x, m, y, c) ->
  exists before : GameBoy,
    cycles (Z.to_nat c) gb = ppu_cycle before /\ timing before = (l, x, m, y, 1).
Proof.
  intros Hbits Hon Hc Ht.
  exists (cycles (Z.to_nat (c - 1)) gb). split.
  - replace (Z.to_nat c) with (S (Z.to_nat (c - 1))) by lia. apply cycles_succ.
  - now apply run_to_last_dot.
Qed.

(** The phases of one visible scanline, and its last dot: the 114th call
    of the per-dot advance is made in HBLANK with the counter at 1. *)
Lemma visible_line_phases {H : Header} (gb : GameBoy) (l x y : Z) :
  HeaderOk H -> 7 <= COUNT_BITS ->
  Z.land l LCDC_LCD_ENABLE_BIT <> 0 ->
  0 <= y <= 143 ->
  timing gb = (l, x, GRAPHICS_MODE_OAM_SEARCH, y, PPU_OAM_SEARCH_LENGTH) ->
  let adjustment := rd scx_cycle_offsets (x mod 0x08) in
  timing (cycles 21 gb)
  = (l, x, GRAPHICS_MODE_DATA_TRANSFER, y, PPU_DATA_TRANSFER_LENGTH + adjustment) /\
  timing (cycles (21 + Z.to_nat (43 + adjustment)) gb)
  = (l, x, GRAPHICS_MODE_HBLANK, y, PPU_HBLANK_LENGTH - adjustment) /\
  exists before : GameBoy,
    cycles 114 gb = ppu_cycle before /\
    timing before = (l, x, GRAPHICS_MODE_HBLANK, y, 1).
Proof.
  intros Hok Hbits Hon Hy Ht adjustment.
  pose proof (scx_cycle_offset_range x) as Hoff. fold adjustment in Hoff.
  destruct (last_dot_of_mode gb l x _ y 21 Hbits Hon ltac:(lia) Ht) as (g1 & Hg1 & Ht1).
  change (Z.to_nat 21) with 21%nat in Hg1.
  pose proof (proj1 (dot_ends_mode g1 l x _ y Hok Hbits Hon ltac:(lia) Ht1) eq_refl) as Hdt.
  rewrite <- Hg1 in Hdt. fold adjustment in Hdt.
  destruct (last_dot_of_mode (cycles 21 gb) l x _ y (PPU_DATA_TRANSFER_LENGTH + adjustment)
              Hbits Hon ltac:(unfold PPU_DATA_TRANSFER_LENGTH; lia) Hdt)
    as (g2 & Hg2 & Ht2).
  pose proof (proj1 (proj2 (dot_ends_mode g2 l x _ y Hok Hbits Hon ltac:(lia) Ht2)) eq_refl)
    as Hhb.
  rewrite <- Hg2, <- cycles_add in Hhb. fold adjustment in Hhb.
  unfold PPU_DATA_TRANSFER_LENGTH in Hhb at 1.
  destruct (last_dot_of_mode _ l x _ y (PPU_HBLANK_LENGTH - adjustment)
              Hbits Hon ltac:(unfold PPU_HBLANK_LENGTH; lia) Hhb)
    as (g3 & Hg3 & Ht3).
  rewrite <- cycles_add in Hg3.
  replace (21 + Z.to_nat (43 + adjustment) + Z.to_nat (PPU_HBLANK_LENGTH - adjustment))%nat
    with 114%nat in Hg3 by (unfold PPU_HBLANK_LENGTH; lia).
  split; [exact Hdt |]. split; [exact Hhb |].
  exists g3. split; assumption.
Qed.

(** Where the controller stands after the 114 dots of a visible line. *)
Lemma visible_line_end {H : Header} (gb : GameBoy) (l x y : Z) :
  HeaderOk H -> 7 <= COUNT_BITS ->
  Z.land l LCDC_LCD_ENABLE_BIT <> 0 ->
  0 <= y <= 143 ->
  timing gb = (l, x, GRAPHICS_MODE_OAM_SEARCH, y, PPU_OAM_SEARCH_LENGTH) ->
  timing (cycles 114 gb)
  = (if y <? 143
     then (l, x, GRAPHICS_MODE_OAM_SEARCH, y + 1, PPU_OAM_SEARCH_LENGTH)
     else (l, x, GRAPHICS_MODE_VBLANK, 144, PPU_VBLANK_LENGTH)).
Proof.
  intros Hok Hbits Hon Hy Ht.
  destruct (visible_line_phases gb l x y Hok Hbits Hon Hy Ht) as (_ & _ & g3 & Hg3 & Ht3).
  rewrite Hg3.
  destruct (dot_ends_mode g3 l x _ y Hok Hbits Hon ltac:(lia) Ht3)
    as (_ & _ & Hnext & Hvblank & _).
  destruct (Z.ltb_spec y 143).
  - apply Hnext; [reflexivity | lia].
  - replace 144 with (y + 1) by lia. apply Hvblank; [reflexivity | lia].
Qed.

(** X4.  One visible scanline is 114 dots whatever the scroll register holds:
    21 dots of OAM_SEARCH, then DATA_TRANSFER stretched by the scroll
    adjustment, then HBLANK shortened by the same amount.  After the 114 dots
    the controller is at the start of the next line, or in VBLANK on line 144
    with a 114-dot counter when the line was the last visible one. *)
Theorem scanline_takes_114_dots {H : Header} (gb : GameBoy) (l x y : Z) :
  HeaderOk H -> 7 <= COUNT_BITS ->
  Z.land l LCDC_LCD_ENABLE_BIT <> 0 ->
  0 <= y <= 143 ->
  timing gb = (l, x, GRAPHICS_MODE_OAM_SEARCH, y, PPU_OAM_SEARCH_LENGTH) ->
  let adjustment := rd scx_cycle_offsets (x mod 0x08) in
  timing (cycles 21 gb)
  = (l, x, GRAPHICS_MODE_DATA_TRANSFER, y, PPU_DATA_TRANSFER_LENGTH + adjustment) /\
  timing (cycles (21 + Z.to_nat (43 + adjustment)) gb)
  = (l, x, GRAPHICS_MODE_HBLANK, y, PPU_HBLANK_LENGTH - adjustment) /\
  timing (cycles 114 gb)
  = (if y <? 143
     then (l, x, GRAPHICS_MODE_OAM_SEARCH, y + 1, PPU_OAM_SEARCH_LENGTH)
     else (l, x, GRAPHICS_MODE_VBLANK, 144, PPU_VBLANK_LENGTH)).
Proof.
  intros Hok Hbits Hon Hy Ht adjustment.
  destruct (visible_line_phases gb l x y Hok Hbits Hon Hy Ht) as (Hdt & Hhb & _).
  split; [exact Hdt |]. split; [exact Hhb |].
  apply visible_line_end; assumption.
Qed.

(** X4 at work, with scroll X at 5 (an adjustment of 2 dots): line 0 of
    [line_start]. *)
Lemma scanline_takes_114_dots_witness :
  timing (@cycles dmg 21 line_start) = (0x91, 5, 3, 0, 45) /\
  timing (@cycles dmg (21 + Z.to_nat (43 + 2)) line_start) = (0x91, 5, 0, 0, 48) /\
  timing (@cycles dmg 114 line_start) = (0x91, 5, 2, 1, 21).
Proof.
  refine (@scanline_takes_114_dots dmg line_start 0x91 5 0 dmg_ok _ _ _ _).
  - vm_compute. discriminate.
  - vm_compute. discriminate.
  - vm_compute. split; discriminate.
  - reflexivity.
Defined.

(** One line of VBLANK is 114 dots as well; line 153 is followed by line 0 in
    OAM_SEARCH. *)
Lemma vblank_line_takes_114_dots {H : Header} (gb : GameBoy) (l x y : Z) :
  HeaderOk H -> 7 <= COUNT_BITS ->
  Z.land l LCDC_LCD_ENABLE_BIT <> 0 ->
  144 <= y <= 153 ->
  timing gb = (l, x, GRAPHICS_MODE_VBLANK, y, PPU_VBLANK_LENGTH) ->
  timing (cycles 114 gb)
  = (if y <? 153
     then (l, x, GRAPHICS_MODE_VBLANK, y + 1, PPU_VBLANK_LENGTH)
     else (l, x, GRAPHICS_MODE_OAM_SEARCH, 0, PPU_OAM_SEARCH_LENGTH)).
Proof.
  intros Hok Hbits Hon Hy Ht.
  destruct (last_dot_of_mode gb l x _ y PPU_VBLANK_LENGTH Hbits Hon
              ltac:(unfold PPU_VBLANK_LENGTH; lia) Ht) as (g1 & Hg1 & Ht1).
  change (Z.to_nat PPU_VBLANK_LENGTH) with 114%nat in Hg1. rewrite Hg1.
  destruct (dot_ends_mode g1 l x _ y Hok Hbits Hon ltac:(lia) Ht1)
    as (_ & _ & _ & _ & Hnext & Hwrap).
  destruct (Z.ltb_spec y 153).
  - apply Hnext; [reflexivity | lia].
  - apply Hwrap; [reflexivity | lia].
Qed.

Lemma visible_lines {H : Header} (k : nat) (gb : GameBoy) (l x y : Z) :
  HeaderOk H -> 7 <= COUNT_BITS ->
  Z.land l LCDC_LCD_ENABLE_BIT <> 0 ->
  0 <= y -> y + Z.of_nat k <= 143 ->
  timing gb = (l, x, GRAPHICS_MODE_OAM_SEARCH, y, PPU_OAM_SEARCH_LENGTH) ->
  timing (cycles (k * 114) gb)
  = (l, x, GRAPHICS_MODE_OAM_SEARCH, y + Z.of_nat k, PPU_OAM_SEARCH_LENGTH).
Proof.
  intros Hok Hbits Hon. revert gb y.
  induction k as [| k IH]; intros gb y Hy Hk Ht.
  - cbn [Nat.mul cycles Nat.iter Z.of_nat]. now rewrite Z.add_0_r.
  - replace (S k * 114)%nat with (114 + k * 114)%nat by lia.
    rewrite cycles_add.
    pose proof (visible_line_end gb l x y Hok Hbits Hon ltac:(lia) Ht) as Hline.
    rewrite (proj2 (Z.ltb_lt y 143)) in Hline by lia.
    rewrite (IH _ (y + 1)); [| lia | lia | exact Hline].
    replace (y + 1 + Z.of_nat k) with (y + Z.of_nat (S k)) by lia. reflexivity.
Qed.

Lemma vblank_lines {H : Header} (k : nat) (gb : GameBoy) (l x y : Z) :
  HeaderOk H -> 7 <= COUNT_BITS ->
  Z.land l LCDC_LCD_ENABLE_BIT <> 0 ->
  144 <= y -> y + Z.of_nat k <= 153 ->
  timing gb = (l, x, GRAPHICS_MODE_VBLANK, y, PPU_VBLANK_LENGTH) ->
  timing (cycles (k * 114) gb)
  = (l, x, GRAPHICS_MODE_VBLANK, y + Z.of_nat k, PPU_VBLANK_LENGTH).
Proof.
  intros Hok Hbits Hon. revert gb y.
  induction k as [| k IH]; intros gb y Hy Hk Ht.
  - cbn [Nat.mul cycles Nat.iter Z.of_nat]. now rewrite Z.add_0_r.
  - replace (S k * 114)%nat with (114 + k * 114)%nat by lia.
    rewrite cycles_add.
    pose proof (vblank_line_takes_114_dots gb l x y Hok Hbits Hon ltac:(lia) Ht) as Hline.
    rewrite (proj2 (Z.ltb_lt y 153)) in Hline by lia.
    rewrite (IH _ (y + 1)); [| lia | lia | exact Hline].
    replace (y + 1 + Z.of_nat k) with (y + Z.of_nat (S k)) by lia. reflexivity.
Qed.

(** X5.  A frame is 154 lines of 114 dots, for every value of the scroll
    register: from the start of line 0 the controller is in VBLANK on line 144
    after 144 lines, stays there for ten lines, and is back at the start of
    line 0 after 154 x 114 = 17556 dots. *)
Theorem frame_takes_17556_dots {H : Header} (gb : GameBoy) (l x : Z) :
  HeaderOk H -> 7 <= COUNT_BITS ->
  Z.land l LCDC_LCD_ENABLE_BIT <> 0 ->
  timing gb = (l, x, GRAPHICS_MODE_OAM_SEARCH, 0, PPU_OAM_SEARCH_LENGTH) ->
  timing (cycles (144 * 114) gb) = (l, x, GRAPHICS_MODE_VBLANK, 144, PPU_VBLANK_LENGTH) /\
  timing (cycles (153 * 114) gb) = (l, x, GRAPHICS_MODE_VBLANK, 153, PPU_VBLANK_LENGTH) /\
  timing (cycles (154 * 114) gb) = (l, x, GRAPHICS_MODE_OAM_SEARCH, 0, PPU_OAM_SEARCH_LENGTH).
Proof.
  intros Hok Hbits Hon Ht.
  pose proof (visible_lines 143 gb l x 0 Hok Hbits Hon ltac:(lia) ltac:(lia) Ht) as H143.
  change (0 + Z.of_nat 143) with 143 in H143.
  pose proof (visible_line_end _ l x 143 Hok Hbits Hon ltac:(lia) H143) as H144.
  rewrite <- cycles_add in H144. change (143 <? 143) with false in H144. cbv iota in H144.
  pose proof (vblank_lines 9 _ l x 144 Hok Hbits Hon ltac:(lia) ltac:(lia) H144) as H153.
  rewrite <- cycles_add in H153. change (144 + Z.of_nat 9) with 153 in H153.
  pose proof (vblank_line_takes_114_dots _ l x 153 Hok Hbits Hon ltac:(lia) H153) as H154.
  rewrite <- cycles_add in H154. change (153 <? 153) with false in H154. cbv iota in H154.
  replace (143 * 114 + 114)%nat with (144 * 114)%nat in * by lia.
  replace (144 * 114 + 9 * 114)%nat with (153 * 114)%nat in * by lia.
  replace (153 * 114 + 114)%nat with (154 * 114)%nat in * by lia.
  auto.
Qed.

(** X5 at work: a frame from [line_start]. *)
Lemma frame_takes_17556_dots_witness :
  timing (@cycles dmg (144 * 114) line_start) = (0x91, 5, 1, 144, 114) /\
  timing (@cycles dmg (153 * 114) line_start) = (0x91, 5, 1, 153, 114) /\
  timing (@cycles dmg (154 * 114) line_start) = (0x91, 5, 2, 0, 21).
Proof.
  refine (@frame_takes_17556_dots dmg line_start 0x91 5 dmg_ok _ _ _).
  - vm_compute. discriminate.
  - vm_compute. discriminate.
  - reflexivity.
Defined.

(** ** Interrupt requests *)

Ltac lor_bits :=
  apply Z.bits_inj'; intros ? ?;
  repeat first [rewrite Z.lor_spec | rewrite Z.land_spec | rewrite Z.bits_0];
  repeat match goal with
         | |- context [Z.testbit ?a ?n] => destruct (Z.testbit a n)
         end; reflexivity.

Lemma raises_refl {H : Header} (f : Z) : raises f f.
Proof. exists false, false. now rewrite !Z.lor_0_r. Qed.

Lemma raises_trans {H : Header} (f g h : Z) : raises f g -> raises g h -> raises f h.
Proof.
  intros (v1 & l1 & ->) (v2 & l2 & ->). exists (v1 || v2), (l1 || l2).
  destruct v1, v2, l1, l2; cbn [orb]; rewrite ?Z.lor_0_r; try reflexivity; lor_bits.
Qed.

Lemma raises_lcd_stat {H : Header} (f : Z) (c : bool) :
  raises f (Z.lor f (if c then LCD_STAT_INTERRUPT_BIT else 0)).
Proof. exists false, c. now rewrite Z.lor_0_r. Qed.

Lemma raises_compare {H : Header} (gb : GameBoy) :
  raises (flags gb) (flags (ppu_compare_ly_lyc gb)).
Proof. rewrite ppu_compare_ly_lyc_flags. apply raises_lcd_stat. Qed.

Lemma raises_oam_search_enter {H : Header} (gb : GameBoy) :
  raises (flags gb) (flags (ppu_oam_search_enter gb)).
Proof.
  unfold ppu_oam_search_enter. cbv zeta.
  match goal with |- context [if ?c then _ else _] => destruct c end;
    cbn [flags raise_flag on_ppu]; [exists false, true | exists false, false];
    now rewrite ?Z.lor_0_r.
Qed.

Lemma raises_vblank_enter {H : Header} (gb : GameBoy) :
  raises (flags gb) (flags (ppu_vblank_enter gb)).
Proof.
  unfold ppu_vblank_enter. cbv zeta.
  match goal with |- context [if ?c then _ else _] => destruct c end;
    cbn [flags raise_flag on_ppu]; [exists true, true | exists true, false];
    now rewrite ?Z.lor_0_r.
Qed.

Ltac raises_enter :=
  match goal with
  | |- raises _ (flags (ppu_oam_search_enter ?x)) => exact (raises_oam_search_enter x)
  | |- raises _ (flags (ppu_vblank_enter ?x)) => exact (raises_vblank_enter x)
  | |- raises _ (flags (on_ppu _ ?x)) => exact (raises_refl (flags x))
  end.

(** One dot only ORs the vblank bit and the LCD-status bit into the flags. *)
Lemma raises_ppu_cycle {H : Header} (g : GameBoy) :
  raises (flags g) (flags (ppu_cycle g)).
Proof.
  unfold ppu_cycle.
  destruct (negb (c_true (Z.land (lcdc (ppu g)) LCDC_LCD_ENABLE_BIT)));
    [apply raises_refl |].
  cbv zeta.
  set (g1 := on_ppu (fun p => set_count (wrap_count (count p - 1)) p) g).
  match goal with
  | |- context [if negb (count (ppu ?x) =? 0) then _ else _] => set (g2 := x)
  end.
  assert (raises (flags g) (flags g2)) as H2.
  { unfold g2. destruct (_ && _);
      [destruct (c_true (Z.land (stat (ppu g1)) STAT_HBLANK_CHECK_ENABLE)) |];
      try apply raises_refl.
    cbn [flags raise_flag g1 on_ppu]. exists false, true. now rewrite Z.lor_0_r. }
  clearbody g2.
  destruct (negb (count (ppu g2) =? 0)); [exact H2 |].
  destruct (_ =? GRAPHICS_MODE_HBLANK).
  { eapply raises_trans; [exact H2 |].
    eapply raises_trans; [| apply raises_compare].
    destruct (_ <? 144); raises_enter. }
  destruct (_ =? GRAPHICS_MODE_VBLANK).
  { eapply raises_trans; [exact H2 |].
    eapply raises_trans; [| apply raises_compare].
    destruct (_ >? 153); raises_enter. }
  destruct (_ =? GRAPHICS_MODE_OAM_SEARCH); [exact H2 |].
  destruct (_ =? GRAPHICS_MODE_DATA_TRANSFER); exact H2.
Qed.

Lemma raises_cycles {H : Header} (n : nat) (gb : GameBoy) :
  raises (flags gb) (flags (cycles n gb)).
Proof.
  induction n as [| n IH]; [apply raises_refl |].
  rewrite cycles_succ. eapply raises_trans; [exact IH | apply raises_ppu_cycle].
Qed.

Lemma raises_keeps {H : Header} (before after : Z) :
  raises before after -> Z.land after before = before.
Proof. intros (v & l & ->). destruct v, l; lor_bits. Qed.

(** X6.  The per-dot advance only ever ORs the vblank bit and the LCD-status
    bit into the shared flags register, over any number of dots: no bit is
    cleared, and no other bit is set. *)
Theorem cycles_only_raise_flags {H : Header} (n : nat) (gb : GameBoy) :
  raises (flags gb) (flags (cycles n gb)) /\
  Z.land (flags (cycles n gb)) (flags gb) = flags gb.
Proof.
  split; [apply raises_cycles | apply raises_keeps, raises_cycles].
Qed.

(** The state after the counter is decremented and the early interrupt is
    considered: the controller is the same but for the counter. *)
Lemma ppu_cycle_shape {H : Header} (gb : GameBoy) :
  Z.land (lcdc (ppu gb)) LCDC_LCD_ENABLE_BIT <> 0 ->
  exists g2 : GameBoy,
    ppu g2 = set_count (wrap_count (count (ppu gb) - 1)) (ppu gb) /\
    flags g2
    = Z.lor (flags gb)
        (if (wrap_count (count (ppu gb) - 1) =? 1)
            && (Z.land (stat (ppu gb)) STAT_MODE_BITS =? GRAPHICS_MODE_DATA_TRANSFER)
            && c_true (Z.land (stat (ppu gb)) STAT_HBLANK_CHECK_ENABLE)
         then LCD_STAT_INTERRUPT_BIT else 0) /\
    ppu_cycle gb =
    if negb (count (ppu g2) =? 0) then g2
    else
      let mode := Z.land (stat (ppu g2)) STAT_MODE_BITS in
      if mode =? GRAPHICS_MODE_HBLANK then
        let gb := on_ppu (fun p => set_ly (u8 (ly p + 1)) p) g2 in
        let gb := if ly (ppu gb) <? 144 then ppu_oam_search_enter gb else ppu_vblank_enter gb in
        ppu_compare_ly_lyc gb
      else if mode =? GRAPHICS_MODE_VBLANK then
        let gb := on_ppu (fun p => set_ly (u8 (ly p + 1)) p) g2 in
        let gb :=
          if ly (ppu gb) >? 153
          then ppu_oam_search_enter (on_ppu (set_ly 0) gb)
          else on_ppu (fun p => set_count (wrap_count (count p + PPU_VBLANK_LENGTH)) p) gb in
        ppu_compare_ly_lyc gb
      else if mode =? GRAPHICS_MODE_OAM_SEARCH then ppu_data_transfer_enter g2
      else if mode =? GRAPHICS_MODE_DATA_TRANSFER then ppu_hblank_enter (ppu_draw_line g2)
      else g2.
Proof.
  intros Hon. apply c_true_iff in Hon.
  unfold ppu_cycle. rewrite Hon. clear Hon. cbn [negb]. cbv zeta.
  set (g1 := on_ppu (fun p => set_count (wrap_count (count p - 1)) p) gb).
  match goal with
  | |- context [if negb (count (ppu ?g) =? 0) then _ else _] => exists g
  end.
  split; [| split; [| reflexivity]].
  - destruct (_ && _);
      [destruct (c_true (Z.land (stat (ppu g1)) STAT_HBLANK_CHECK_ENABLE)) |];
      reflexivity.
  - cbn [g1 ppu on_ppu count set_count stat].
    destruct ((_ =? 1) && (_ =? GRAPHICS_MODE_DATA_TRANSFER)); cbn [andb];
      [destruct (c_true (Z.land (stat (ppu gb)) STAT_HBLANK_CHECK_ENABLE)) |];
      cbn [flags raise_flag on_ppu]; now rewrite ?Z.lor_0_r.
Qed.

(** X7.  The interrupt flags change on three kinds of dots only: the dot
    before the end of DATA_TRANSFER (with the hblank interrupt enabled), and
    the dots that end HBLANK or a line of VBLANK.  On every other dot the
    flags register is left as it is. *)
Theorem flags_untouched_on_other_dots {H : Header} (gb : GameBoy) :
  7 <= COUNT_BITS ->
  1 <= count (ppu gb) <= 128 ->
  ~ (count (ppu gb) = 2 /\ ppu_get_mode gb = GRAPHICS_MODE_DATA_TRANSFER
     /\ Z.land (stat (ppu gb)) STAT_HBLANK_CHECK_ENABLE <> 0) ->
  ~ (count (ppu gb) = 1
     /\ (ppu_get_mode gb = GRAPHICS_MODE_HBLANK \/ ppu_get_mode gb = GRAPHICS_MODE_VBLANK)) ->
  flags (ppu_cycle gb) = flags gb.
Proof.
  intros Hbits Hc Hearly Hline. unfold ppu_get_mode in *.
  destruct (Z.eq_dec (Z.land (lcdc (ppu gb)) LCDC_LCD_ENABLE_BIT) 0) as [Hoff | Hon].
  { unfold ppu_cycle, c_true. now rewrite Hoff. }
  destruct (ppu_cycle_shape gb Hon) as (g2 & Hp & Hf & ->).
  rewrite wrap_count_small in Hp, Hf by lia.
  assert (flags g2 = flags gb) as Hf2.
  { rewrite Hf.
    destruct (Z.eqb_spec (count (ppu gb) - 1) 1) as [H1 |]; [| now rewrite Z.lor_0_r].
    destruct (Z.eqb_spec (Z.land (stat (ppu gb)) STAT_MODE_BITS) GRAPHICS_MODE_DATA_TRANSFER)
      as [Hm |]; [| now rewrite Z.lor_0_r].
    destruct (c_true (Z.land (stat (ppu gb)) STAT_HBLANK_CHECK_ENABLE)) eqn:Hen;
      [| now rewrite Z.lor_0_r].
    apply c_true_iff in Hen. exfalso. apply Hearly. repeat split; [lia | assumption ..]. }
  rewrite Hp. cbn [count set_count stat].
  destruct (Z.eqb_spec (count (ppu gb) - 1) 0) as [H0 |]; cbn [negb]; [| exact Hf2].
  cbv zeta.
  destruct (Z.eqb_spec (Z.land (stat (ppu gb)) STAT_MODE_BITS) GRAPHICS_MODE_HBLANK);
    [exfalso; apply Hline; split; [lia | now left] |].
  destruct (Z.eqb_spec (Z.land (stat (ppu gb)) STAT_MODE_BITS) GRAPHICS_MODE_VBLANK);
    [exfalso; apply Hline; split; [lia | now right] |].
  destruct (_ =? GRAPHICS_MODE_OAM_SEARCH); [exact Hf2 |].
  destruct (_ =? GRAPHICS_MODE_DATA_TRANSFER); exact Hf2.
Qed.

(** X7 at work: a dot in the middle of OAM_SEARCH. *)
Lemma flags_untouched_on_other_dots_witness :
  flags (@ppu_cycle dmg in_oam_search) = flags in_oam_search.
Proof.
  refine (@flags_untouched_on_other_dots dmg in_oam_search _ _ _ _).
  - vm_compute. discriminate.
  - vm_compute. split; discriminate.
  - intros (Hc & _). discriminate Hc.
  - intros (Hc & _). discriminate Hc.
Defined.

Lemma compare_sets_signal {H : Header} (gb : GameBoy) :
  coincidence_ok (ppu_compare_ly_lyc gb).
Proof.
  unfold coincidence_ok, ppu_compare_ly_lyc, STAT_LY_LYC_COMPARISON_SIGNAL.
  destruct (ly (ppu gb) =? lyc (ppu gb)) eqn:Heq; cbn [negb]; cbv zeta;
    [destruct (c_true _) |];
    cbn [ppu on_ppu raise_flag stat ly lyc set_stat]; rewrite Heq;
    generalize (stat (ppu gb)); intros s; byte_bits.
Qed.

(** X8.  The coincidence flag is kept equal to [ly == lyc] by the per-dot
    advance: once it holds it holds after any number of dots, and every dot
    that ends HBLANK or a line of VBLANK establishes it, whatever the flag
    was before. *)
Theorem coincidence_flag_follows_scanline {H : Header} (gb : GameBoy) :
  HeaderOk H ->
  (forall n : nat, coincidence_ok gb -> coincidence_ok (cycles n gb)) /\
  (Z.land (lcdc (ppu gb)) LCDC_LCD_ENABLE_BIT <> 0 ->
   wrap_count (count (ppu gb) - 1) = 0 ->
   ppu_get_mode gb = GRAPHICS_MODE_HBLANK \/ ppu_get_mode gb = GRAPHICS_MODE_VBLANK ->
   coincidence_ok (ppu_cycle gb)).
Proof.
  intros Hok. destruct Hok as [Hh Hv Ho Hd Hhv Hho Hhd Hvo Hvd Hod].
  assert (forall g : GameBoy, coincidence_ok g -> coincidence_ok (ppu_cycle g)) as Hstep.
  { intros g Hg.
    destruct (Z.eq_dec (Z.land (lcdc (ppu g)) LCDC_LCD_ENABLE_BIT) 0) as [Hoff | Hon].
    { unfold ppu_cycle, c_true. now rewrite Hoff. }
    destruct (ppu_cycle_shape g Hon) as (g2 & Hp & _ & ->).
    assert (coincidence_ok g2) as Hg2 by (unfold coincidence_ok; now rewrite Hp).
    destruct (negb _); [exact Hg2 |]. cbv zeta.
    destruct (_ =? GRAPHICS_MODE_HBLANK); [apply compare_sets_signal |].
    destruct (_ =? GRAPHICS_MODE_VBLANK); [apply compare_sets_signal |].
    destruct (_ =? GRAPHICS_MODE_OAM_SEARCH).
    { unfold coincidence_ok, ppu_data_transfer_enter in *. cbv zeta.
      cbn [ppu on_ppu stat ly lyc set_stat set_count].
      rewrite other_bits_after_enter by (simpl; auto). exact Hg2. }
    destruct (_ =? GRAPHICS_MODE_DATA_TRANSFER); [| exact Hg2].
    unfold coincidence_ok, ppu_hblank_enter in *. cbv zeta.
    cbn [ppu on_ppu stat ly lyc set_stat set_count].
    rewrite other_bits_after_enter by (simpl; auto). exact Hg2. }
  split.
  - intros n Hgb. induction n as [| n IH]; [exact Hgb |].
    rewrite cycles_succ. now apply Hstep.
  - intros Hon Hcount Hmode. unfold ppu_get_mode in Hmode.
    rewrite (ppu_cycle_boundary gb Hon Hcount). cbv zeta.
    cbn [stat ppu on_ppu set_count].
    destruct Hmode as [-> | ->].
    + rewrite Z.eqb_refl. apply compare_sets_signal.
    + rewrite (proj2 (Z.eqb_neq _ _)) by congruence. rewrite Z.eqb_refl.
      apply compare_sets_signal.
Qed.

(** X8 at work: the line before VBLANK of [vblank_boundary], where the
    compare register holds 144. *)
Lemma coincidence_flag_follows_scanline_witness :
  coincidence_ok (@cycles dmg 114 vblank_boundary) /\
  coincidence_ok (@ppu_cycle dmg vblank_boundary).
Proof.
  split.
  - refine (proj1 (@coincidence_flag_follows_scanline dmg vblank_boundary dmg_ok) 114%nat _).
    reflexivity.
  - refine (proj2 (@coincidence_flag_follows_scanline dmg vblank_boundary dmg_ok) _ _ _).
    + vm_compute. discriminate.
    + reflexivity.
    + left. reflexivity.
Defined.

(** ** Line renderer: what it writes *)

Lemma land_le_l (a b : Z) : 0 <= a -> Z.land a b <= a.
Proof.
  intros Ha.
  assert (Z.ldiff (Z.land a b) a = 0) as Hd.
  { apply Z.bits_inj'. intros n Hn.
    rewrite Z.ldiff_spec, Z.land_spec, Z.bits_0.
    destruct (Z.testbit a n), (Z.testbit b n); reflexivity. }
  pose proof (Z.sub_nocarry_ldiff a (Z.land a b) Hd) as Hs.
  assert (0 <= Z.ldiff a (Z.land a b)) by (apply Z.ldiff_nonneg; now left).
  lia.
Qed.

(** A palette lookup is a 2-bit shade, whatever the palette byte and the
    color index. *)
Lemma palette_lookup_range (palette color : Z) : 0 <= palette_lookup palette color <= 3.
Proof.
  unfold palette_lookup. cbv zeta.
  set (offset := u8 (color * 2)).
  assert (0 <= offset) as Hoff by (apply Z.mod_pos_bound; lia).
  set (bits := u8 (Z.shiftl 0x03 offset)).
  assert (0 < 2 ^ offset) as Hpow by (apply Z.pow_pos_nonneg; lia).
  assert (0 <= bits <= 3 * 2 ^ offset) as Hbits.
  { unfold bits, u8. rewrite Z.shiftl_mul_pow2 by assumption.
    split; [apply Z.mod_pos_bound; lia | apply Z.mod_le; lia]. }
  assert (0 <= Z.land palette bits <= bits) as Hland.
  { split; [apply Z.land_nonneg; now right |].
    rewrite Z.land_comm. apply land_le_l. lia. }
  rewrite Z.shiftr_div_pow2 by assumption.
  assert (0 <= Z.land palette bits / 2 ^ offset <= 3) as Hres.
  { split; [apply Z.div_pos; lia |].
    apply Z.div_le_upper_bound; lia. }
  unfold u8. rewrite Z.mod_small; lia.
Qed.

Lemma two_bit_wr (db : list Z) (i v : Z) : two_bit db -> 0 <= v <= 3 -> two_bit (wr db i v).
Proof.
  intros Hdb Hv. unfold wr. destruct (i <? 0); [exact Hdb |].
  now apply Forall_insert.
Qed.

Lemma row_update_refl (lo hi : Z) (db : list Z) : row_update lo hi db db.
Proof. repeat split; auto. Qed.

Lemma row_update_trans (lo hi : Z) (a b c : list Z) :
  row_update lo hi a b -> row_update lo hi b c -> row_update lo hi a c.
Proof.
  intros (Hl1 & Hr1 & Ht1) (Hl2 & Hr2 & Ht2). repeat split.
  - congruence.
  - intros j Hj. now rewrite Hr2, Hr1.
  - auto.
Qed.

Lemma row_update_wr (lo hi : Z) (db : list Z) (i v : Z) :
  lo <= i < hi -> 0 <= v <= 3 -> row_update lo hi db (wr db i v).
Proof.
  intros Hi Hv. repeat split.
  - apply length_wr.
  - intros j Hj. apply rd_wr_ne. lia.
  - intros Hdb. now apply two_bit_wr.
Qed.

(** A loop whose every step is an update of the row is one as a whole. *)
Lemma row_update_fold {A : Type} (lo hi : Z) (step : list Z -> A -> list Z) (l : list A)
  (db : list Z) :
  (forall (db : list Z) (x : A), In x l -> row_update lo hi db (step db x)) ->
  row_update lo hi db (fold_left step l db).
Proof.
  revert db. induction l as [| x l IH]; intros db Hstep; [apply row_update_refl |].
  cbn [fold_left]. eapply row_update_trans.
  - apply Hstep. now left.
  - apply IH. intros db' y Hy. apply Hstep. now right.
Qed.

Lemma In_seqZ (k m n : Z) : In k (seqZ m n) -> m <= k < m + n.
Proof. intros Hin. apply list_elem_of_In in Hin. now apply elem_of_seqZ in Hin. Qed.

Lemma draw_background_row (p : PPU) (db : list Z) :
  row_update (ly p * GAMEBOY_DISPLAY_WIDTH) (ly p * GAMEBOY_DISPLAY_WIDTH + 160) db
    (draw_background p db).
Proof.
  unfold draw_background. cbv zeta. apply row_update_fold.
  intros db' i Hi. apply In_seqZ in Hi. unfold GAMEBOY_DISPLAY_WIDTH in *.
  apply row_update_wr; [lia | apply palette_lookup_range].
Qed.

Lemma draw_window_row (p : PPU) (db : list Z) :
  row_update (ly p * GAMEBOY_DISPLAY_WIDTH) (ly p * GAMEBOY_DISPLAY_WIDTH + 160) db
    (draw_window p db).
Proof.
  unfold draw_window. cbv zeta. apply row_update_fold.
  intros db' i Hi. apply In_seqZ in Hi. unfold GAMEBOY_DISPLAY_WIDTH in *.
  assert (0 <= u8 (wx p - 7)) by (apply Z.mod_pos_bound; lia).
  apply row_update_wr; [lia | apply palette_lookup_range].
Qed.

Lemma paint_sprite_row (p : PPU) (sprite_size : Z) (sprite db : list Z) :
  row_update (ly p * GAMEBOY_DISPLAY_WIDTH) (ly p * GAMEBOY_DISPLAY_WIDTH + 160) db
    (paint_sprite p sprite_size sprite db).
Proof.
  unfold paint_sprite. cbv zeta. apply row_update_fold.
  intros db' tile_column _. unfold GAMEBOY_DISPLAY_WIDTH.
  set (x := size_t (rd sprite 1 - 8 + tile_column)).
  destruct (Z.ltb_spec x 0); cbn [orb]; [apply row_update_refl |].
  destruct (Z.gtb_spec x (160 - 1)); [apply row_update_refl |].
  match goal with |- context [if ?c then _ else _] => destruct c end;
    [| apply row_update_refl].
  apply row_update_wr; [lia | apply palette_lookup_range].
Qed.

Lemma draw_sprites_row (p : PPU) (db : list Z) :
  row_update (ly p * GAMEBOY_DISPLAY_WIDTH) (ly p * GAMEBOY_DISPLAY_WIDTH + 160) db
    (draw_sprites p db).
Proof.
  unfold draw_sprites, paint_sprites. cbv zeta. apply row_update_fold.
  intros db' i _. apply paint_sprite_row.
Qed.

Lemma draw_line_row (gb : GameBoy) :
  row_update (ly (ppu gb) * GAMEBOY_DISPLAY_WIDTH) (ly (ppu gb) * GAMEBOY_DISPLAY_WIDTH + 160)
    (display_buffer (ppu gb)) (display_buffer (ppu (ppu_draw_line gb))).
Proof.
  unfold ppu_draw_line. cbv zeta.
  cbn [ppu on_ppu display_buffer set_display_buffer set_window_internal_line].
  eapply row_update_trans;
    [| destruct (c_true (Z.land _ LCDC_SPRITE_ENABLE_BIT));
       [apply draw_sprites_row | apply row_update_refl]].
  eapply row_update_trans;
    [| destruct (window_visible _); [apply draw_window_row | apply row_update_refl]].
  destruct (c_true _); [apply draw_background_row | apply row_update_refl].
Qed.


Lemma display_buffer_compare {H : Header} (gb : GameBoy) :
  display_buffer (ppu (ppu_compare_ly_lyc gb)) = display_buffer (ppu gb).
Proof.
  unfold ppu_compare_ly_lyc. destruct (negb _); [reflexivity |].
  cbv zeta. destruct (c_true _); reflexivity.
Qed.

Lemma display_buffer_oam_search_enter {H : Header} (gb : GameBoy) :
  display_buffer (ppu (ppu_oam_search_enter gb)) = display_buffer (ppu gb).
Proof. unfold ppu_oam_search_enter. cbv zeta. destruct (c_true _); reflexivity. Qed.

Lemma display_buffer_vblank_enter {H : Header} (gb : GameBoy) :
  display_buffer (ppu (ppu_vblank_enter gb)) = display_buffer (ppu gb).
Proof. unfold ppu_vblank_enter. cbv zeta. destruct (_ || _); reflexivity. Qed.

(** The per-dot advance leaves the display buffer alone or draws one line. *)
Lemma ppu_cycle_display_buffer {H : Header} (gb : GameBoy) :
  display_buffer (ppu (ppu_cycle gb)) = display_buffer (ppu gb) \/
  exists g : GameBoy,
    display_buffer (ppu g) = display_buffer (ppu gb) /\
    display_buffer (ppu (ppu_cycle gb)) = display_buffer (ppu (ppu_draw_line g)).
Proof.
  destruct (Z.eq_dec (Z.land (lcdc (ppu gb)) LCDC_LCD_ENABLE_BIT) 0) as [Hoff | Hon].
  { left. unfold ppu_cycle, c_true. now rewrite Hoff. }
  destruct (ppu_cycle_shape gb Hon) as (g2 & Hp & _ & ->).
  assert (display_buffer (ppu g2) = display_buffer (ppu gb)) as Hd by now rewrite Hp.
  destruct (negb _); [now left |]. cbv zeta.
  destruct (_ =? GRAPHICS_MODE_HBLANK).
  { left. rewrite display_buffer_compare.
    destruct (_ <? 144);
      [rewrite display_buffer_oam_search_enter | rewrite display_buffer_vblank_enter];
      exact Hd. }
  destruct (_ =? GRAPHICS_MODE_VBLANK).
  { left. rewrite display_buffer_compare.
    destruct (_ >? 153); [rewrite display_buffer_oam_search_enter |]; exact Hd. }
  destruct (_ =? GRAPHICS_MODE_OAM_SEARCH); [now left |].
  destruct (_ =? GRAPHICS_MODE_DATA_TRANSFER); [| now left].
  right. exists g2. split; [exact Hd | reflexivity].
Qed.

Lemma two_bit_zero_display : two_bit (display_buffer zero_ppu).
Proof. apply Forall_replicate. lia. Qed.

(** X10.  The display buffer holds 2-bit shades for good: if every cell is
    between 0 and 3, so is every cell after any number of dots, and the length
    of the buffer never changes. *)
Theorem display_stays_two_bit {H : Header} (n : nat) (gb : GameBoy) :
  two_bit (display_buffer (ppu gb)) ->
  two_bit (display_buffer (ppu (cycles n gb))) /\
  length (display_buffer (ppu (cycles n gb))) = length (display_buffer (ppu gb)).
Proof.
  intros Htwo. induction n as [| n (IHtwo & IHlen)]; [now split |].
  rewrite cycles_succ.
  destruct (ppu_cycle_display_buffer (cycles n gb)) as [-> | (g & Hg & ->)]; [now split |].
  destruct (draw_line_row g) as (Hlen & _ & Hkeep).
  rewrite Hg in Hlen, Hkeep. split; [now apply Hkeep | congruence].
Qed.

(** X10 at work: the first line drawn from [line_start]. *)
Lemma display_stays_two_bit_witness :
  two_bit (display_buffer (ppu (@cycles dmg 114 line_start))) /\
  length (display_buffer (ppu (@cycles dmg 114 line_start)))
  = length (display_buffer (ppu line_start)).
Proof.
  refine (@display_stays_two_bit dmg 114 line_start _).
  exact two_bit_zero_display.
Defined.

(** X11.  With the LCD on and a display buffer of 2-bit shades, every
    element the display export stores is one of the four real shades, never
    the LCD-off color or the fall-through value of the lookup. *)
Theorem display_export_real_shades (gb : GameBoy) (length : Z) :
  Z.land (lcdc (ppu gb)) LCDC_LCD_ENABLE_BIT <> 0 ->
  two_bit (display_buffer (ppu gb)) ->
  0 <= length ->
  Forall (fun store => In (snd store) [0xF5F5F5F5; 0xAAAAAAAA; 0x55555555; 0x01010101])
    (fst (ppu_get_display_data gb length)).
Proof.
  intros Hon Htwo Hlen. rewrite ppu_get_display_data_spec by assumption. cbn [fst].
  apply Forall_forall. intros store Hin.
  apply list_elem_of_In, in_map_iff in Hin. destruct Hin as (x & <- & _). cbn [snd].
  unfold display_shade. apply c_true_iff in Hon. rewrite Hon.
  assert (0 <= rd (display_buffer (ppu gb)) x <= 3) as Hshade.
  { unfold rd. destruct (x <? 0); [lia |].
    destruct (display_buffer (ppu gb) !! Z.to_nat x) as [v |] eqn:Hv; cbn [default]; [| lia].
    unfold two_bit in Htwo. rewrite Forall_lookup in Htwo. exact (Htwo _ _ Hv). }
  assert (rd (display_buffer (ppu gb)) x = 0 \/ rd (display_buffer (ppu gb)) x = 1
          \/ rd (display_buffer (ppu gb)) x = 2 \/ rd (display_buffer (ppu gb)) x = 3)
    as Hc by lia.
  destruct Hc as [-> | [-> | [-> | ->]]]; cbn; auto.
Qed.

(** X11 at work: the export of the first ten pixels of [line_start]. *)
Lemma display_export_real_shades_witness :
  Forall (fun store => In (snd store) [0xF5F5F5F5; 0xAAAAAAAA; 0x55555555; 0x01010101])
    (fst (ppu_get_display_data line_start 9)).
Proof.
  refine (display_export_real_shades line_start 9 _ _ _).
  - vm_compute. discriminate.
  - exact two_bit_zero_display.
  - lia.
Defined.

(** ** Video memory and the tile cache *)

(** X12.  Video memory is written in every mode, the controller does no
    gating: a read returns the last byte written to the address and what was
    there before for the other addresses; object memory, the display buffer,
    the timing registers and the interrupt flags are not touched, and neither
    is the tile cache when the address lies in the two tile-index maps. *)
Theorem vram_write_then_read (gb : GameBoy) (address value other : Z) :
  0 <= address < Z.of_nat (length (vram (ppu gb))) ->
  ppu_read_vram (ppu_write_vram gb address value) other
  = (if other =? address then value else ppu_read_vram gb other) /\
  oam (ppu (ppu_write_vram gb address value)) = oam (ppu gb) /\
  display_buffer (ppu (ppu_write_vram gb address value)) = display_buffer (ppu gb) /\
  timing (ppu_write_vram gb address value) = timing gb /\
  flags (ppu_write_vram gb address value) = flags gb /\
  (0x1800 <= address ->
   tile_buffer (ppu (ppu_write_vram gb address value)) = tile_buffer (ppu gb)).
Proof.
  intros Ha. split.
  - unfold ppu_read_vram. rewrite ppu_write_vram_vram.
    destruct (Z.eqb_spec other address) as [-> | Hne].
    + now apply rd_wr_eq.
    + apply rd_wr_ne. congruence.
  - unfold ppu_write_vram.
    destruct (Z.ltb_spec address 0x1800); repeat split; try reflexivity; lia.
Qed.

(** X12 at work: a write into the first tile-index map in DATA_TRANSFER. *)
Lemma vram_write_then_read_witness :
  ppu_read_vram (ppu_write_vram in_data_transfer 0x1800 7) 0x1800 = 7 /\
  oam (ppu (ppu_write_vram in_data_transfer 0x1800 7)) = oam (ppu in_data_transfer) /\
  display_buffer (ppu (ppu_write_vram in_data_transfer 0x1800 7))
  = display_buffer (ppu in_data_transfer) /\
  timing (ppu_write_vram in_data_transfer 0x1800 7) = timing in_data_transfer /\
  flags (ppu_write_vram in_data_transfer 0x1800 7) = flags in_data_transfer /\
  (0x1800 <= 0x1800 ->
   tile_buffer (ppu (ppu_write_vram in_data_transfer 0x1800 7))
   = tile_buffer (ppu in_data_transfer)).
Proof.
  refine (vram_write_then_read in_data_transfer 0x1800 7 0x1800 _).
  split; [vm_compute; discriminate | reflexivity].
Defined.

Lemma color_code_range (byte1 byte2 pixel : Z) : 0 <= color_code byte1 byte2 pixel <= 3.
Proof.
  unfold color_code. cbv zeta. destruct (c_true _), (c_true _); lia.
Qed.

(** Row [address mod 16 / 2] of tile [address / 16] is row [address / 2] of
    the cache as a whole. *)
Lemma row_of_address (address : Z) :
  address / 16 * 8 + address mod 16 / 2 = address / 2.
Proof.
  pose proof (Z.div_mod address 16 ltac:(lia)) as H16.
  pose proof (Z.mod_pos_bound address 16 ltac:(lia)) as Hm16.
  pose proof (Z.div_mod (address mod 16) 2 ltac:(lia)) as H2.
  pose proof (Z.mod_pos_bound (address mod 16) 2 ltac:(lia)) as Hm2.
  apply (Z.div_unique address 2 _ ((address mod 16) mod 2)); lia.
Qed.

(** A write to tile data touches the eight cache cells of its row only. *)
Lemma ppu_write_vram_cache_row (gb : GameBoy) (address value : Z) :
  row_update (address / 2 * 8) (address / 2 * 8 + 8)
    (tile_buffer (ppu gb)) (tile_buffer (ppu (ppu_write_vram gb address value))).
Proof.
  unfold ppu_write_vram. destruct (address <? 0x1800); [| apply row_update_refl].
  cbn [ppu on_ppu tile_buffer set_tile_buffer set_vram vram].
  apply row_update_fold. intros tb pixel Hin. apply In_seqZ in Hin.
  unfold PPU_BYTES_PER_TILE, PPU_BYTES_PER_ROW, PPU_ROWS_PER_TILE, PPU_PIXELS_PER_TILE_ROW in *.
  rewrite row_of_address.
  apply row_update_wr; [lia | apply color_code_range].
Qed.

Lemma rd_replicate_zero (n : nat) (i : Z) : rd (replicate n 0) i = 0.
Proof.
  unfold rd. destruct (i <? 0); [reflexivity |].
  destruct (replicate n 0 !! Z.to_nat i) as [v |] eqn:Hv; [| reflexivity].
  apply lookup_replicate in Hv. now destruct Hv as [-> _].
Qed.

(** The cache of a controller whose memories are all zero is consistent. *)
Lemma cache_consistent_zero (p : PPU) :
  vram p = vram zero_ppu -> tile_buffer p = tile_buffer zero_ppu -> cache_consistent p.
Proof.
  intros Hv Ht k pixel _ _. rewrite Hv, Ht. cbn [tile_buffer vram zero_ppu].
  now rewrite !rd_replicate_zero.
Qed.

(** A write to video memory keeps the cache the decoding of the tile
    data. *)
Lemma ppu_write_vram_consistent (gb : GameBoy) (address value : Z) :
  0 <= address < 0x2000 ->
  Z.of_nat (length (vram (ppu gb))) = 0x2000 ->
  Z.of_nat (length (tile_buffer (ppu gb))) = 384 * 8 * 8 ->
  cache_consistent (ppu gb) ->
  cache_consistent (ppu (ppu_write_vram gb address value)).
Proof.
  intros Ha Hv Htb Hcache.
  destruct (ppu_write_vram_cache_row gb address value) as (Hlen & Hother & Htwo).
  intros k pixel Hk Hp. rewrite ppu_write_vram_vram.
  destruct (Z.eq_dec k (address / 2)) as [-> | Hne].
  - assert (address < 0x1800) as Hlow.
    { pose proof (Z.div_mod address 2 ltac:(lia)) as Hd.
      pose proof (Z.mod_pos_bound address 2 ltac:(lia)). lia. }
    pose proof (ppu_write_vram_row gb address value pixel ltac:(lia) Htb Hp) as Hrow.
    unfold tile_at, PPU_BYTES_PER_TILE, PPU_BYTES_PER_ROW, PPU_ROWS_PER_TILE,
      PPU_PIXELS_PER_TILE_ROW in Hrow.
    rewrite row_of_address, land_FFFE in Hrow by lia. exact Hrow.
  - rewrite Hother by lia. rewrite Hcache by assumption.
    pose proof (Z.div_mod address 2 ltac:(lia)) as Hd.
    pose proof (Z.mod_pos_bound address 2 ltac:(lia)) as Hm.
    now rewrite !rd_wr_ne by lia.
Qed.

(** X13.  The tile cache stays the decoding of the tile data: if every row
    of the cache is the decoding of its byte pair in video memory, it still is
    after a write to any address of video memory, whether the address is in
    tile data or in a tile-index map; the sizes of video memory and cache are
    kept, and the cache holds 2-bit color indices if it did before. *)
Theorem tile_cache_stays_consistent (gb : GameBoy) (address value : Z) :
  0 <= address < 0x2000 ->
  Z.of_nat (length (vram (ppu gb))) = 0x2000 ->
  Z.of_nat (length (tile_buffer (ppu gb))) = 384 * 8 * 8 ->
  cache_consistent (ppu gb) ->
  cache_consistent (ppu (ppu_write_vram gb address value)) /\
  length (vram (ppu (ppu_write_vram gb address value))) = length (vram (ppu gb)) /\
  length (tile_buffer (ppu (ppu_write_vram gb address value)))
  = length (tile_buffer (ppu gb)) /\
  (two_bit (tile_buffer (ppu gb)) ->
   two_bit (tile_buffer (ppu (ppu_write_vram gb address value)))).
Proof.
  intros Ha Hv Htb Hcache.
  destruct (ppu_write_vram_cache_row gb address value) as (Hlen & _ & Htwo).
  split; [now apply ppu_write_vram_consistent |].
  split; [now rewrite ppu_write_vram_vram, length_wr | split; assumption].
Qed.

(** X13 at work: the first write to tile data after power-on. *)
Lemma tile_cache_stays_consistent_witness :
  cache_consistent (ppu (ppu_write_vram power_on 0x0123 0xA5)) /\
  length (vram (ppu (ppu_write_vram power_on 0x0123 0xA5))) = length (vram (ppu power_on)) /\
  length (tile_buffer (ppu (ppu_write_vram power_on 0x0123 0xA5)))
  = length (tile_buffer (ppu power_on)) /\
  (two_bit (tile_buffer (ppu power_on)) ->
   two_bit (tile_buffer (ppu (ppu_write_vram power_on 0x0123 0xA5)))).
Proof.
  refine (tile_cache_stays_consistent power_on 0x0123 0xA5 _ _ _ _).
  - lia.
  - vm_compute. reflexivity.
  - vm_compute. reflexivity.
  - apply cache_consistent_zero; reflexivity.
Defined.


(** ** Line renderer: the sprite pass *)

Lemma oam_entry_first (p : PPU) (i : Z) : rd (oam_entry p i) 0 = rd (oam p) (i * 4).
Proof.
  unfold oam_entry. change (seqZ 0 4) with [0; 1; 2; 3]. cbn [map].
  unfold rd at 1. cbn. now rewrite Z.add_0_r.
Qed.

(** The scan from entry [i] on, with fewer than ten rows selected so far. *)
Lemma select_loop (p : PPU) (sprite_size : Z) (n : nat) (i : Z) (sprites : list (list Z)) :
  (length sprites < 10)%nat ->
  flow_state (for_up n i (fun i sprites =>
    let sprite_y := rd (oam p) (i * 4) - 16 in
    if (sprite_y <=? ly p) && (ly p - sprite_y <? sprite_size) then
      let sprites := sprites ++ [map (fun k => rd (oam p) (i * 4 + k)) (seqZ 0 4)] in
      if Z.of_nat (length sprites) =? 10 then Return sprites tt else Next sprites
    else Next sprites) sprites)
  = take 10 (sprites
             ++ List.filter (covers_line p sprite_size)
                  (map (oam_entry p) (seqZ i (Z.of_nat n)))).
Proof.
  revert i sprites. induction n as [| n IH]; intros i sprites Hlen.
  - cbn [for_up flow_state Z.of_nat]. cbn. rewrite app_nil_r.
    symmetry. apply take_ge. lia.
  - rewrite (seqZ_cons i) by lia. cbn [map List.filter for_up]. cbv zeta.
    replace (Z.pred (Z.of_nat (S n))) with (Z.of_nat n) by lia.
    replace (Z.succ i) with (i + 1) by lia.
    unfold covers_line at 1. rewrite oam_entry_first.
    destruct ((rd (oam p) (i * 4) - 16 <=? ly p)
              && (ly p - (rd (oam p) (i * 4) - 16) <? sprite_size)).
    + fold (oam_entry p i).
      destruct (Z.eqb_spec (Z.of_nat (length (sprites ++ [oam_entry p i]))) 10) as [Hten | Hnot].
      * cbn [flow_state].
        match goal with
        | |- _ = take 10 (sprites ++ ?e :: ?rest) =>
            replace (sprites ++ e :: rest) with ((sprites ++ [e]) ++ rest)
              by (now rewrite <- app_assoc)
        end.
        rewrite take_app_length'; [reflexivity | lia].
      * rewrite IH by (rewrite length_app in *; cbn [length] in *; lia).
        now rewrite <- app_assoc.
    + now rewrite IH.
Qed.

(** X14.  The scan of object memory selects the entries whose vertical span
    covers the current scanline, in memory order, and keeps the first ten: at
    most ten rows are ever stored into the local array of ten. *)
Theorem select_sprites_first_ten (p : PPU) (sprite_size : Z) :
  select_sprites p sprite_size
  = take 10 (List.filter (covers_line p sprite_size) (map (oam_entry p) (seqZ 0 40))) /\
  (length (select_sprites p sprite_size) <= 10)%nat /\
  Forall (fun row => covers_line p sprite_size row = true /\ length row = 4%nat)
    (select_sprites p sprite_size).
Proof.
  assert (select_sprites p sprite_size
          = take 10 (List.filter (covers_line p sprite_size) (map (oam_entry p) (seqZ 0 40))))
    as Heq.
  { unfold select_sprites. rewrite select_loop by (cbn; lia). reflexivity. }
  split; [exact Heq |]. rewrite Heq. split.
  - rewrite length_take. lia.
  - apply Forall_take. apply Forall_forall. intros row Hin.
    apply list_elem_of_In, filter_In in Hin. destruct Hin as (Hin & Hcov).
    split; [exact Hcov |].
    apply in_map_iff in Hin. destruct Hin as (i & <- & _). reflexivity.
Qed.











Lemma fold_left_invariant {A B : Type} (P : A -> Prop) (f : A -> B -> A) (l : list B) (a : A) :
  P a -> (forall (a : A) (x : B), P a -> P (f a x)) -> P (fold_left f l a).
Proof.
  intros Ha Hstep. revert a Ha. induction l as [| x l IH]; intros a Ha; [exact Ha |].
  cbn [fold_left]. apply IH. now apply Hstep.
Qed.

(** X16.  A sprite with the background-priority bit set is painted only
    into cells that hold 0: a cell of the display buffer that holds a shade
    other than 0, whether the background, the window or a sprite painted
    earlier left it there, keeps it. *)
Theorem priority_sprite_keeps_drawn_pixels (p : PPU) (sprite_size : Z) (sprite db : list Z)
  (j : Z) :
  Z.land (rd sprite 3) SPRITE_TO_BG_PRIORITY_BIT <> 0 ->
  rd db j <> 0 ->
  rd (paint_sprite p sprite_size sprite db) j = rd db j.
Proof.
  intros Hprio Hj. unfold paint_sprite. cbv zeta.
  assert (c_true (Z.shiftr (Z.land (rd sprite 3) SPRITE_TO_BG_PRIORITY_BIT) 7) = true) as ->.
  { unfold SPRITE_TO_BG_PRIORITY_BIT in *. change 0x80 with (2 ^ 7) in *.
    rewrite land_pow2 in * by lia.
    destruct (Z.testbit (rd sprite 3) 7); [reflexivity | congruence]. }
  apply (fold_left_invariant (fun db' => rd db' j = rd db j)); [reflexivity |].
  intros db' tile_column Hkept. cbn [negb orb andb].
  destruct (_ || _); [exact Hkept |].
  destruct (negb _); cbn [andb]; [| exact Hkept].
  match goal with
  | |- context [rd db' ?i =? 0] => destruct (Z.eqb_spec (rd db' i) 0) as [Hzero | _];
                                  [| exact Hkept];
                                  destruct (Z.eq_dec i j) as [Heq | Hne]
  end.
  - rewrite Heq in Hzero. congruence.
  - now rewrite rd_wr_ne.
Qed.

(** X16 at work: a priority sprite over a cell that holds shade 2. *)
Lemma priority_sprite_keeps_drawn_pixels_witness :
  rd (paint_sprite (ppu tied_sprites) 8 [16; 20; 1; 0x80] (wr (display_buffer zero_ppu) 12 2)) 12
  = rd (wr (display_buffer zero_ppu) 12 2) 12.
Proof.
  refine (priority_sprite_keeps_drawn_pixels (ppu tied_sprites) 8 [16; 20; 1; 0x80]
            (wr (display_buffer zero_ppu) 12 2) 12 _ _).
  - vm_compute. discriminate.
  - vm_compute. discriminate.
Defined.

(** ** Tile identifiers and palettes *)

(** X17.  The translation of a tile identifier read from a tile-index map
    stays inside the 384 tiles of the cache: with the addressing bit set the
    byte is the tile, with the bit clear bytes 0 to 127 name tiles 256 to 383
    and bytes 128 to 255 name themselves; either way two different bytes name
    two different tiles. *)
Theorem translate_tile_id_range (lcdc_value tile_id : Z) :
  0 <= tile_id <= 255 ->
  0 <= translate_tile_id lcdc_value tile_id < PPU_TS_TILE_COUNT /\
  (Z.land lcdc_value LCDC_BG_WINDOW_MODE_BIT <> 0 ->
   translate_tile_id lcdc_value tile_id = tile_id) /\
  (Z.land lcdc_value LCDC_BG_WINDOW_MODE_BIT = 0 ->
   translate_tile_id lcdc_value tile_id = if tile_id <? 128 then tile_id + 256 else tile_id) /\
  (forall other : Z, 0 <= other <= 255 ->
     translate_tile_id lcdc_value tile_id = translate_tile_id lcdc_value other ->
     tile_id = other).
Proof.
  intros Ht. unfold translate_tile_id, PPU_TS_TILE_COUNT, u16, c_true.
  destruct (Z.eqb_spec (Z.land lcdc_value LCDC_BG_WINDOW_MODE_BIT) 0) as [Hz | Hnz];
    cbn [negb].
  - assert (forall t : Z, 0 <= t <= 255 ->
              (t + 256 * (if t <? 128 then 1 else 0)) mod 65536
              = if t <? 128 then t + 256 else t) as Hmod.
    { intros t Hr. destruct (Z.ltb_spec t 128); rewrite Z.mod_small; lia. }
    rewrite Hmod by assumption.
    repeat split; try congruence; try (destruct (Z.ltb_spec tile_id 128); lia).
    intros other Ho. rewrite Hmod by assumption.
    destruct (Z.ltb_spec tile_id 128), (Z.ltb_spec other 128); lia.
  - repeat split; try congruence; try lia.
Qed.

(** X17 at work: byte 5 with the addressing bit clear. *)
Lemma translate_tile_id_range_witness :
  0 <= translate_tile_id 0x81 5 < PPU_TS_TILE_COUNT /\
  (Z.land 0x81 LCDC_BG_WINDOW_MODE_BIT <> 0 -> translate_tile_id 0x81 5 = 5) /\
  (Z.land 0x81 LCDC_BG_WINDOW_MODE_BIT = 0 ->
   translate_tile_id 0x81 5 = if 5 <? 128 then 5 + 256 else 5) /\
  (forall other : Z, 0 <= other <= 255 ->
     translate_tile_id 0x81 5 = translate_tile_id 0x81 other -> 5 = other).
Proof.
  refine (translate_tile_id_range 0x81 5 _). lia.
Defined.


(** ** Timing: consequences *)

(** X19.  The vblank interrupt is requested on dot 144 x 114 of the frame:
    from the start of line 0, the vblank bit of the flags register is set
    after the 144 visible lines, and stays set on every later dot, the
    controller never takes it back. *)
Theorem vblank_requested_after_visible_lines {H : Header} (gb : GameBoy) (l x : Z) (n : nat) :
  HeaderOk H -> 7 <= COUNT_BITS ->
  Z.land l LCDC_LCD_ENABLE_BIT <> 0 ->
  timing gb = (l, x, GRAPHICS_MODE_OAM_SEARCH, 0, PPU_OAM_SEARCH_LENGTH) ->
  Z.land (flags (cycles (144 * 114 + n) gb)) VBLANK_INTERRUPT_BIT = VBLANK_INTERRUPT_BIT.
Proof.
  intros Hok Hbits Hon Ht.
  pose proof (visible_lines 143 gb l x 0 Hok Hbits Hon ltac:(lia) ltac:(lia) Ht) as H143.
  change (0 + Z.of_nat 143) with 143 in H143.
  destruct (visible_line_phases _ l x 143 Hok Hbits Hon ltac:(lia) H143) as (_ & _ & g & Hg & Htg).
  rewrite <- cycles_add in Hg.
  replace (143 * 114 + 114)%nat with (144 * 114)%nat in Hg by lia.
  unfold timing in Htg. injection Htg as Hl Hx Hm Hly Hc.
  destruct (ppu_cycle_enters_vblank g Hok) as (_ & _ & Hf).
  - now rewrite Hl.
  - now rewrite Hc.
  - exact Hm.
  - rewrite Hly. vm_compute. discriminate.
  - rewrite cycles_add, Hg.
    pose proof (raises_keeps _ _ (raises_cycles n (ppu_cycle g))) as Hkeep.
    rewrite Hf in Hkeep. revert Hkeep.
    generalize (flags (cycles n (ppu_cycle g))). intros after.
    match goal with
    | |- Z.land after (Z.lor (Z.lor ?f ?v) ?c) = _ -> _ =>
        generalize c; generalize f; intros f0 c0 Hkeep
    end.
    apply Z.bits_inj'. intros i Hi.
    apply (f_equal (fun z => Z.testbit z i)) in Hkeep.
    rewrite !Z.land_spec, !Z.lor_spec in Hkeep. rewrite !Z.land_spec.
    destruct (Z.testbit after i), (Z.testbit VBLANK_INTERRUPT_BIT i), (Z.testbit f0 i),
      (Z.testbit c0 i); cbn in Hkeep |- *; congruence.
Qed.

(** X19 at work: the dot after the vblank request, from [line_start]. *)
Lemma vblank_requested_after_visible_lines_witness :
  Z.land (flags (@cycles dmg (144 * 114 + 1) line_start)) (@VBLANK_INTERRUPT_BIT dmg)
  = @VBLANK_INTERRUPT_BIT dmg.
Proof.
  refine (@vblank_requested_after_visible_lines dmg line_start 0x91 5 1 dmg_ok _ _ _).
  - vm_compute. discriminate.
  - vm_compute. discriminate.
  - reflexivity.
Defined.

(** X20.  Switching the LCD off and on again restarts the controller in the
    mode with code 0 with a 115-dot counter.  When that mode is HBLANK, as on
    the hardware, line 0 is never drawn: after 115 dots the controller is at
    the start of line 1 in OAM_SEARCH and the display buffer is as it was. *)
Theorem lcd_restart_skips_line_0 {H : Header} (gb : GameBoy) (off on : Z) :
  HeaderOk H -> 7 <= COUNT_BITS ->
  GRAPHICS_MODE_HBLANK = 0 ->
  Z.land off LCDC_LCD_ENABLE_BIT = 0 ->
  Z.land on LCDC_LCD_ENABLE_BIT <> 0 ->
  timing (ppu_write_lcdc (ppu_write_lcdc gb off) on)
  = (on, scx (ppu gb), GRAPHICS_MODE_HBLANK, 0, 115) /\
  timing (cycles 115 (ppu_write_lcdc (ppu_write_lcdc gb off) on))
  = (on, scx (ppu gb), GRAPHICS_MODE_OAM_SEARCH, 1, PPU_OAM_SEARCH_LENGTH) /\
  display_buffer (ppu (cycles 115 (ppu_write_lcdc (ppu_write_lcdc gb off) on)))
  = display_buffer (ppu gb).
Proof.
  intros Hok Hbits Hcode Hoff Hon.
  set (start := ppu_write_lcdc (ppu_write_lcdc gb off) on).
  assert (ppu start
          = set_lcdc on (set_stat (u8 (Z.land (stat (ppu gb)) 0xFC))
                           (set_count 115 (set_ly 0 (ppu gb))))) as Hstart.
  { unfold start, ppu_write_lcdc at 2. unfold c_true. rewrite Hoff. cbn [Z.eqb negb].
    unfold ppu_write_lcdc. apply c_true_iff in Hon. rewrite Hon. reflexivity. }
  assert (timing start = (on, scx (ppu gb), GRAPHICS_MODE_HBLANK, 0, 115)) as Ht.
  { unfold timing. rewrite Hstart. cbn [lcdc scx stat ly count set_lcdc set_stat set_count set_ly].
    rewrite Hcode. repeat f_equal.
    unfold STAT_MODE_BITS. generalize (stat (ppu gb)); intros s. byte_bits. }
  split; [exact Ht |].
  destruct (last_dot_of_mode start on (scx (ppu gb)) _ 0 115 Hbits Hon ltac:(lia) Ht)
    as (g & Hg & Htg).
  change (Z.to_nat 115) with 115%nat in Hg.
  destruct (dot_ends_mode g on (scx (ppu gb)) _ 0 Hok Hbits Hon ltac:(lia) Htg)
    as (_ & _ & Hnext & _).
  split; [rewrite Hg; apply Hnext; [reflexivity | lia] |].
  assert (display_buffer (ppu (cycles 114 start)) = display_buffer (ppu gb)) as Hd.
  { rewrite cycles_within.
    - rewrite Hstart. reflexivity.
    - exact Hbits.
    - rewrite Hstart. cbn [lcdc set_lcdc]. exact Hon.
    - rewrite Hstart. cbn [count set_lcdc set_stat set_count]. lia. }
  change 115%nat with (S 114). rewrite cycles_succ.
  assert (timing (cycles 114 start) = (on, scx (ppu gb), GRAPHICS_MODE_HBLANK, 0, 1)) as Ht1
    by (apply (run_to_last_dot start on (scx (ppu gb)) _ 0 115 Hbits Hon ltac:(lia) Ht)).
  generalize dependent (cycles 114 start). intros g114 Hd Ht1.
  unfold timing in Ht1. injection Ht1 as Hl1 Hx1 Hm1 Hly1 Hc1.
  rewrite (ppu_cycle_boundary g114); [| now rewrite Hl1 | now rewrite Hc1].
  cbv zeta. cbn [stat ppu on_ppu set_count]. rewrite Hm1, Z.eqb_refl.
  rewrite display_buffer_compare.
  destruct (_ <? 144);
    [rewrite display_buffer_oam_search_enter | rewrite display_buffer_vblank_enter];
    exact Hd.
Qed.

(** X20 at work: the LCD switched off and on in the middle of line 10. *)
Lemma lcd_restart_skips_line_0_witness :
  timing (ppu_write_lcdc (ppu_write_lcdc in_data_transfer 0x11) 0x91)
  = (0x91, 0, 0, 0, 115) /\
  timing (@cycles dmg 115 (ppu_write_lcdc (ppu_write_lcdc in_data_transfer 0x11) 0x91))
  = (0x91, 0, 2, 1, 21) /\
  display_buffer
    (ppu (@cycles dmg 115 (ppu_write_lcdc (ppu_write_lcdc in_data_transfer 0x11) 0x91)))
  = display_buffer (ppu in_data_transfer).
Proof.
  refine (@lcd_restart_skips_line_0 dmg in_data_transfer 0x11 0x91 dmg_ok _ _ _ _).
  - vm_compute. discriminate.
  - reflexivity.
  - reflexivity.
  - vm_compute. discriminate.
Defined.

(** ** What holds in every state the controller can reach *)

Lemma memory_compare {H : Header} (gb : GameBoy) :
  vram (ppu (ppu_compare_ly_lyc gb)) = vram (ppu gb) /\
  oam (ppu (ppu_compare_ly_lyc gb)) = oam (ppu gb) /\
  tile_buffer (ppu (ppu_compare_ly_lyc gb)) = tile_buffer (ppu gb).
Proof.
  unfold ppu_compare_ly_lyc. destruct (negb _); [repeat split |].
  cbv zeta. destruct (c_true _); repeat split.
Qed.

Lemma memory_oam_search_enter {H : Header} (gb : GameBoy) :
  vram (ppu (ppu_oam_search_enter gb)) = vram (ppu gb) /\
  oam (ppu (ppu_oam_search_enter gb)) = oam (ppu gb) /\
  tile_buffer (ppu (ppu_oam_search_enter gb)) = tile_buffer (ppu gb).
Proof. unfold ppu_oam_search_enter. cbv zeta. destruct (c_true _); repeat split. Qed.

Lemma memory_vblank_enter {H : Header} (gb : GameBoy) :
  vram (ppu (ppu_vblank_enter gb)) = vram (ppu gb) /\
  oam (ppu (ppu_vblank_enter gb)) = oam (ppu gb) /\
  tile_buffer (ppu (ppu_vblank_enter gb)) = tile_buffer (ppu gb).
Proof. unfold ppu_vblank_enter. cbv zeta. destruct (_ || _); repeat split. Qed.

(** The per-dot advance reads the memories and never writes them. *)
Lemma ppu_cycle_memory {H : Header} (gb : GameBoy) :
  vram (ppu (ppu_cycle gb)) = vram (ppu gb) /\
  oam (ppu (ppu_cycle gb)) = oam (ppu gb) /\
  tile_buffer (ppu (ppu_cycle gb)) = tile_buffer (ppu gb).
Proof.
  destruct (Z.eq_dec (Z.land (lcdc (ppu gb)) LCDC_LCD_ENABLE_BIT) 0) as [Hoff | Hon].
  { unfold ppu_cycle, c_true. rewrite Hoff. repeat split. }
  destruct (ppu_cycle_shape gb Hon) as (g2 & Hp & _ & ->).
  assert (vram (ppu g2) = vram (ppu gb) /\ oam (ppu g2) = oam (ppu gb)
          /\ tile_buffer (ppu g2) = tile_buffer (ppu gb)) as Hm
    by (rewrite Hp; repeat split).
  destruct (negb _); [exact Hm |]. cbv zeta.
  destruct (_ =? GRAPHICS_MODE_HBLANK).
  { destruct (_ <? 144);
      match goal with
      | |- context [ppu_compare_ly_lyc ?g] =>
          destruct (memory_compare g) as (-> & -> & ->)
      end;
      [ match goal with
        | |- context [ppu_oam_search_enter ?g] =>
            destruct (memory_oam_search_enter g) as (-> & -> & ->)
        end
      | match goal with
        | |- context [ppu_vblank_enter ?g] =>
            destruct (memory_vblank_enter g) as (-> & -> & ->)
        end ]; exact Hm. }
  destruct (_ =? GRAPHICS_MODE_VBLANK).
  { destruct (_ >? 153);
      match goal with
      | |- context [ppu_compare_ly_lyc ?g] =>
          destruct (memory_compare g) as (-> & -> & ->)
      end;
      [ match goal with
        | |- context [ppu_oam_search_enter ?g] =>
            destruct (memory_oam_search_enter g) as (-> & -> & ->)
        end |]; exact Hm. }
  destruct (_ =? GRAPHICS_MODE_OAM_SEARCH); [exact Hm |].
  destruct (_ =? GRAPHICS_MODE_DATA_TRANSFER); exact Hm.
Qed.

Lemma cache_consistent_ext (p q : PPU) :
  vram p = vram q -> tile_buffer p = tile_buffer q -> cache_consistent q -> cache_consistent p.
Proof. intros Hv Ht Hq k pixel Hk Hp. rewrite Hv, Ht. now apply Hq. Qed.

Lemma well_formed_perform {H : Header} (op : operation) (gb : GameBoy) :
  in_range op -> well_formed (ppu gb) -> well_formed (ppu (perform op gb)).
Proof.
  intros Hr (Hv & Ho & Ht & Hd & Hc & Htt & Htd).
  destruct op as [| value | value | address value | address value]; cbn [perform in_range] in *.
  - destruct (ppu_cycle_memory gb) as (Ev & Eo & Et).
    assert (two_bit (display_buffer (ppu (ppu_cycle gb))) /\
            length (display_buffer (ppu (ppu_cycle gb))) = length (display_buffer (ppu gb)))
      as (Htd' & Hd').
    { destruct (ppu_cycle_display_buffer gb) as [-> | (g & Hg & ->)]; [now split |].
      destruct (draw_line_row g) as (Hlen & _ & Hkeep).
      rewrite Hg in Hlen, Hkeep. split; [now apply Hkeep | exact Hlen]. }
    unfold well_formed. rewrite Ev, Eo, Et, Hd'.
    repeat split; try assumption. now apply (cache_consistent_ext _ (ppu gb)).
  - unfold ppu_write_lcdc. destruct (negb _); repeat split; assumption.
  - repeat split; assumption.
  - unfold ppu_write_oam.
    destruct (_ =? GRAPHICS_MODE_DATA_TRANSFER); [repeat split; assumption |].
    destruct (_ =? GRAPHICS_MODE_OAM_SEARCH); repeat split; try assumption.
    cbn [ppu on_ppu oam set_oam]. now rewrite length_wr.
  - pose proof (ppu_write_vram_consistent gb address value Hr Hv Ht Hc) as Hc'.
    destruct (ppu_write_vram_cache_row gb address value) as (Ht' & _ & Htt').
    assert (oam (ppu (ppu_write_vram gb address value)) = oam (ppu gb) /\
            display_buffer (ppu (ppu_write_vram gb address value)) = display_buffer (ppu gb))
      as (Eo & Ed)
      by (unfold ppu_write_vram; destruct (address <? 0x1800); split; reflexivity).
    unfold well_formed. rewrite ppu_write_vram_vram, length_wr, Ht', Eo, Ed.
    repeat split; auto.
Qed.

(** The state left by the initialisation of a zeroed controller is well
    formed. *)
Lemma well_formed_power_on : well_formed (ppu power_on).
Proof.
  assert (vram (ppu power_on) = replicate 0x2000 0) as Ev by reflexivity.
  assert (oam (ppu power_on) = replicate 0xA0 0) as Eo by reflexivity.
  assert (tile_buffer (ppu power_on) = replicate (384 * 8 * 8) 0) as Et by reflexivity.
  assert (display_buffer (ppu power_on) = replicate (160 * 144) 0) as Ed by reflexivity.
  assert (cache_consistent (ppu power_on)) as Hc
    by (apply cache_consistent_zero; assumption).
  unfold well_formed. rewrite Ev, Eo, Et, Ed, !length_replicate, !Nat2Z.inj_mul.
  split; [reflexivity |]. split; [reflexivity |].
  split; [reflexivity |]. split; [reflexivity |].
  split; [exact Hc |]. split; apply Forall_replicate; lia.
Qed.

(** X21.  From a well-formed state, whatever sequence of calls the driver
    and the bus make (per-dot advances, writes to the control and status
    registers, to object memory and to video memory at decoded addresses),
    the state stays well formed: the four memories keep their sizes, the tile
    cache is the decoding of the tile data in video memory, and tile cache and
    display buffer hold 2-bit values only. *)
Theorem reachable_states_are_well_formed {H : Header} (ops : list operation) (gb : GameBoy) :
  well_formed (ppu gb) ->
  Forall in_range ops ->
  well_formed (ppu (run ops gb)).
Proof.
  intros Hwf Hops. unfold run. revert gb Hwf.
  induction Hops as [| op ops Hop _ IH]; intros gb Hwf; [exact Hwf |].
  cbn [fold_left]. apply IH. now apply well_formed_perform.
Qed.

(** X21 at work: tile data, a sprite and three dots after power-on, with the
    LCD switched off and on in between. *)
Lemma reachable_states_are_well_formed_witness :
  well_formed
    (ppu (@run dmg [WriteVram 0x10 0xFF; WriteStat 0x48; Dot; WriteOam 4 16;
                    WriteLcdc 0x11; WriteLcdc 0x91; Dot; Dot] power_on)).
Proof.
  refine (@reachable_states_are_well_formed dmg _ power_on well_formed_power_on _).
  repeat (constructor; [cbn [in_range]; first [lia | exact I] |]). constructor.
Defined.

(** ** Export routines: the walk over the tiles *)

Lemma for_up_ext {St Res : Type} (f g : Z -> St -> flow St Res) (n : nat) (i : Z) (s : St) :
  (forall k s, i <= k < i + Z.of_nat n -> f k s = g k s) ->
  for_up n i f s = for_up n i g s.
Proof.
  revert i s. induction n as [| n IH]; intros i s Hfg; [reflexivity |].
  cbn [for_up]. rewrite Hfg by lia.
  destruct (g i s) as [s' | s' r]; [| reflexivity].
  apply IH. intros k s0 Hk. apply Hfg. lia.
Qed.

Lemma for_up_shift {St Res : Type} (f : Z -> St -> flow St Res) (d : Z) (n : nat) (i : Z)
  (s : St) :
  for_up n i (fun k => f (k + d)) s = for_up n (i + d) f s.
Proof.
  revert i s. induction n as [| n IH]; intros i s; [reflexivity |].
  cbn [for_up]. destruct (f (i + d) s) as [s' | s' r]; [| reflexivity].
  rewrite IH. f_equal. lia.
Qed.

Lemma for_up_add {St Res : Type} (f : Z -> St -> flow St Res) (n m : nat) (i : Z) (s : St) :
  for_up (n + m) i f s
  = match for_up n i f s with
    | Next s' => for_up m (i + Z.of_nat n) f s'
    | Return s' r => Return s' r
    end.
Proof.
  revert i s. induction n as [| n IH]; intros i s.
  - cbn [for_up Nat.add Z.of_nat]. now rewrite Z.add_0_r.
  - cbn [for_up Nat.add]. destruct (f i s) as [s' | s' r]; [| reflexivity].
    rewrite IH. replace (i + 1 + Z.of_nat n) with (i + Z.of_nat (S n)) by lia. reflexivity.
Qed.

(** Two nested loops, the inner one from 0 to [m], are one loop over the
    pairs in row-major order. *)
Lemma for_up_nested {St Res : Type} (body : Z -> Z -> St -> flow St Res) (n m : nat) (i : Z)
  (s : St) :
  (0 < m)%nat ->
  for_up n i (fun a s => for_up m 0 (fun b s => body a b s) s) s
  = for_up (n * m) (i * Z.of_nat m)
      (fun j s => body (j / Z.of_nat m) (j mod Z.of_nat m) s) s.
Proof.
  intros Hm. revert i s. induction n as [| n IH]; intros i s; [reflexivity |].
  cbn [for_up Nat.mul]. rewrite for_up_add.
  assert (for_up m (i * Z.of_nat m)
            (fun j s => body (j / Z.of_nat m) (j mod Z.of_nat m) s) s
          = for_up m 0 (fun b s => body i b s) s) as ->.
  { rewrite <- (Z.add_0_l (i * Z.of_nat m)).
    rewrite <- (for_up_shift _ (i * Z.of_nat m)).
    apply for_up_ext. intros k s0 Hk.
    rewrite Z.div_add, Z.mod_add by lia.
    rewrite Z.div_small, Z.mod_small by lia. reflexivity. }
  destruct (for_up m 0 (fun b s => body i b s) s) as [s' | s' r]; [| reflexivity].
  rewrite IH. f_equal. lia.
Qed.

(** A loop that stores one element per step and returns once the index just
    stored is [length]: it stops right after the first such step. *)
Lemma export_loop_stops (index value : Z -> Z) (length : Z) (n : nat) (i stop : Z)
  (data : stores) :
  i <= stop < i + Z.of_nat n ->
  index stop = length ->
  (forall q, i <= q < stop -> index q <> length) ->
  for_up n i (fun q data =>
      let data := (index q, value q) :: data in
      if index q =? length then Return data length else Next data) data
  = Return
      (reverse (map (fun q => (index q, value q)) (seqZ i (stop - i + 1))) ++ data) length.
Proof.
  revert i data. induction n as [| n IH]; intros i data Hstop Hhit Hfirst; [lia |].
  cbn [for_up]. cbv zeta.
  destruct (Z.eqb_spec (index i) length) as [Hi | Hi].
  - assert (stop = i) as -> by (destruct (Z.eq_dec stop i); [assumption |];
                                exfalso; apply (Hfirst i); [lia | assumption]).
    replace (i - i + 1) with 1 by lia. reflexivity.
  - assert (stop <> i) by congruence.
    rewrite IH; [| lia | assumption | intros q Hq; apply Hfirst; lia].
    rewrite (seqZ_cons i (stop - i + 1)) by lia.
    cbn [map]. rewrite reverse_cons, <- app_assoc.
    replace (Z.succ i) with (i + 1) by lia.
    replace (Z.pred (stop - i + 1)) with (stop - (i + 1) + 1) by lia. reflexivity.
Qed.

Lemma export_loop_runs (index value : Z -> Z) (length : Z) (n : nat) (i : Z) (data : stores) :
  (forall q, i <= q < i + Z.of_nat n -> index q <> length) ->
  for_up n i (fun q data =>
      let data := (index q, value q) :: data in
      if index q =? length then Return data length else Next data) data
  = Next (reverse (map (fun q => (index q, value q)) (seqZ i (Z.of_nat n))) ++ data).
Proof.
  revert i data. induction n as [| n IH]; intros i data Hmiss; [reflexivity |].
  cbn [for_up]. cbv zeta.
  destruct (Z.eqb_spec (index i) length) as [Hi | Hi]; [exfalso; apply (Hmiss i); [lia | easy] |].
  rewrite IH by (intros q Hq; apply Hmiss; lia).
  rewrite (seqZ_cons i (Z.of_nat (S n))) by lia.
  cbn [map]. rewrite reverse_cons, <- app_assoc.
  replace (Z.succ i) with (i + 1) by lia.
  replace (Z.pred (Z.of_nat (S n))) with (Z.of_nat n) by lia. reflexivity.
Qed.

(** The walk visits every element of a 16-tile-wide view of 24 rows of tiles
    once, and so does the walk over a 32-tile-wide view of 32 rows. *)
Lemma view_index_16 (q : Z) :
  0 <= q < 24576 -> 0 <= view_index 16 q < 24576 /\ view_step 16 (view_index 16 q) = q.
Proof.
  intros Hq. unfold view_index, view_step, PPU_PIXELS_PER_TILE_ROW. cbv zeta.
  Z.div_mod_to_equations. lia.
Qed.

Lemma view_step_16 (i : Z) :
  0 <= i < 24576 -> 0 <= view_step 16 i < 24576 /\ view_index 16 (view_step 16 i) = i.
Proof.
  intros Hi. unfold view_index, view_step, PPU_PIXELS_PER_TILE_ROW. cbv zeta.
  Z.div_mod_to_equations. lia.
Qed.

Lemma view_index_32 (q : Z) :
  0 <= q < 65536 -> 0 <= view_index 32 q < 65536 /\ view_step 32 (view_index 32 q) = q.
Proof.
  intros Hq. unfold view_index, view_step, PPU_PIXELS_PER_TILE_ROW. cbv zeta.
  Z.div_mod_to_equations. lia.
Qed.

Lemma view_step_32 (i : Z) :
  0 <= i < 65536 -> 0 <= view_step 32 i < 65536 /\ view_index 32 (view_step 32 i) = i.
Proof.
  intros Hi. unfold view_index, view_step, PPU_PIXELS_PER_TILE_ROW. cbv zeta.
  Z.div_mod_to_equations. lia.
Qed.

(** The three nested loops of the tile-set and background exports are one
    loop over the steps of the walk. *)
Lemma view_walk {St Res : Type} (tiles : nat) (body : Z -> Z -> Z -> St -> flow St Res)
  (s : St) :
  for_up tiles 0 (fun tile s =>
    for_up 8 0 (fun row s => for_up 8 0 (fun pixel s => body tile row pixel s) s) s) s
  = for_up (tiles * 64) 0 (fun q s => body (q / 64) (q / 8 mod 8) (q mod 8) s) s.
Proof.
  transitivity
    (for_up tiles 0 (fun tile s =>
       for_up 64 0 (fun j s => body tile (j / 8) (j mod 8) s) s) s).
  - apply for_up_ext. intros tile s0 _.
    exact (for_up_nested (body tile) 8 8 0 s0 ltac:(lia)).
  - rewrite (for_up_nested (fun tile j s => body tile (j / 8) (j mod 8) s) tiles 64 0 s)
      by lia.
    apply for_up_ext. intros q s0 _.
    change (Z.of_nat 64) with 64.
    replace (q mod 64 / 8) with (q / 8 mod 8) by (Z.div_mod_to_equations; lia).
    replace (q mod 64 mod 8) with (q mod 8) by (Z.div_mod_to_equations; lia).
    reflexivity.
Qed.

(** What an export that walks a view leaves behind, given that the walk
    visits every element of the view once. *)
Lemma view_export (w full : Z) (tiles : nat) (value : Z -> Z) (length : Z) :
  Z.of_nat (tiles * 64) = full ->
  (forall q, 0 <= q < full -> 0 <= view_index w q < full /\ view_step w (view_index w q) = q) ->
  (forall i, 0 <= i < full -> 0 <= view_step w i < full /\ view_index w (view_step w i) = i) ->
  0 <= length ->
  exported
    (for_up (tiles * 64) 0 (fun q data =>
       let data := (view_index w q, value q) :: data in
       if view_index w q =? length then Return data length else Next data) [])
    full
  = (map (fun q => (view_index w q, value q)) (seqZ 0 (steps_made w full length)),
     Z.min length full).
Proof.
  intros Hfull Hindex Hstep Hlen. unfold steps_made.
  destruct (Z.ltb_spec length full) as [Hlt | Hge].
  - destruct (Hstep length ltac:(lia)) as (Hrange & Hback).
    rewrite (export_loop_stops (view_index w) value length (tiles * 64) 0
               (view_step w length)).
    + unfold exported. rewrite app_nil_r, reverse_involutive, Z.sub_0_r.
      now rewrite Z.min_l by lia.
    + lia.
    + exact Hback.
    + intros q Hq Heq.
      destruct (Hindex q ltac:(lia)) as (_ & Hq'). rewrite Heq in Hq'. lia.
  - rewrite (export_loop_runs (view_index w) value length (tiles * 64) 0).
    + unfold exported. rewrite app_nil_r, reverse_involutive, Hfull.
      now rewrite Z.min_r by lia.
    + intros q Hq. destruct (Hindex q ltac:(lia)). lia.
Qed.

Lemma tile_at_step (tb : list Z) (q : Z) : tile_at tb (q / 64) (q / 8 mod 8) (q mod 8) = rd tb q.
Proof.
  unfold tile_at, PPU_ROWS_PER_TILE, PPU_PIXELS_PER_TILE_ROW. f_equal.
  Z.div_mod_to_equations. lia.
Qed.

(** X22.  The tile-set export lays the tile cache out as a picture 16 tiles
    wide: step [q] of its walk stores cell [q] of the cache (tile [q / 64],
    row [q / 8 mod 8], pixel [q mod 8]) in element [view_index 16 q] of the
    destination.  Asked for [length] elements it makes the steps up to the one
    that writes element [length] and returns [length], or makes all 24576 steps
    and returns 24576 when there is no such element.  The walk visits every
    element of the picture once, so a full export fills the destination. *)
Theorem tileset_export_layout (gb : GameBoy) (length : Z) :
  0 <= length ->
  let full := PPU_TS_WIDTH_IN_PIXELS * PPU_TS_HEIGHT_IN_PIXELS in
  ppu_get_tileset_data gb length
  = (map (fun q => (view_index PPU_TS_WIDTH_IN_TILES q, rd (tile_buffer (ppu gb)) q))
       (seqZ 0 (steps_made PPU_TS_WIDTH_IN_TILES full length)),
     Z.min length full) /\
  (forall q, 0 <= q < full ->
     0 <= view_index PPU_TS_WIDTH_IN_TILES q < full /\
     view_step PPU_TS_WIDTH_IN_TILES (view_index PPU_TS_WIDTH_IN_TILES q) = q) /\
  (forall i, 0 <= i < full ->
     0 <= view_step PPU_TS_WIDTH_IN_TILES i < full /\
     view_index PPU_TS_WIDTH_IN_TILES (view_step PPU_TS_WIDTH_IN_TILES i) = i).
Proof.
  intros Hlen full.
  change full with 24576. change PPU_TS_WIDTH_IN_TILES with 16.
  split; [| split; [exact view_index_16 | exact view_step_16]].
  unfold ppu_get_tileset_data.
  change (PPU_TS_WIDTH_IN_PIXELS * PPU_TS_HEIGHT_IN_PIXELS) with 24576.
  rewrite <- (view_export 16 24576 384 (rd (tile_buffer (ppu gb))) length
                eq_refl view_index_16 view_step_16 Hlen).
  f_equal.
  etransitivity.
  - exact (view_walk 384
             (fun tile row pixel data =>
                let y := tile / PPU_TS_WIDTH_IN_TILES * PPU_PIXELS_PER_TILE_ROW + row in
                let x := (tile mod PPU_TS_WIDTH_IN_TILES) * PPU_PIXELS_PER_TILE_ROW + pixel in
                let data :=
                  (x + y * PPU_TS_WIDTH_IN_PIXELS,
                   tile_at (tile_buffer (ppu gb)) tile row pixel) :: data in
                if x + y * PPU_TS_WIDTH_IN_PIXELS =? length
                then Return data length else Next data) []).
  - apply for_up_ext. intros q data _. cbv zeta. rewrite tile_at_step. reflexivity.
Qed.

(** X22 at work: asked for 8 elements, the export makes the 65 steps up to
    the first pixel of the second row of tile 0. *)
Lemma tileset_export_layout_witness :
  let full := PPU_TS_WIDTH_IN_PIXELS * PPU_TS_HEIGHT_IN_PIXELS in
  ppu_get_tileset_data one_tile_row 8
  = (map (fun q => (view_index PPU_TS_WIDTH_IN_TILES q, rd (tile_buffer (ppu one_tile_row)) q))
       (seqZ 0 (steps_made PPU_TS_WIDTH_IN_TILES full 8)),
     Z.min 8 full) /\
  (forall q, 0 <= q < full ->
     0 <= view_index PPU_TS_WIDTH_IN_TILES q < full /\
     view_step PPU_TS_WIDTH_IN_TILES (view_index PPU_TS_WIDTH_IN_TILES q) = q) /\
  (forall i, 0 <= i < full ->
     0 <= view_step PPU_TS_WIDTH_IN_TILES i < full /\
     view_index PPU_TS_WIDTH_IN_TILES (view_step PPU_TS_WIDTH_IN_TILES i) = i).
Proof.
  refine (tileset_export_layout one_tile_row 8 _). lia.
Defined.

(** The steps of the background export and what each stores. *)
Lemma ppu_get_background_data_steps (gb : GameBoy) (length : Z) :
  0 <= length ->
  ppu_get_background_data gb length
  = (map (fun q => (view_index PPU_BG_WIDTH_IN_TILES q, background_color gb q))
       (seqZ 0 (steps_made PPU_BG_WIDTH_IN_TILES
                  (PPU_BG_WIDTH_IN_PIXELS * PPU_BG_HEIGHT_IN_PIXELS) length)),
     Z.min length (PPU_BG_WIDTH_IN_PIXELS * PPU_BG_HEIGHT_IN_PIXELS)).
Proof.
  intros Hlen. unfold ppu_get_background_data.
  change (PPU_BG_WIDTH_IN_PIXELS * PPU_BG_HEIGHT_IN_PIXELS) with 65536.
  change PPU_BG_WIDTH_IN_TILES with 32.
  rewrite <- (view_export 32 65536 1024 (background_color gb) length
                eq_refl view_index_32 view_step_32 Hlen).
  f_equal.
  etransitivity.
  - exact (view_walk 1024
             (fun tile row pixel data =>
                let y := tile / PPU_BG_WIDTH_IN_TILES * PPU_PIXELS_PER_TILE_ROW + row in
                let x := (tile mod PPU_BG_WIDTH_IN_TILES) * PPU_PIXELS_PER_TILE_ROW + pixel in
                let tile_id := rd (vram (ppu gb)) (PPU_BACKGROUND1_START + tile) in
                let tile_id := translate_tile_id (lcdc (ppu gb)) tile_id in
                let data :=
                  (x + y * PPU_BG_WIDTH_IN_PIXELS,
                   tile_at (tile_buffer (ppu gb)) tile_id row pixel) :: data in
                if x + y * PPU_BG_WIDTH_IN_PIXELS =? length
                then Return data length else Next data) []).
  - apply for_up_ext. intros q data _. reflexivity.
Qed.

(** X23.  The background export lays the first tile-index map out as a
    picture 32 tiles wide: step [q] of its walk looks up entry [q / 64] of the
    map at 0x1800, translates it by the addressing mode of the control
    register, and stores the cached color index of that tile at row
    [q / 8 mod 8], pixel [q mod 8] in element [view_index 32 q].  The count is
    handled as in the tile-set export, and the walk visits every element of
    the 256x256 picture once. *)
Theorem background_export_layout (gb : GameBoy) (length : Z) :
  0 <= length ->
  let full := PPU_BG_WIDTH_IN_PIXELS * PPU_BG_HEIGHT_IN_PIXELS in
  ppu_get_background_data gb length
  = (map (fun q => (view_index PPU_BG_WIDTH_IN_TILES q, background_color gb q))
       (seqZ 0 (steps_made PPU_BG_WIDTH_IN_TILES full length)),
     Z.min length full) /\
  (forall q, 0 <= q < full ->
     0 <= view_index PPU_BG_WIDTH_IN_TILES q < full /\
     view_step PPU_BG_WIDTH_IN_TILES (view_index PPU_BG_WIDTH_IN_TILES q) = q) /\
  (forall i, 0 <= i < full ->
     0 <= view_step PPU_BG_WIDTH_IN_TILES i < full /\
     view_index PPU_BG_WIDTH_IN_TILES (view_step PPU_BG_WIDTH_IN_TILES i) = i).
Proof.
  intros Hlen full.
  split; [now apply ppu_get_background_data_steps |].
  split; [exact view_index_32 | exact view_step_32].
Qed.

(** X23 at work: asked for 8 elements, the export makes 65 steps. *)
Lemma background_export_layout_witness :
  let full := PPU_BG_WIDTH_IN_PIXELS * PPU_BG_HEIGHT_IN_PIXELS in
  ppu_get_background_data one_tile_row 8
  = (map (fun q => (view_index PPU_BG_WIDTH_IN_TILES q, background_color one_tile_row q))
       (seqZ 0 (steps_made PPU_BG_WIDTH_IN_TILES full 8)),
     Z.min 8 full) /\
  (forall q, 0 <= q < full ->
     0 <= view_index PPU_BG_WIDTH_IN_TILES q < full /\
     view_step PPU_BG_WIDTH_IN_TILES (view_index PPU_BG_WIDTH_IN_TILES q) = q) /\
  (forall i, 0 <= i < full ->
     0 <= view_step PPU_BG_WIDTH_IN_TILES i < full /\
     view_index PPU_BG_WIDTH_IN_TILES (view_step PPU_BG_WIDTH_IN_TILES i) = i).
Proof.
  refine (background_export_layout one_tile_row 8 _). lia.
Defined.

(** ** Line renderer: what the passes draw, and where *)

(** A loop that writes cell [i + base] for every [i] of a range leaves the
    other cells alone, and leaves in each cell of the range the value
    written for it. *)
Lemma fold_wr_other (value : Z -> Z) (base : Z) (n : nat) (lo : Z) (db : list Z) (j : Z) :
  ~ lo + base <= j < lo + Z.of_nat n + base ->
  rd (fold_left (fun db i => wr db (i + base) (value i)) (seqZ lo (Z.of_nat n)) db) j
  = rd db j.
Proof.
  revert lo db. induction n as [| n IH]; intros lo db Hj; [reflexivity |].
  rewrite seqZ_cons by lia. cbn [fold_left].
  replace (Z.pred (Z.of_nat (S n))) with (Z.of_nat n) by lia.
  rewrite IH by lia. apply rd_wr_ne. lia.
Qed.

Lemma fold_wr_rd (value : Z -> Z) (base : Z) (n : nat) (lo : Z) (db : list Z) (j : Z) :
  0 <= lo + base ->
  lo <= j < lo + Z.of_nat n ->
  lo + Z.of_nat n + base <= Z.of_nat (length db) ->
  rd (fold_left (fun db i => wr db (i + base) (value i)) (seqZ lo (Z.of_nat n)) db) (j + base)
  = value j.
Proof.
  revert lo db. induction n as [| n IH]; intros lo db Hlo Hj Hlen; [lia |].
  rewrite seqZ_cons by lia. cbn [fold_left].
  replace (Z.pred (Z.of_nat (S n))) with (Z.of_nat n) by lia.
  destruct (Z.eq_dec j lo) as [-> | Hne].
  - rewrite fold_wr_other by lia. apply rd_wr_eq. lia.
  - apply IH; [lia | lia | rewrite length_wr; lia].
Qed.

(** The pixel the background pass leaves in column [i] of line [ly]. *)
Lemma draw_background_pixel (p : PPU) (db : list Z) (i : Z) :
  0 <= ly p ->
  (ly p + 1) * 160 <= Z.of_nat (length db) ->
  0 <= i < 160 ->
  rd (draw_background p db) (i + ly p * 160)
  = let background_row := u8 (scy p + ly p) in
    let background_column := u8 (scx p + i) in
    let map_offset :=
      if c_true (Z.land (lcdc p) LCDC_BG_MAP_BIT)
      then PPU_BACKGROUND2_START else PPU_BACKGROUND1_START in
    palette_lookup (bgp p)
      (tile_at (tile_buffer p)
         (translate_tile_id (lcdc p)
            (rd (vram p) (map_offset + background_column / 8
                          + background_row / 8 * PPU_BG_WIDTH_IN_TILES)))
         (background_row mod 8) (background_column mod 8)).
Proof.
  intros Hly Hlen Hi. unfold draw_background, GAMEBOY_DISPLAY_WIDTH. cbv zeta.
  change 160 with (Z.of_nat 160).
  exact (fold_wr_rd
           (fun i =>
              palette_lookup (bgp p)
                (tile_at (tile_buffer p)
                   (translate_tile_id (lcdc p)
                      (rd (vram p)
                         ((if c_true (Z.land (lcdc p) LCDC_BG_MAP_BIT)
                           then PPU_BACKGROUND2_START else PPU_BACKGROUND1_START)
                          + u8 (scx p + i) / 8
                          + u8 (scy p + ly p) / 8 * PPU_BG_WIDTH_IN_TILES)))
                   (u8 (scy p + ly p) mod 8) (u8 (scx p + i) mod 8)))
           (ly p * Z.of_nat 160) 160 0 db i ltac:(lia) ltac:(lia) ltac:(lia)).
Qed.

(** The step of the background export that writes the pixel in column [x]
    of row [y] of the picture looks at the map entry, the tile row and the tile
    pixel the line renderer looks at. *)
Lemma background_color_at (gb : GameBoy) (x y : Z) :
  0 <= x < 256 -> 0 <= y < 256 ->
  background_color gb (view_step PPU_BG_WIDTH_IN_TILES (x + y * PPU_BG_WIDTH_IN_PIXELS))
  = tile_at (tile_buffer (ppu gb))
      (translate_tile_id (lcdc (ppu gb))
         (rd (vram (ppu gb)) (PPU_BACKGROUND1_START + x / 8 + y / 8 * PPU_BG_WIDTH_IN_TILES)))
      (y mod 8) (x mod 8).
Proof.
  intros Hx Hy. unfold background_color, view_step, PPU_BG_WIDTH_IN_TILES,
    PPU_BG_WIDTH_IN_PIXELS, PPU_BACKGROUND1_START.
  cbv zeta. change (32 * 8) with 256.
  assert ((x + y * 256) / 256 = y) as -> by (Z.div_mod_to_equations; lia).
  assert ((x + y * 256) mod 256 = x) as -> by (Z.div_mod_to_equations; lia).
  set (q := ((y / 8 * 32 + x / 8) * 8 + y mod 8) * 8 + x mod 8).
  assert (q / 64 = y / 8 * 32 + x / 8) as -> by (unfold q; Z.div_mod_to_equations; lia).
  assert (q / 8 mod 8 = y mod 8) as -> by (unfold q; Z.div_mod_to_equations; lia).
  assert (q mod 8 = x mod 8) as -> by (unfold q; Z.div_mod_to_equations; lia).
  do 3 f_equal. lia.
Qed.

(** X24.  The line renderer and the background export show the same
    picture.  With the background on and taken from the map at 0x1800, the
    window off and the sprites off, pixel [i] of the line just drawn is the
    background palette applied to the color index the full export stores for
    column [scx + i] of row [scy + ly] of the 256x256 picture, both sums
    wrapping at 256. *)
Theorem background_line_shows_exported_picture (gb : GameBoy) (i : Z) :
  Z.land (lcdc (ppu gb)) LCDC_BG_ENABLE_BIT <> 0 ->
  Z.land (lcdc (ppu gb)) LCDC_BG_MAP_BIT = 0 ->
  Z.land (lcdc (ppu gb)) LCDC_WINDOW_ENABLE_BIT = 0 ->
  Z.land (lcdc (ppu gb)) LCDC_SPRITE_ENABLE_BIT = 0 ->
  0 <= ly (ppu gb) <= 143 ->
  Z.of_nat (length (display_buffer (ppu gb))) = 160 * 144 ->
  0 <= i < 160 ->
  let element :=
    u8 (scx (ppu gb) + i) + u8 (scy (ppu gb) + ly (ppu gb)) * PPU_BG_WIDTH_IN_PIXELS in
  let color := background_color gb (view_step PPU_BG_WIDTH_IN_TILES element) in
  In (element, color)
    (fst (ppu_get_background_data gb (PPU_BG_WIDTH_IN_PIXELS * PPU_BG_HEIGHT_IN_PIXELS))) /\
  rd (display_buffer (ppu (ppu_draw_line gb))) (i + ly (ppu gb) * 160)
  = palette_lookup (bgp (ppu gb)) color.
Proof.
  intros Hbg Hmap Hwin Hspr Hly Hlen Hi element color.
  pose proof (Z.mod_pos_bound (scx (ppu gb) + i) 256 ltac:(lia)) as Hx.
  pose proof (Z.mod_pos_bound (scy (ppu gb) + ly (ppu gb)) 256 ltac:(lia)) as Hy.
  fold (u8 (scx (ppu gb) + i)) in Hx. fold (u8 (scy (ppu gb) + ly (ppu gb))) in Hy.
  assert (0 <= element < 65536) as He by (unfold element, PPU_BG_WIDTH_IN_PIXELS; lia).
  split.
  - rewrite ppu_get_background_data_steps by (vm_compute; discriminate).
    cbn [fst].
    assert (steps_made PPU_BG_WIDTH_IN_TILES
              (PPU_BG_WIDTH_IN_PIXELS * PPU_BG_HEIGHT_IN_PIXELS)
              (PPU_BG_WIDTH_IN_PIXELS * PPU_BG_HEIGHT_IN_PIXELS) = 65536) as -> by reflexivity.
    destruct (view_step_32 element He) as (Hrange & Hback).
    apply in_map_iff.
    exists (view_step 32 element). split.
    + unfold color. change PPU_BG_WIDTH_IN_TILES with 32. now rewrite Hback.
    + apply list_elem_of_In, elem_of_seqZ. lia.
  - unfold ppu_draw_line. cbv zeta.
    apply c_true_iff in Hbg. rewrite Hbg.
    assert (window_visible (ppu gb) = false) as ->
      by (unfold window_visible, c_true; rewrite Hwin; reflexivity).
    unfold c_true at 1. rewrite Hspr. cbn [Z.eqb negb].
    cbn [ppu on_ppu display_buffer set_window_internal_line set_display_buffer].
    rewrite draw_background_pixel by lia. cbv zeta.
    unfold c_true. rewrite Hmap. cbn [Z.eqb negb].
    unfold color, element. now rewrite background_color_at.
Qed.

(** X24 at work: column 3 of line 0 after the first row of tile 0 was set to
    color index 1 and the sprites were switched off. *)
Lemma background_line_shows_exported_picture_witness :
  let gb := ppu_write_lcdc one_tile_row 0x91 in
  let element := u8 (scx (ppu gb) + 3) + u8 (scy (ppu gb) + ly (ppu gb)) * PPU_BG_WIDTH_IN_PIXELS in
  let color := background_color gb (view_step PPU_BG_WIDTH_IN_TILES element) in
  In (element, color)
    (fst (ppu_get_background_data gb (PPU_BG_WIDTH_IN_PIXELS * PPU_BG_HEIGHT_IN_PIXELS))) /\
  rd (display_buffer (ppu (ppu_draw_line gb))) (3 + ly (ppu gb) * 160)
  = palette_lookup (bgp (ppu gb)) color.
Proof.
  refine (background_line_shows_exported_picture (ppu_write_lcdc one_tile_row 0x91) 3
            _ _ _ _ _ _ _).
  - vm_compute. discriminate.
  - reflexivity.
  - reflexivity.
  - reflexivity.
  - vm_compute. split; discriminate.
  - vm_compute. reflexivity.
  - lia.
Defined.

(** X25.  The window pass draws from column [wx - 7] to the right edge of
    the line and nowhere else.  A window register below 7 or above 166 puts
    that column off the screen: the pass then draws nothing at all, although
    the window counts as visible (the test on [wx - 7] is made before the
    subtraction wraps) and its line counter advances. *)
Theorem window_pass_columns (gb : GameBoy) :
  window_visible (ppu gb) = true ->
  0 <= wx (ppu gb) <= 255 ->
  window_internal_line (ppu (ppu_draw_line gb)) = u8 (window_internal_line (ppu gb) + 1) /\
  (forall (db : list Z) (j : Z),
     ~ (7 <= wx (ppu gb) /\
        wx (ppu gb) - 7 + ly (ppu gb) * 160 <= j < 160 + ly (ppu gb) * 160) ->
     rd (draw_window (ppu gb) db) j = rd db j) /\
  (wx (ppu gb) < 7 \/ 167 <= wx (ppu gb) ->
   forall db : list Z, draw_window (ppu gb) db = db).
Proof.
  intros Hvis Hwx. split; [| split].
  - unfold ppu_draw_line. cbv zeta. rewrite Hvis. reflexivity.
  - intros db j Hj. unfold draw_window, GAMEBOY_DISPLAY_WIDTH. cbv zeta.
    destruct (Z.lt_ge_cases (wx (ppu gb)) 7) as [Hlow | Hhigh].
    + assert (u8 (wx (ppu gb) - 7) = wx (ppu gb) + 249) as ->
        by (unfold u8; Z.div_mod_to_equations; lia).
      rewrite seqZ_nil by lia. reflexivity.
    + assert (u8 (wx (ppu gb) - 7) = wx (ppu gb) - 7) as ->
        by (apply Z.mod_small; lia).
      destruct (Z.le_gt_cases 160 (wx (ppu gb) - 7)) as [Hoff | Hon].
      * rewrite seqZ_nil by lia. reflexivity.
      * rewrite <- (Z2Nat.id (160 - (wx (ppu gb) - 7))) by lia.
        apply (fold_wr_other
                 (fun i =>
                    palette_lookup (bgp (ppu gb))
                      (tile_at (tile_buffer (ppu gb))
                         (translate_tile_id (lcdc (ppu gb))
                            (rd (vram (ppu gb))
                               ((if c_true (Z.land (lcdc (ppu gb)) LCDC_WINDOW_MAP_BIT)
                                 then PPU_BACKGROUND2_START else PPU_BACKGROUND1_START)
                                + (if u8 (scx (ppu gb) + i) >=? wx (ppu gb) - 7
                                   then u8 (i - (wx (ppu gb) - 7))
                                   else u8 (scx (ppu gb) + i)) / 8
                                + window_internal_line (ppu gb) / 8 * PPU_BG_WIDTH_IN_TILES)))
                         (window_internal_line (ppu gb) mod 8)
                         ((if u8 (scx (ppu gb) + i) >=? wx (ppu gb) - 7
                           then u8 (i - (wx (ppu gb) - 7))
                           else u8 (scx (ppu gb) + i)) mod 8)))
                 (ly (ppu gb) * 160)).
        rewrite Z2Nat.id by lia. lia.
  - intros Hout db. unfold draw_window, GAMEBOY_DISPLAY_WIDTH. cbv zeta.
    assert (160 <= u8 (wx (ppu gb) - 7)) by (unfold u8; Z.div_mod_to_equations; lia).
    rewrite seqZ_nil by lia. reflexivity.
Qed.

(** X25 at work: the window enabled with its register at 0, on line 10. *)
Lemma window_pass_columns_witness :
  let gb := with_registers 0xB1 0x03 10 0 5 in
  window_internal_line (ppu (ppu_draw_line gb)) = u8 (window_internal_line (ppu gb) + 1) /\
  (forall (db : list Z) (j : Z),
     ~ (7 <= wx (ppu gb) /\
        wx (ppu gb) - 7 + ly (ppu gb) * 160 <= j < 160 + ly (ppu gb) * 160) ->
     rd (draw_window (ppu gb) db) j = rd db j) /\
  (wx (ppu gb) < 7 \/ 167 <= wx (ppu gb) ->
   forall db : list Z, draw_window (ppu gb) db = db).
Proof.
  refine (window_pass_columns (with_registers 0xB1 0x03 10 0 5) _ _).
  - reflexivity.
  - vm_compute. split; discriminate.
Defined.

(** X26.  A sprite is painted into its own eight columns, [X - 8] to
    [X - 1], clipped to the 160 columns of the line: every other cell of the
    display buffer is as before.  A sprite with X = 0 or X >= 168 is wholly
    off the screen and changes no cell, and a sprite hanging over the left
    edge does not wrap around to the right. *)
Theorem sprite_paints_its_own_columns (p : PPU) (sprite_size : Z) (sprite db : list Z)
  (j : Z) :
  0 <= rd sprite 1 <= 255 ->
  ~ (Z.max 0 (rd sprite 1 - 8) + ly p * 160 <= j < Z.min 160 (rd sprite 1) + ly p * 160) ->
  rd (paint_sprite p sprite_size sprite db) j = rd db j.
Proof.
  intros Hx Hj.
  assert (row_update (Z.max 0 (rd sprite 1 - 8) + ly p * 160)
            (Z.min 160 (rd sprite 1) + ly p * 160) db
            (paint_sprite p sprite_size sprite db)) as (_ & Hother & _);
    [| now apply Hother].
  unfold paint_sprite. cbv zeta. apply row_update_fold.
  intros db' tile_column Hc. apply In_seqZ in Hc. unfold GAMEBOY_DISPLAY_WIDTH.
  destruct (Z.lt_ge_cases (rd sprite 1 - 8 + tile_column) 0) as [Hneg | Hpos].
  - assert (size_t (rd sprite 1 - 8 + tile_column) = rd sprite 1 - 8 + tile_column + 2 ^ 64)
      as -> by (unfold size_t; Z.div_mod_to_equations; lia).
    rewrite (proj2 (Z.gtb_lt _ _)) by lia. rewrite orb_true_r. apply row_update_refl.
  - assert (size_t (rd sprite 1 - 8 + tile_column) = rd sprite 1 - 8 + tile_column)
      as -> by (apply Z.mod_small; lia).
    destruct (Z.ltb_spec (rd sprite 1 - 8 + tile_column) 0); [lia |]. cbn [orb].
    destruct (Z.gtb_spec (rd sprite 1 - 8 + tile_column) (160 - 1)); [apply row_update_refl |].
    match goal with |- context [if ?c then _ else _] => destruct c end;
      [| apply row_update_refl].
    apply row_update_wr; [lia | apply palette_lookup_range].
Qed.

(** X26 at work: a sprite at X = 4 hangs over the left edge and reaches
    columns 0 to 3; column 159 is not touched. *)
Lemma sprite_paints_its_own_columns_witness :
  rd (paint_sprite (ppu tied_sprites) 8 [16; 4; 1; 0] (display_buffer zero_ppu)) 159
  = rd (display_buffer zero_ppu) 159.
Proof.
  refine (sprite_paints_its_own_columns (ppu tied_sprites) 8 [16; 4; 1; 0]
            (display_buffer zero_ppu) 159 _ _).
  - vm_compute. split; discriminate.
  - vm_compute. intros (_ & Hlt). discriminate Hlt.
Defined.

(** X27.  With the background, the window and the sprites all switched off
    the renderer draws nothing: the line keeps the pixels of the frame before,
    it is not blanked, and the window line counter stands still. *)
Theorem no_layer_no_drawing (gb : GameBoy) :
  Z.land (lcdc (ppu gb)) LCDC_BG_ENABLE_BIT = 0 ->
  Z.land (lcdc (ppu gb)) LCDC_WINDOW_ENABLE_BIT = 0 ->
  Z.land (lcdc (ppu gb)) LCDC_SPRITE_ENABLE_BIT = 0 ->
  ppu_draw_line gb = gb.
Proof.
  intros Hbg Hwin Hspr. unfold ppu_draw_line, window_visible, c_true. cbv zeta.
  rewrite Hbg, Hwin, Hspr. cbn [Z.eqb negb andb].
  destruct gb as [p f]. destruct p. reflexivity.
Qed.

(** X27 at work: the LCD on with every layer off. *)
Lemma no_layer_no_drawing_witness :
  ppu_draw_line (with_registers 0x90 0x03 10 0 1) = with_registers 0x90 0x03 10 0 1.
Proof.
  refine (no_layer_no_drawing (with_registers 0x90 0x03 10 0 1) _ _ _); reflexivity.
Defined.
